(** * Usage Aggregation Engine of cf-billing-usage-analytics

    A shallow embedding of the TypeScript sources [src/graphql.ts]
    (query builder, result normaliser, zone fan-out, batched runner,
    categoriser) and [src/config.ts] (runtime product configuration,
    billing period), followed by the properties of the engine.

    Conventions of the embedding:
    - a JavaScript [number] is a value of [num]: an exact rational or one
      of the three special values of IEEE arithmetic.  Rounding, overflow
      and the sign of zero are not modelled;
    - [undefined] is [None], JSON [null] is [Some JNull];
    - a [Date] is its time value, the number of milliseconds since the
      epoch; the local time zone of the Workers runtime is UTC;
    - the network is an oracle [exec]; every request is appended to a trace
      of events, so that "no query is issued" is a statement about it. *)

From Stdlib Require Import ZArith QArith Lqa Bool List String Ascii Lia.
From Stdlib Require Import Permutation Sorted.
From Stdlib Require Import Qround DecimalString.
Import ListNotations.

Local Open Scope Z_scope.

(* ================================================================== *)
(** * JavaScript numbers *)
(* ================================================================== *)

Module JsNum.

Inductive num : Type :=
| Fin (q : Q)
| PInf
| NInf
| NaN.

Definition ofZ (z : Z) : num := Fin (inject_Z z).

Definition zero : num := ofZ 0.

(** Sign of a rational, as a comparison with zero. *)
Definition Qsign (q : Q) : comparison := (Qnum q ?= 0)%Z.

Definition Qltb (a b : Q) : bool := negb (Qle_bool b a).

(** [a + b] *)
Definition add (a b : num) : num :=
  match a, b with
  | NaN, _ | _, NaN => NaN
  | PInf, NInf | NInf, PInf => NaN
  | PInf, _ | _, PInf => PInf
  | NInf, _ | _, NInf => NInf
  | Fin x, Fin y => Fin (Qred (x + y))
  end.

(** [- a] *)
Definition neg (a : num) : num :=
  match a with
  | NaN => NaN
  | PInf => NInf
  | NInf => PInf
  | Fin x => Fin (Qred (- x))
  end.

(** [a - b] *)
Definition sub (a b : num) : num :=
  match a, b with
  | NaN, _ | _, NaN => NaN
  | PInf, PInf | NInf, NInf => NaN
  | PInf, _ | _, NInf => PInf
  | NInf, _ | _, PInf => NInf
  | Fin x, Fin y => Fin (Qred (x - y))
  end.

Definition signedInf (c : comparison) : num :=
  match c with
  | Gt => PInf
  | Lt => NInf
  | Eq => NaN
  end.

Definition flip (c : comparison) : comparison :=
  match c with
  | Gt => Lt
  | Lt => Gt
  | Eq => Eq
  end.

(** [a * b]: zero times an infinity is [NaN]. *)
Definition mul (a b : num) : num :=
  match a, b with
  | NaN, _ | _, NaN => NaN
  | Fin x, Fin y => Fin (Qred (x * y))
  | Fin x, PInf | PInf, Fin x => signedInf (Qsign x)
  | Fin x, NInf | NInf, Fin x => signedInf (flip (Qsign x))
  | PInf, PInf | NInf, NInf => PInf
  | PInf, NInf | NInf, PInf => NInf
  end.

(** [a / b]: a finite value over zero is an infinity of its sign, zero over
    zero and an infinity over an infinity are [NaN]. *)
Definition div (a b : num) : num :=
  match a, b with
  | NaN, _ | _, NaN => NaN
  | Fin x, Fin y =>
      match Qsign y with
      | Eq => signedInf (Qsign x)
      | _ => Fin (Qred (x / y))
      end
  | Fin _, PInf | Fin _, NInf => Fin 0
  | PInf, Fin y =>
      match Qsign y with
      | Lt => NInf
      | _ => PInf
      end
  | NInf, Fin y =>
      match Qsign y with
      | Lt => PInf
      | _ => NInf
      end
  | PInf, PInf | PInf, NInf | NInf, PInf | NInf, NInf => NaN
  end.

(** [a < b]; every comparison with [NaN] is false. *)
Definition ltb (a b : num) : bool :=
  match a, b with
  | NaN, _ | _, NaN => false
  | Fin x, Fin y => Qltb x y
  | NInf, NInf | PInf, _ => false
  | NInf, _ => true
  | Fin _, PInf => true
  | Fin _, NInf => false
  end.

(** [a <= b] *)
Definition leb (a b : num) : bool :=
  match a, b with
  | NaN, _ | _, NaN => false
  | Fin x, Fin y => Qle_bool x y
  | NInf, _ | _, PInf => true
  | PInf, _ | _, NInf => false
  end.

(** [a > b] and [a >= b] *)
Definition gtb (a b : num) : bool := ltb b a.
Definition geb (a b : num) : bool := leb b a.

(** [a === b] on numbers. *)
Definition eqb (a b : num) : bool :=
  match a, b with
  | Fin x, Fin y => Qeq_bool x y
  | PInf, PInf | NInf, NInf => true
  | _, _ => false
  end.

(** [isFinite(a)] *)
Definition isFinite (a : num) : bool :=
  match a with
  | Fin _ => true
  | _ => false
  end.

Definition isNaN (a : num) : bool :=
  match a with
  | NaN => true
  | _ => false
  end.

(** [Math.max(a, b)] and [Math.min(a, b)]: [NaN] as soon as an argument is. *)
Definition max (a b : num) : num :=
  match a, b with
  | NaN, _ | _, NaN => NaN
  | _, _ => if ltb a b then b else a
  end.

Definition min (a b : num) : num :=
  match a, b with
  | NaN, _ | _, NaN => NaN
  | _, _ => if ltb b a then b else a
  end.

(** Truthiness of a number: [0] and [NaN] are falsy. *)
Definition truthy (a : num) : bool :=
  match a with
  | NaN => false
  | Fin x => negb (Qeq_bool x 0)
  | _ => true
  end.

End JsNum.

Import JsNum.

Declare Scope num_scope.
Delimit Scope num_scope with num.
Bind Scope num_scope with num.
Infix "+" := add : num_scope.
Infix "-" := sub : num_scope.
Infix "*" := mul : num_scope.
Infix "/" := div : num_scope.
Infix "<?" := ltb : num_scope.
Infix "<=?" := leb : num_scope.
Infix ">?" := gtb : num_scope.
Infix ">=?" := geb : num_scope.
Infix "=?" := eqb : num_scope.

(** Numeric literals of the sources. *)
Definition n0 : num := ofZ 0.
Definition n2 : num := ofZ 2.
Definition n99 : num := ofZ 99.
Definition n100 : num := ofZ 100.

(* ================================================================== *)
(** * graphql.ts: confidence score *)
(* ================================================================== *)

(** [function calculateConfidencePercent(estimate, lower, upper)] *)
Definition calculateConfidencePercent (estimate lower upper : num) : num :=
  if (estimate =? n0)%num || negb (isFinite estimate) then n99
  else
    let range := (upper - lower)%num in
    let relativeRange := ((range / estimate) * n100)%num in
    let confidencePercent := (n100 - (relativeRange / n2))%num in
    JsNum.max n0 (JsNum.min n99 confidencePercent).

(** The clamp of the specification: [clamp x lo hi = max(lo, min(hi, x))]. *)
Definition clamp (x lo hi : num) : num := JsNum.max lo (JsNum.min hi x).

(* ================================================================== *)
(** * The built-in Date *)
(* ================================================================== *)

Module JsDate.

(** A valid [Date] is its time value in milliseconds since the epoch. *)
Definition Date : Type := Z.

Definition msPerDay : Z := 86400000.
Definition msPerHour : Z := 3600000.
Definition msPerMinute : Z := 60000.
Definition msPerSecond : Z := 1000.

(** [Day(t)] and [TimeWithinDay(t)] of ECMAScript. *)
Definition Day (t : Z) : Z := t / msPerDay.
Definition TimeWithinDay (t : Z) : Z := t mod msPerDay.

(** Day number (days since the epoch) of the civil date [y]-[m]-[d] of the
    proleptic Gregorian calendar, [m] in 1..12. *)
Definition days_from_civil (y m d : Z) : Z :=
  let y' := if m <=? 2 then y - 1 else y in
  let era := y' / 400 in
  let yoe := y' - era * 400 in
  let mp := if m <=? 2 then m + 9 else m - 3 in
  let doy := (153 * mp + 2) / 5 + d - 1 in
  let doe := yoe * 365 + yoe / 4 - yoe / 100 + doy in
  era * 146097 + doe - 719468.

(** Civil date (year, month in 1..12, day of month) of a day number. *)
Definition civil_from_days (z : Z) : Z * Z * Z :=
  let z' := z + 719468 in
  let era := z' / 146097 in
  let doe := z' - era * 146097 in
  let yoe := (doe - doe / 1460 + doe / 36524 - doe / 146096) / 365 in
  let doy := doe - (365 * yoe + yoe / 4 - yoe / 100) in
  let mp := (5 * doy + 2) / 153 in
  let d := doy - (153 * mp + 2) / 5 + 1 in
  let m := if mp <? 10 then mp + 3 else mp - 9 in
  let y := yoe + era * 400 in
  ((if m <=? 2 then y + 1 else y), m, d).

(** [MakeDay(year, month, date)]: [month] is a month index, brought into
    0..11 by carrying into the year; [date] counts on from the first of that
    month. *)
Definition MakeDay (year month date : Z) : Z :=
  let ym := year + month / 12 in
  let mn := month mod 12 in
  days_from_civil ym (mn + 1) 1 + date - 1.

(** [MakeTime(hour, min, sec, ms)] and [MakeDate(day, time)]. *)
Definition MakeTime (h mi s ms : Z) : Z :=
  h * msPerHour + mi * msPerMinute + s * msPerSecond + ms.

Definition MakeDate (day time : Z) : Z := day * msPerDay + time.

(** [new Date(year, monthIndex, day, hours, minutes, seconds, ms)]: a year
    in 0..99 stands for 1900 + year. *)
Definition newDate (year monthIndex day h mi s ms : Z) : Date :=
  let yr := if (0 <=? year) && (year <=? 99) then 1900 + year else year in
  MakeDate (MakeDay yr monthIndex day) (MakeTime h mi s ms).

(** [getFullYear()], [getMonth()] (a month index 0..11) and [getDate()]. *)
Definition getFullYear (t : Date) : Z :=
  let '(y, _, _) := civil_from_days (Day t) in y.

Definition getMonth (t : Date) : Z :=
  let '(_, m, _) := civil_from_days (Day t) in m - 1.

Definition getDate (t : Date) : Z :=
  let '(_, _, d) := civil_from_days (Day t) in d.

Definition getHours (t : Date) : Z := TimeWithinDay t / msPerHour.
Definition getMinutes (t : Date) : Z := (TimeWithinDay t / msPerMinute) mod 60.
Definition getSeconds (t : Date) : Z := (TimeWithinDay t / msPerSecond) mod 60.
Definition getMilliseconds (t : Date) : Z := TimeWithinDay t mod 1000.

(** [setMonth(month)]: same year, day of month and time of day. *)
Definition setMonth (t : Date) (month : Z) : Date :=
  MakeDate (MakeDay (getFullYear t) month (getDate t)) (TimeWithinDay t).

Definition digit (z : Z) : ascii := ascii_of_nat (48 + Z.to_nat z).

(** The [k] last decimal digits of [z], zero-padded. *)
Fixpoint pad (k : nat) (z : Z) : string :=
  match k with
  | O => EmptyString
  | S k' => (pad k' (z / 10) ++ String (digit (z mod 10)) EmptyString)%string
  end.

(** Year of the ISO format: four digits, or a sign and six digits outside
    0..9999. *)
Definition isoYear (y : Z) : string :=
  if (0 <=? y) && (y <=? 9999) then pad 4 y
  else if y <? 0 then ("-" ++ pad 6 (- y))%string
  else ("+" ++ pad 6 y)%string.

(** The calendar-date part [YYYY-MM-DD] of the ISO format. *)
Definition isoDate (t : Date) : string :=
  (isoYear (getFullYear t) ++ "-" ++ pad 2 (getMonth t + 1)
     ++ "-" ++ pad 2 (getDate t))%string.

(** The time part [HH:mm:ss.sss] of the ISO format. *)
Definition isoTime (t : Date) : string :=
  (pad 2 (getHours t) ++ ":" ++ pad 2 (getMinutes t) ++ ":"
     ++ pad 2 (getSeconds t) ++ "." ++ pad 3 (getMilliseconds t))%string.

(** [toISOString()]: [YYYY-MM-DDTHH:mm:ss.sssZ]. *)
Definition toISOString (t : Date) : string :=
  (isoDate t ++ "T" ++ isoTime t ++ "Z")%string.

(** [Date.UTC(year, monthIndex, day, h, mi, s, ms)], used to write dates
    down. *)
Definition utc (year monthIndex day h mi s ms : Z) : Date :=
  MakeDate (MakeDay year monthIndex day) (MakeTime h mi s ms).

End JsDate.

Import JsDate.

Local Open Scope string_scope.

(* ================================================================== *)
(** * products/types.ts *)
(* ================================================================== *)

Inductive ProductCategory : Type :=
| compute | storage | network | security | media | ai | connectivity | platform.

Inductive ProductScope : Type := zone | account.

Inductive AggregationType : Type := sum | count | avg | max.

(** The three values of [filterField]. *)
Inductive TimeFilterKind : Type := datetime | date | datetimeHour.

(** A dimension filter value: [string | string[]]. *)
Inductive DimensionValue : Type :=
| Single (v : string)
| Many (vs : list string).

Record ProductDefinition : Type := {
  id : string;
  name : string;
  category : ProductCategory;
  description : string;
  defaultLimit : num;
  unit_ : string;
  dataset : string;
  field : string;
  scope : ProductScope;
  aggregation : option AggregationType;
  filterField : option TimeFilterKind;
  enabledByDefault : bool;
  docsUrl : option string;
  transform : option (num -> num);
  unlimited : option bool;
  note : option string;
  dimensionFilters : option (list (string * DimensionValue))
}.

Record ProductConfig : Type := {
  cfgLimit : option num;
  cfgEnabled : option bool;
  cfgZoneTags : option (list string)
}.

(** [ProductRuntime extends ProductDefinition]: the definition is kept
    whole ([...definition]) next to the three merged fields. *)
Record ProductRuntime : Type := {
  definition : ProductDefinition;
  limit : num;
  enabled : bool;
  zoneTags : option (list string)
}.

Record ConfidenceInterval : Type := {
  estimate : num;
  lower : num;
  upper : num;
  sampleSize : num;
  isValid : bool;
  level : num;
  confidencePercent : option num
}.

Record ProductUsageResult : Type := {
  productId : string;
  productName : string;
  resCategory : ProductCategory;
  currentUsage : num;
  resLimit : num;
  resUnit : string;
  percentUsed : num;
  billingPeriodStart : string;
  billingPeriodEnd : string;
  resScope : ProductScope;
  error : option string;
  queryDurationMs : option num;
  resNote : option string;
  resEnabled : option bool;
  resUnlimited : option bool;
  confidence : option ConfidenceInterval
}.

Record UsageSummary : Type := {
  alerts : list ProductUsageResult;
  warnings : list ProductUsageResult;
  healthy : list ProductUsageResult;
  errors : list ProductUsageResult;
  timestamp : string;
  totalQueryDurationMs : num
}.

(** Assignments to the fields of a result that the sources mutate. *)
Definition set_currentUsage (v : num) (r : ProductUsageResult) :=
  {| productId := productId r; productName := productName r;
     resCategory := resCategory r; currentUsage := v; resLimit := resLimit r;
     resUnit := resUnit r; percentUsed := percentUsed r;
     billingPeriodStart := billingPeriodStart r;
     billingPeriodEnd := billingPeriodEnd r; resScope := resScope r;
     error := error r; queryDurationMs := queryDurationMs r;
     resNote := resNote r; resEnabled := resEnabled r;
     resUnlimited := resUnlimited r; confidence := confidence r |}.

Definition set_percentUsed (v : num) (r : ProductUsageResult) :=
  {| productId := productId r; productName := productName r;
     resCategory := resCategory r; currentUsage := currentUsage r;
     resLimit := resLimit r; resUnit := resUnit r; percentUsed := v;
     billingPeriodStart := billingPeriodStart r;
     billingPeriodEnd := billingPeriodEnd r; resScope := resScope r;
     error := error r; queryDurationMs := queryDurationMs r;
     resNote := resNote r; resEnabled := resEnabled r;
     resUnlimited := resUnlimited r; confidence := confidence r |}.

Definition set_error (v : option string) (r : ProductUsageResult) :=
  {| productId := productId r; productName := productName r;
     resCategory := resCategory r; currentUsage := currentUsage r;
     resLimit := resLimit r; resUnit := resUnit r;
     percentUsed := percentUsed r;
     billingPeriodStart := billingPeriodStart r;
     billingPeriodEnd := billingPeriodEnd r; resScope := resScope r;
     error := v; queryDurationMs := queryDurationMs r;
     resNote := resNote r; resEnabled := resEnabled r;
     resUnlimited := resUnlimited r; confidence := confidence r |}.

Definition set_confidence (v : option ConfidenceInterval)
    (r : ProductUsageResult) :=
  {| productId := productId r; productName := productName r;
     resCategory := resCategory r; currentUsage := currentUsage r;
     resLimit := resLimit r; resUnit := resUnit r;
     percentUsed := percentUsed r;
     billingPeriodStart := billingPeriodStart r;
     billingPeriodEnd := billingPeriodEnd r; resScope := resScope r;
     error := error r; queryDurationMs := queryDurationMs r;
     resNote := resNote r; resEnabled := resEnabled r;
     resUnlimited := resUnlimited r; confidence := v |}.

Definition set_queryDurationMs (v : option num) (r : ProductUsageResult) :=
  {| productId := productId r; productName := productName r;
     resCategory := resCategory r; currentUsage := currentUsage r;
     resLimit := resLimit r; resUnit := resUnit r;
     percentUsed := percentUsed r;
     billingPeriodStart := billingPeriodStart r;
     billingPeriodEnd := billingPeriodEnd r; resScope := resScope r;
     error := error r; queryDurationMs := v;
     resNote := resNote r; resEnabled := resEnabled r;
     resUnlimited := resUnlimited r; confidence := confidence r |}.

(* ================================================================== *)
(** * Exceptions *)
(* ================================================================== *)

(** The outcome of a computation that may throw; the payload of [Throw] is
    the message of the exception. *)
Inductive Res (A : Type) : Type :=
| Ok (a : A)
| Throw (msg : string).

Arguments Ok {A} a.
Arguments Throw {A} msg.

Definition bindR {A B : Type} (c : Res A) (k : A -> Res B) : Res B :=
  match c with
  | Ok a => k a
  | Throw msg => Throw msg
  end.

Declare Scope res_scope.
Delimit Scope res_scope with res.
Notation "x <- c ;; k" := (bindR c (fun x => k))
  (at level 61, c at next level, right associativity) : res_scope.

(** A loop whose body may throw. *)
Fixpoint foldR {A B : Type} (step : A -> B -> Res A) (l : list B) (a : A)
    : Res A :=
  match l with
  | [] => Ok a
  | b :: l' => bindR (step a b) (foldR step l')
  end.

(* ================================================================== *)
(** * Backend payloads *)
(* ================================================================== *)

Local Unset Elimination Schemes.

Inductive json : Type :=
| JNull
| JBool (b : bool)
| JNum (n : num)
| JStr (s : string)
| JArr (items : list json)
| JObj (members : list (string * json)).

Local Set Elimination Schemes.

(** A JavaScript value read from a payload: [None] is [undefined]. *)
Definition jsval : Type := option json.

(** Own property [k] of a parsed object; of two members of one name
    [JSON.parse] keeps the later. *)
Definition lookupMember (k : string) (members : list (string * json)) : jsval :=
  fold_left (fun acc kv => if fst kv =? k then Some (snd kv) else acc)
    members None.

Definition typeError : string := "TypeError".

Definition charsOf (s : string) : list json :=
  map (fun c => JStr (String c EmptyString)) (list_ascii_of_string s).

Definition lengthOf {A : Type} (l : list A) : json :=
  JNum (ofZ (Z.of_nat (List.length l))).

(** [v.k] and [v[k]] for a name [k].  Reading a property of [undefined] or
    [null] throws; arrays and strings have a [length]; members inherited
    from the prototypes are not modelled, and [k] is not an array index (the
    names read are GraphQL identifiers). *)
Definition getProp (v : jsval) (k : string) : Res jsval :=
  match v with
  | None | Some JNull => Throw typeError
  | Some (JObj members) => Ok (lookupMember k members)
  | Some (JArr items) =>
      Ok (if k =? "length" then Some (lengthOf items) else None)
  | Some (JStr s) =>
      Ok (if k =? "length" then Some (lengthOf (list_ascii_of_string s))
          else None)
  | Some (JBool _) | Some (JNum _) => Ok None
  end.

(** [v[0]] *)
Definition getFirst (v : jsval) : Res jsval :=
  match v with
  | None | Some JNull => Throw typeError
  | Some (JObj members) => Ok (lookupMember "0" members)
  | Some (JArr items) => Ok (nth_error items 0)
  | Some (JStr s) => Ok (nth_error (charsOf s) 0)
  | Some (JBool _) | Some (JNum _) => Ok None
  end.

(** [v?.[k]] *)
Definition optProp (v : jsval) (k : string) : Res jsval :=
  match v with
  | None | Some JNull => Ok None
  | _ => getProp v k
  end.

(** Truthiness. *)
Definition truthy (v : jsval) : bool :=
  match v with
  | None | Some JNull => false
  | Some (JBool b) => b
  | Some (JNum n) => JsNum.truthy n
  | Some (JStr s) => negb (s =? "")
  | Some (JArr _) | Some (JObj _) => true
  end.

(** [v === 0] *)
Definition isZero (v : jsval) : bool :=
  match v with
  | Some (JNum n) => (n =? n0)%num
  | _ => false
  end.

(** The items of [for (const item of v)]; only arrays and strings are
    iterable. *)
Definition iterate (v : jsval) : Res (list json) :=
  match v with
  | Some (JArr items) => Ok items
  | Some (JStr s) => Ok (charsOf s)
  | _ => Throw typeError
  end.

(** A leaf that the sources cast [as number], after [?? dflt].  A boolean
    counts as 1 or 0 in the additions.  A leaf of any other kind is outside
    the declared typing; it is read as [NaN]. *)
Definition numberOr (dflt : num) (v : jsval) : num :=
  match v with
  | None | Some JNull => dflt
  | Some (JNum n) => n
  | Some (JBool b) => if b then ofZ 1 else ofZ 0
  | Some _ => NaN
  end.

(* ================================================================== *)
(** * graphql.ts: query builder *)
(* ================================================================== *)

Definition nl : string := String (ascii_of_nat 10) EmptyString.
Definition tab : string := String (ascii_of_nat 9) EmptyString.
Definition dq : string := String (ascii_of_nat 34) EmptyString.

Fixpoint tabs (k : nat) : string :=
  match k with
  | O => EmptyString
  | S k' => tab ++ tabs k'
  end.

(** [parts.join(sep)] *)
Fixpoint join (sep : string) (parts : list string) : string :=
  match parts with
  | [] => EmptyString
  | [p] => p
  | p :: rest => p ++ sep ++ join sep rest
  end.

(** [list.includes(s)] *)
Definition includes (l : list string) (s : string) : bool :=
  existsb (String.eqb s) l.

Record QueryFilterOptions : Type := {
  eyeballOnly : bool;
  excludeEdgeWorkers : bool;
  excludeBlocked : bool;
  zoneId : option string
}.

(** [const CONFIDENCE_LEVEL = 0.95], and how a template prints it. *)
Definition CONFIDENCE_LEVEL : num := Fin (95 # 100).
Definition CONFIDENCE_LEVEL_text : string := "0.95".

Definition NO_CONFIDENCE_DATASETS : list string :=
  ["cacheReserveStorageAdaptiveGroups"; "durableObjectsStorageGroups"].

Definition REQUEST_SOURCE_SUPPORTED_DATASETS : list string :=
  ["httpRequestsAdaptiveGroups"].

Definition STATUS_FILTER_SUPPORTED_DATASETS : list string :=
  ["httpRequestsAdaptiveGroups"].

Definition aggregationName (a : AggregationType) : string :=
  match a with
  | sum => "sum"
  | count => "count"
  | avg => "avg"
  | max => "max"
  end.

(** The inner [buildConfidenceBlock(aggType, fieldName)]. *)
Definition buildConfidenceBlock (includeConfidence : bool)
    (aggType fieldName : string) : string :=
  if negb includeConfidence then EmptyString
  else
    let isCount := aggType =? "count" in
    nl ++ tabs 5 ++ "confidence(level: " ++ CONFIDENCE_LEVEL_text ++ ") {"
    ++ nl ++ tabs 6 ++ "level"
    ++ nl ++ tabs 6 ++ aggType ++ " {"
    ++ nl ++ tabs 7 ++ (if negb isCount then fieldName ++ " {" else EmptyString)
    ++ nl ++ tabs 7 ++ "estimate"
    ++ nl ++ tabs 7 ++ "lower"
    ++ nl ++ tabs 7 ++ "upper"
    ++ nl ++ tabs 7 ++ "sampleSize"
    ++ nl ++ tabs 7 ++ "isValid"
    ++ nl ++ tabs 7 ++ (if negb isCount then "}" else EmptyString)
    ++ nl ++ tabs 6 ++ "}"
    ++ nl ++ tabs 5 ++ "}".

(** [function buildAggregationFields(field, aggregation, includeConfidence)] *)
Definition buildAggregationFields (field : string)
    (aggregation : AggregationType) (includeConfidence : bool) : string :=
  match aggregation with
  | count =>
      "count" ++ buildConfidenceBlock includeConfidence "count" EmptyString
  | avg =>
      "avg { " ++ field ++ " }"
      ++ buildConfidenceBlock includeConfidence "avg" field
  | max =>
      "max { " ++ field ++ " }"
      ++ buildConfidenceBlock includeConfidence "max" field
  | sum =>
      "sum { " ++ field ++ " }"
      ++ buildConfidenceBlock includeConfidence "sum" field
  end.

(** [conditions.length > 0 ? `, ${conditions.join(', ')}` : ''] *)
Definition renderConditions (conditions : list string) : string :=
  match conditions with
  | [] => EmptyString
  | _ => ", " ++ join ", " conditions
  end.

(** [function buildAdditionalFilters(dataset, filters?)] *)
Definition buildAdditionalFilters (dataset : string)
    (filters : option QueryFilterOptions) : string :=
  match filters with
  | None => EmptyString
  | Some f =>
      let c1 :=
        if eyeballOnly f && includes REQUEST_SOURCE_SUPPORTED_DATASETS dataset
        then ["requestSource: " ++ dq ++ "eyeball" ++ dq] else [] in
      let c2 :=
        if excludeEdgeWorkers f
           && includes REQUEST_SOURCE_SUPPORTED_DATASETS dataset
        then ["requestSource_neq: " ++ dq ++ "edgeworker" ++ dq] else [] in
      let c3 :=
        if excludeBlocked f && includes STATUS_FILTER_SUPPORTED_DATASETS dataset
        then ["edgeResponseStatus_neq: 403"] else [] in
      renderConditions (c1 ++ c2 ++ c3)
  end.

Definition quoted (v : string) : string := dq ++ v ++ dq.

(** [function buildDimensionFilters(dimensionFilters?)] *)
Definition buildDimensionFilters
    (dimensionFilters : option (list (string * DimensionValue))) : string :=
  match dimensionFilters with
  | None => EmptyString
  | Some entries =>
      renderConditions
        (map (fun kv =>
                match snd kv with
                | Many vs => fst kv ++ ": [" ++ join ", " (map quoted vs) ++ "]"
                | Single v => fst kv ++ ": " ++ quoted v
                end) entries)
  end.

Record FilterConfig : Type := {
  filterStart : string;
  filterEnd : string;
  graphqlType : string
}.

(** [function getFilterConfig(filterField)] *)
Definition getFilterConfig (filterField : string) : FilterConfig :=
  if filterField =? "date" then
    {| filterStart := "date_geq"; filterEnd := "date_lt"; graphqlType := "Date" |}
  else if filterField =? "datetimeHour" then
    {| filterStart := "datetimeHour_geq"; filterEnd := "datetimeHour_lt";
       graphqlType := "Time" |}
  else
    {| filterStart := "datetime_geq"; filterEnd := "datetime_lt";
       graphqlType := "Time" |}.

(** The [filter: { ... }] argument common to both query templates. *)
Definition filterClause (cfg : FilterConfig)
    (additionalFilters dimensionFilterStr : string) : string :=
  "filter: { " ++ filterStart cfg ++ ": $start, " ++ filterEnd cfg ++ ": $end"
  ++ additionalFilters ++ dimensionFilterStr ++ " }".

(** [function buildZoneQuery(dataset, field, aggregation, filterField,
    filters?, dimensionFilters?)] *)
Definition buildZoneQuery (dataset field : string)
    (aggregation : AggregationType) (filterField : string)
    (filters : option QueryFilterOptions)
    (dimensionFilters : option (list (string * DimensionValue))) : string :=
  let cfg := getFilterConfig filterField in
  let includeConfidence := negb (includes NO_CONFIDENCE_DATASETS dataset) in
  let aggregationFields :=
    buildAggregationFields field aggregation includeConfidence in
  let additionalFilters := buildAdditionalFilters dataset filters in
  let dimensionFilterStr := buildDimensionFilters dimensionFilters in
  nl ++ "    query ZoneUsage($zoneTag: String!, $start: " ++ graphqlType cfg
  ++ "!, $end: " ++ graphqlType cfg ++ "!) {"
  ++ nl ++ "      viewer {"
  ++ nl ++ "        zones(filter: { zoneTag: $zoneTag }) {"
  ++ nl ++ "          " ++ dataset ++ "("
  ++ nl ++ "            " ++ filterClause cfg additionalFilters dimensionFilterStr
  ++ nl ++ "            limit: 10000"
  ++ nl ++ "          ) {"
  ++ nl ++ "            " ++ aggregationFields
  ++ nl ++ "          }"
  ++ nl ++ "        }"
  ++ nl ++ "      }"
  ++ nl ++ "    }"
  ++ nl ++ "  ".

(** [function buildAccountQuery(dataset, field, aggregation, filterField,
    filters?, dimensionFilters?)] *)
Definition buildAccountQuery (dataset field : string)
    (aggregation : AggregationType) (filterField : string)
    (filters : option QueryFilterOptions)
    (dimensionFilters : option (list (string * DimensionValue))) : string :=
  let cfg := getFilterConfig filterField in
  let includeConfidence := negb (includes NO_CONFIDENCE_DATASETS dataset) in
  let aggregationFields :=
    buildAggregationFields field aggregation includeConfidence in
  let additionalFilters := buildAdditionalFilters dataset filters in
  let dimensionFilterStr := buildDimensionFilters dimensionFilters in
  nl ++ "    query AccountUsage($accountTag: String!, $start: "
  ++ graphqlType cfg ++ "!, $end: " ++ graphqlType cfg ++ "!) {"
  ++ nl ++ "      viewer {"
  ++ nl ++ "        accounts(filter: { accountTag: $accountTag }) {"
  ++ nl ++ "          " ++ dataset ++ "("
  ++ nl ++ "            " ++ filterClause cfg additionalFilters dimensionFilterStr
  ++ nl ++ "            limit: 10000"
  ++ nl ++ "          ) {"
  ++ nl ++ "            " ++ aggregationFields
  ++ nl ++ "          }"
  ++ nl ++ "        }"
  ++ nl ++ "      }"
  ++ nl ++ "    }"
  ++ nl ++ "  ".

(** [s.split('T')[0]]: the part of [s] before its first [T]. *)
Fixpoint beforeT (s : string) : string :=
  match s with
  | EmptyString => EmptyString
  | String c s' =>
      if Ascii.eqb c "T"%char then EmptyString else String c (beforeT s')
  end.

(** [function formatDateForQuery(date, filterField)] *)
Definition formatDateForQuery (d : Date) (filterField : string) : string :=
  if filterField =? "date" then beforeT (toISOString d)
  else toISOString d.

(* ================================================================== *)
(** * graphql.ts: result normaliser *)
(* ================================================================== *)

Record ExtractedResult : Type := {
  value : num;
  extractedConfidence : option ConfidenceInterval
}.

(** The local variables of the loop of [extractValue]. *)
Record Totals : Type := {
  totalValue : num;
  totalEstimate : num;
  totalLower : num;
  totalUpper : num;
  totalSampleSize : num;
  hasConfidence : bool;
  confidenceLevel : num;
  allValid : bool
}.

Definition initialTotals : Totals :=
  {| totalValue := n0; totalEstimate := n0; totalLower := n0;
     totalUpper := n0; totalSampleSize := n0; hasConfidence := false;
     confidenceLevel := CONFIDENCE_LEVEL; allValid := true |}.

Local Open Scope res_scope.

(** The first [switch (aggregation)] of the loop: the value of one row. *)
Definition rowValue (item : jsval) (field : string)
    (aggregation : AggregationType) : Res num :=
  match aggregation with
  | count =>
      c <- getProp item "count" ;;
      Ok (numberOr n0 c)
  | avg =>
      a <- getProp item "avg" ;;
      v <- optProp a field ;;
      Ok (numberOr n0 v)
  | max =>
      a <- getProp item "max" ;;
      v <- optProp a field ;;
      Ok (numberOr n0 v)
  | sum =>
      a <- getProp item "sum" ;;
      v <- optProp a field ;;
      Ok (numberOr n0 v)
  end.

(** The second [switch (aggregation)]: the nested confidence data. *)
Definition nestedConfidenceOf (confidenceData : jsval) (field : string)
    (aggregation : AggregationType) : Res jsval :=
  match aggregation with
  | count => getProp confidenceData "count"
  | avg => a <- getProp confidenceData "avg" ;; optProp a field
  | max => a <- getProp confidenceData "max" ;; optProp a field
  | sum => a <- getProp confidenceData "sum" ;; optProp a field
  end.

(** One turn of [for (const item of datasetResults)]. *)
Definition extractRow (field : string) (aggregation : AggregationType)
    (t : Totals) (row : json) : Res Totals :=
  let item := Some row in
  v <- rowValue item field aggregation ;;
  let totalValue' := (totalValue t + v)%num in
  confidenceData <- getProp item "confidence" ;;
  if truthy confidenceData then
    lvl <- getProp confidenceData "level" ;;
    let confidenceLevel' := numberOr CONFIDENCE_LEVEL lvl in
    nestedConfidence <- nestedConfidenceOf confidenceData field aggregation ;;
    if truthy nestedConfidence then
      e <- getProp nestedConfidence "estimate" ;;
      l <- getProp nestedConfidence "lower" ;;
      u <- getProp nestedConfidence "upper" ;;
      s <- getProp nestedConfidence "sampleSize" ;;
      valid <- getProp nestedConfidence "isValid" ;;
      Ok {| totalValue := totalValue';
            totalEstimate := (totalEstimate t + numberOr n0 e)%num;
            totalLower := (totalLower t + numberOr n0 l)%num;
            totalUpper := (totalUpper t + numberOr n0 u)%num;
            totalSampleSize := (totalSampleSize t + numberOr n0 s)%num;
            hasConfidence := true;
            confidenceLevel := confidenceLevel';
            allValid := if truthy valid then allValid t else false |}
    else
      Ok {| totalValue := totalValue';
            totalEstimate := totalEstimate t;
            totalLower := totalLower t;
            totalUpper := totalUpper t;
            totalSampleSize := totalSampleSize t;
            hasConfidence := true;
            confidenceLevel := confidenceLevel';
            allValid := allValid t |}
  else
    Ok {| totalValue := totalValue';
          totalEstimate := totalEstimate t;
          totalLower := totalLower t;
          totalUpper := totalUpper t;
          totalSampleSize := totalSampleSize t;
          hasConfidence := hasConfidence t;
          confidenceLevel := confidenceLevel t;
          allValid := allValid t |}.

(** The interval built from the totals of a loop:
    [if (hasConfidence && totalEstimate > 0) { ... }]. *)
Definition buildConfidence (has : bool)
    (est low up size : num) (valid : bool) (lvl : num)
    : option ConfidenceInterval :=
  if has && (est >? n0)%num then
    Some {| estimate := est; lower := low; upper := up; sampleSize := size;
            isValid := valid; level := lvl;
            confidencePercent := Some (calculateConfidencePercent est low up) |}
  else None.

Definition confidenceOfTotals (t : Totals) : option ConfidenceInterval :=
  buildConfidence (hasConfidence t) (totalEstimate t) (totalLower t)
    (totalUpper t) (totalSampleSize t) (allValid t) (confidenceLevel t).

Definition noValue : ExtractedResult :=
  {| value := n0; extractedConfidence := None |}.

(** The body of the [try] block of [extractValue]. *)
Definition extractValueBody (data : jsval) (dataset field : string)
    (aggregation : AggregationType) (scope : ProductScope)
    : Res ExtractedResult :=
  viewer <- getProp data "viewer" ;;
  let scopeKey := match scope with zone => "zones" | account => "accounts" end in
  scopeData <- getProp viewer scopeKey ;;
  if negb (truthy scopeData) then Ok noValue
  else
    len <- getProp scopeData "length" ;;
    if isZero len then Ok noValue
    else
      firstScope <- getFirst scopeData ;;
      datasetResults <- getProp firstScope dataset ;;
      if negb (truthy datasetResults) then Ok noValue
      else
        len' <- getProp datasetResults "length" ;;
        if isZero len' then Ok noValue
        else
          rows <- iterate datasetResults ;;
          t <- foldR (extractRow field aggregation) rows initialTotals ;;
          Ok {| value := totalValue t;
                extractedConfidence := confidenceOfTotals t |}.

(** [function extractValue(data, dataset, field, aggregation, scope)]: the
    [catch] block logs and returns [{ value: 0 }]. *)
Definition extractValue (data : jsval) (dataset field : string)
    (aggregation : AggregationType) (scope : ProductScope) : ExtractedResult :=
  match extractValueBody data dataset field aggregation scope with
  | Ok r => r
  | Throw _ => noValue
  end.

Local Close Scope res_scope.

(* ================================================================== *)
(** * config.ts *)
(* ================================================================== *)

Record BillingPeriod : Type := {
  startDay : Z;
  timezone : string
}.

Record ContractConfig : Type := {
  alertThresholdPercent : num;
  warningThresholdPercent : num;
  productOverrides : list (string * ProductConfig);
  billingPeriod : BillingPeriod
}.

(** [config.productOverrides[id]]; of two overrides of one product the
    object literal keeps the later. *)
Definition lookupOverride (k : string)
    (overrides : list (string * ProductConfig)) : option ProductConfig :=
  fold_left (fun acc kv => if fst kv =? k then Some (snd kv) else acc)
    overrides None.

(** [a ?? b] *)
Definition orElse {A : Type} (a : option A) (b : A) : A :=
  match a with
  | Some x => x
  | None => b
  end.

(** [override?.f] *)
Definition optField {A B : Type} (f : A -> option B) (o : option A) : option B :=
  match o with
  | Some x => f x
  | None => None
  end.

(** [function mergeProductConfig(definition, override?, defaultZoneTags?)] *)
Definition mergeProductConfig (d : ProductDefinition)
    (override : option ProductConfig)
    (defaultZoneTags : option (list string)) : ProductRuntime :=
  {| definition := d;
     limit := orElse (optField cfgLimit override) (defaultLimit d);
     enabled := orElse (optField cfgEnabled override) (enabledByDefault d);
     zoneTags :=
       match optField cfgZoneTags override with
       | Some tags => Some tags
       | None =>
           match scope d with
           | zone => defaultZoneTags
           | account => None
           end
       end |}.

(** [function getConfiguredProducts(config, defaultZoneTags = [])], over the
    registry [PRODUCTS] returned by [getAllProducts()]. *)
Definition getConfiguredProducts (PRODUCTS : list ProductDefinition)
    (config : ContractConfig) (defaultZoneTags : list string)
    : list ProductRuntime :=
  map (fun product =>
         mergeProductConfig product
           (lookupOverride (id product) (productOverrides config))
           (Some defaultZoneTags))
    PRODUCTS.

(** [function getEnabledProducts(config, defaultZoneTags = [])] *)
Definition getEnabledProducts (PRODUCTS : list ProductDefinition)
    (config : ContractConfig) (defaultZoneTags : list string)
    : list ProductRuntime :=
  filter enabled (getConfiguredProducts PRODUCTS config defaultZoneTags).

(** [function getCurrentBillingPeriod(config)]; [now] is the reading
    [new Date()] of the clock. *)
Definition getCurrentBillingPeriod (now : Date) (config : ContractConfig)
    : Date * Date :=
  let startDay := startDay (billingPeriod config) in
  let start := newDate (getFullYear now) (getMonth now) startDay 0 0 0 0 in
  let start :=
    if (getDate now <? startDay)%Z
    then newDate (getFullYear now) (getMonth now - 1) startDay 0 0 0 0
    else start in
  let end_ := setMonth start (getMonth start + 1) in
  (start, end_).

(** [export const CONTRACT_CONFIG] as shipped. *)
Definition CONTRACT_CONFIG : ContractConfig :=
  {| alertThresholdPercent := ofZ 90;
     warningThresholdPercent := ofZ 75;
     billingPeriod := {| startDay := 1; timezone := "UTC" |};
     productOverrides :=
       [ ("http_requests",
          {| cfgLimit := Some (ofZ 3000000); cfgEnabled := Some true;
             cfgZoneTags := None |});
         ("bandwidth",
          {| cfgLimit := Some (ofZ (20 * 1024 * 1024 * 1024));
             cfgEnabled := Some true; cfgZoneTags := None |});
         ("workers_ai_requests",
          {| cfgLimit := Some (ofZ 35000); cfgEnabled := Some true;
             cfgZoneTags := None |}) ] |}.

(* ================================================================== *)
(** * graphql.ts: the query-execution boundary *)
(* ================================================================== *)

Record GraphQLError : Type := { message : string }.

(** [interface GraphQLResponse<T>] *)
Record GraphQLResponse : Type := {
  data : jsval;
  respErrors : option (list GraphQLError)
}.

(** One request of [executeGraphQL(apiToken, query, variables)]. *)
Record Call : Type := {
  callToken : string;
  callQuery : string;
  callVariables : list (string * string)
}.

(** What the promise of [executeGraphQL] settles to: the parsed body, or a
    rejection (network failure, non-2xx status, malformed body). *)
Inductive Outcome : Type :=
| Responded (r : GraphQLResponse)
| Rejected (msg : string).

(** What the engine does to the outside world. *)
Inductive Event : Type :=
| Issued (c : Call)
| Slept (ms : Z).

(** [response.errors && response.errors.length > 0] *)
Definition hasErrors (r : GraphQLResponse) : bool :=
  match respErrors r with
  | Some (_ :: _) => true
  | _ => false
  end.

(** [response.errors.map((e) => e.message).join(', ')] *)
Definition errorMessages (r : GraphQLResponse) : string :=
  join ", " (map message (orElse (respErrors r) [])).

(* ================================================================== *)
(** * A monad for a [try] block over mutable state *)
(* ================================================================== *)

(** State that an exception does not roll back: what the [catch] block sees
    is the state at the [throw]. *)
Definition M (S A : Type) : Type := S -> Res A * S.

Definition ret {S A : Type} (a : A) : M S A := fun s => (Ok a, s).

Definition bind {S A B : Type} (c : M S A) (k : A -> M S B) : M S B :=
  fun s =>
    match c s with
    | (Ok a, s') => k a s'
    | (Throw msg, s') => (Throw msg, s')
    end.

Definition modify {S : Type} (f : S -> S) : M S unit :=
  fun s => (Ok tt, f s).

Definition get {S : Type} : M S S := fun s => (Ok s, s).

(** [try { body } catch (error) { handler(error) }] *)
Definition tryCatch {S : Type} (body : M S unit) (handler : string -> M S unit)
    : M S unit :=
  fun s =>
    match body s with
    | (Ok tt, s') => (Ok tt, s')
    | (Throw msg, s') => handler msg s'
    end.

Declare Scope m_scope.
Delimit Scope m_scope with m.
Notation "x <- c ;; k" := (bind c (fun x => k))
  (at level 61, c at next level, right associativity) : m_scope.
Notation "c ;; k" := (bind c (fun _ => k))
  (at level 61, right associativity) : m_scope.

(* ================================================================== *)
(** * graphql.ts: one metric *)
(* ================================================================== *)

(** The state of one run of [queryProductUsage]: the [result] object under
    construction and the requests sent so far. *)
Record Run : Type := {
  result : ProductUsageResult;
  trace : list Event
}.

(** The local variables of the zone loop of [queryProductUsage]. *)
Record ZoneTotals : Type := {
  zTotalEstimate : num;
  zTotalLower : num;
  zTotalUpper : num;
  zTotalSampleSize : num;
  zHasConfidence : bool;
  zAllValid : bool;
  zConfidenceLevel : num
}.

Definition initialZoneTotals : ZoneTotals :=
  {| zTotalEstimate := n0; zTotalLower := n0; zTotalUpper := n0;
     zTotalSampleSize := n0; zHasConfidence := false; zAllValid := true;
     zConfidenceLevel := CONFIDENCE_LEVEL |}.

(** [if (extracted.confidence) { ... }] of the zone loop. *)
Definition addZoneConfidence (t : ZoneTotals) (c : option ConfidenceInterval)
    : ZoneTotals :=
  match c with
  | None => t
  | Some ci =>
      {| zTotalEstimate := (zTotalEstimate t + estimate ci)%num;
         zTotalLower := (zTotalLower t + lower ci)%num;
         zTotalUpper := (zTotalUpper t + upper ci)%num;
         zTotalSampleSize := (zTotalSampleSize t + sampleSize ci)%num;
         zHasConfidence := true;
         zAllValid := if isValid ci then zAllValid t else false;
         zConfidenceLevel := level ci |}
  end.

Definition confidenceOfZones (t : ZoneTotals) : option ConfidenceInterval :=
  buildConfidence (zHasConfidence t) (zTotalEstimate t) (zTotalLower t)
    (zTotalUpper t) (zTotalSampleSize t) (zAllValid t) (zConfidenceLevel t).

Definition kindName (k : TimeFilterKind) : string :=
  match k with
  | datetime => "datetime"
  | date => "date"
  | datetimeHour => "datetimeHour"
  end.

(** [product.filterField || 'datetime'] and [product.aggregation || 'sum'] *)
Definition filterFieldOf (product : ProductRuntime) : string :=
  match filterField (definition product) with
  | Some k => kindName k
  | None => "datetime"
  end.

Definition aggregationOf (product : ProductRuntime) : AggregationType :=
  orElse (aggregation (definition product)) sum.

(** The object literal that [queryProductUsage] starts from. *)
Definition initialResult (product : ProductRuntime)
    (billingStart billingEnd : Date) : ProductUsageResult :=
  let d := definition product in
  {| productId := id d;
     productName := name d;
     resCategory := category d;
     currentUsage := n0;
     resLimit := limit product;
     resUnit := unit_ d;
     percentUsed := n0;
     billingPeriodStart := toISOString billingStart;
     billingPeriodEnd := toISOString billingEnd;
     resScope := scope d;
     error := None;
     queryDurationMs := None;
     resNote := note d;
     resEnabled := None;
     resUnlimited := unlimited d;
     confidence := None |}.

(** [result.f = ...] *)
Definition assign (f : ProductUsageResult -> ProductUsageResult)
    : M Run unit :=
  modify (fun s => {| result := f (result s); trace := trace s |}).

Section Engine.

(** The backend behind [fetch], and the [Date.now() - startTime] measured
    for a product. *)
Variable exec : Call -> Outcome.
Variable elapsedMs : ProductRuntime -> num.

Local Open Scope m_scope.

(** [async function executeGraphQL(apiToken, query, variables)] *)
Definition executeGraphQL (apiToken query : string)
    (variables : list (string * string)) : M Run GraphQLResponse :=
  fun s =>
    let c := {| callToken := apiToken; callQuery := query;
                callVariables := variables |} in
    let s' := {| result := result s; trace := trace s ++ [Issued c] |} in
    match exec c with
    | Responded r => (Ok r, s')
    | Rejected msg => (Throw msg, s')
    end.

(** [for (const zoneTag of zoneTags) { ... }] of [queryProductUsage]. *)
Fixpoint zoneLoop (apiToken : string) (product : ProductRuntime)
    (start end_ : string) (filters : option QueryFilterOptions)
    (tags : list string) (t : ZoneTotals) : M Run ZoneTotals :=
  match tags with
  | [] => ret t
  | zoneTag :: rest =>
      let d := definition product in
      let query :=
        buildZoneQuery (dataset d) (field d) (aggregationOf product)
          (filterFieldOf product) filters (dimensionFilters d) in
      response <- executeGraphQL apiToken query
                    [("zoneTag", zoneTag); ("start", start); ("end", end_)] ;;
      if hasErrors response then
        zoneLoop apiToken product start end_ filters rest t
      else
        let extracted :=
          extractValue (data response) (dataset d) (field d)
            (aggregationOf product) zone in
        assign (fun r =>
                  set_currentUsage (currentUsage r + value extracted)%num r) ;;
        zoneLoop apiToken product start end_ filters rest
          (addZoneConfidence t (extractedConfidence extracted))
  end.

(** The first half of the [try] block of [queryProductUsage]: the branch
    on [product.scope]. *)
Definition fetchUsage (apiToken accountId : string)
    (product : ProductRuntime) (billingStart billingEnd : Date)
    (filters : option QueryFilterOptions) : M Run unit :=
  let d := definition product in
  let filterField := filterFieldOf product in
  let aggregation := aggregationOf product in
  let start := formatDateForQuery billingStart filterField in
  let end_ := formatDateForQuery billingEnd filterField in
  match scope d with
  | account =>
      let query :=
        buildAccountQuery (dataset d) (field d) aggregation filterField
          filters (dimensionFilters d) in
      response <- executeGraphQL apiToken query
                    [("accountTag", accountId); ("start", start);
                     ("end", end_)] ;;
      if hasErrors response then
        assign (set_error (Some (errorMessages response)))
      else
        let extracted :=
          extractValue (data response) (dataset d) (field d) aggregation
            account in
        assign (set_currentUsage (value extracted)) ;;
        assign (set_confidence (extractedConfidence extracted))
  | zone =>
      match orElse (zoneTags product) [] with
      | [] => assign (set_error (Some "No zone tags configured"))
      | tags =>
          t <- zoneLoop apiToken product start end_ filters tags
                 initialZoneTotals ;;
          match confidenceOfZones t with
          | Some ci => assign (set_confidence (Some ci))
          | None => ret tt
          end
      end
  end.

(** [if (product.transform && result.currentUsage > 0) { ... }] *)
Definition applyTransform (product : ProductRuntime) : M Run unit :=
  s <- get ;;
  match transform (definition product) with
  | Some f =>
      if (currentUsage (result s) >? n0)%num
      then assign (set_currentUsage (f (currentUsage (result s))))
      else ret tt
  | None => ret tt
  end.

(** [result.percentUsed = product.limit > 0
      ? (result.currentUsage / product.limit) * 100 : 0] *)
Definition computePercentUsed (product : ProductRuntime) : M Run unit :=
  assign (fun r =>
            set_percentUsed
              (if (limit product >? n0)%num
               then ((currentUsage r / limit product) * n100)%num
               else n0) r).

(** The [try] block of [queryProductUsage]. *)
Definition queryProductUsageBody (apiToken accountId : string)
    (product : ProductRuntime) (billingStart billingEnd : Date)
    (filters : option QueryFilterOptions) : M Run unit :=
  fetchUsage apiToken accountId product billingStart billingEnd filters ;;
  applyTransform product ;;
  computePercentUsed product.

(** [export async function queryProductUsage(apiToken, accountId, product,
    billingStart, billingEnd, filters?)], with the requests it sent. *)
Definition queryProductUsage (apiToken accountId : string)
    (product : ProductRuntime) (billingStart billingEnd : Date)
    (filters : option QueryFilterOptions)
    : ProductUsageResult * list Event :=
  let s0 := {| result := initialResult product billingStart billingEnd;
               trace := [] |} in
  let body :=
    queryProductUsageBody apiToken accountId product billingStart billingEnd
      filters in
  let '(_, s) := tryCatch body (fun msg => assign (set_error (Some msg))) s0 in
  (set_queryDurationMs (Some (elapsedMs product)) (result s), trace s).

Local Close Scope m_scope.

(* ================================================================== *)
(** * graphql.ts: the batched runner *)
(* ================================================================== *)

Definition BATCH_SIZE : nat := 5.

(** [l.slice(i, j)] for [0 <= i <= j]. *)
Definition slice {A : Type} (i j : nat) (l : list A) : list A :=
  firstn (j - i) (skipn i l).

(** The loop [for (let i = 0; i < enabledProducts.length; i += BATCH_SIZE)].
    The queries of a batch run concurrently under [Promise.all], which
    returns their results in the order of the batch; their requests are
    traced one product after the other.  [None] when [fuel] turns do not
    finish the loop. *)
Fixpoint runBatches (query : ProductRuntime -> ProductUsageResult * list Event)
    (fuel i : nat) (enabledProducts : list ProductRuntime)
    (results : list ProductUsageResult) (events : list Event)
    : option (list ProductUsageResult * list Event) :=
  match fuel with
  | O => None
  | S fuel' =>
      if (i <? List.length enabledProducts)%nat then
        let batch := slice i (i + BATCH_SIZE) enabledProducts in
        let batchResults := map query batch in
        let pause :=
          if (i + BATCH_SIZE <? List.length enabledProducts)%nat
          then [Slept 100] else [] in
        runBatches query fuel' (i + BATCH_SIZE) enabledProducts
          (results ++ map fst batchResults)%list
          (events ++ List.concat (map snd batchResults) ++ pause)%list
      else Some (results, events)
  end.

(** The registry [PRODUCTS], the clock [new Date()] and the module constant
    [CONTRACT_CONFIG] are parameters of the two entry points. *)
Variable PRODUCTS : list ProductDefinition.
Variable config : ContractConfig.
Variable now : Date.

(** [export async function queryAllProductUsage(apiToken, accountId,
    zoneTags, filters?)] *)
Definition queryAllProductUsage (apiToken accountId : string)
    (zoneTags : list string) (filters : option QueryFilterOptions)
    : option (list ProductUsageResult * list Event) :=
  let '(start, end_) := getCurrentBillingPeriod now config in
  let enabledProducts := getEnabledProducts PRODUCTS config zoneTags in
  runBatches
    (fun product =>
       queryProductUsage apiToken accountId product start end_ filters)
    (S (List.length enabledProducts)) 0 enabledProducts [] [].

Definition CDN_ACCOUNT_PRODUCTS : list string :=
  ["http_requests"; "bandwidth"; "cached_bandwidth"].

Definition CDN_ZONE_PRODUCTS : list string :=
  ["http_requests_zone"; "bandwidth_zone"; "cached_bandwidth_zone"].

(** [filters?.zoneId], when truthy. *)
Definition zoneFilter (filters : option QueryFilterOptions) : option string :=
  match optField zoneId filters with
  | Some z => if z =? "" then None else Some z
  | None => None
  end.

(** The record pushed for a product that is not enabled. *)
Definition placeholder (start end_ : Date) (product : ProductRuntime)
    : ProductUsageResult :=
  let d := definition product in
  {| productId := id d;
     productName := name d;
     resCategory := category d;
     currentUsage := n0;
     resLimit := limit product;
     percentUsed := n0;
     resUnit := unit_ d;
     billingPeriodStart := toISOString start;
     billingPeriodEnd := toISOString end_;
     resScope := scope d;
     queryDurationMs := Some n0;
     resEnabled := Some false;
     resNote :=
       Some "Product not enabled. Enable in CONTRACT_CONFIG.productOverrides to monitor.";
     error := None;
     resUnlimited := None;
     confidence := None |}.

(** The products that [queryAllConfiguredProductUsage] keeps. *)
Definition filteredProducts (zoneTags : list string)
    (filters : option QueryFilterOptions) : list ProductRuntime :=
  let effectiveZoneTags :=
    match zoneFilter filters with
    | Some z => [z]
    | None => zoneTags
    end in
  let allProducts := getConfiguredProducts PRODUCTS config effectiveZoneTags in
  match zoneFilter filters with
  | Some _ =>
      filter (fun p =>
                match scope (definition p) with
                | zone => negb (includes CDN_ACCOUNT_PRODUCTS (id (definition p)))
                | account => false
                end) allProducts
  | None =>
      filter (fun p => negb (includes CDN_ZONE_PRODUCTS (id (definition p))))
        allProducts
  end.

(** [export async function queryAllConfiguredProductUsage(apiToken,
    accountId, zoneTags, filters?)] *)
Definition queryAllConfiguredProductUsage (apiToken accountId : string)
    (zoneTags : list string) (filters : option QueryFilterOptions)
    : option (list ProductUsageResult * list Event) :=
  let '(start, end_) := getCurrentBillingPeriod now config in
  let kept := filteredProducts zoneTags filters in
  let enabledProducts := filter enabled kept in
  let disabledProducts := filter (fun p => negb (enabled p)) kept in
  match
    runBatches
      (fun product =>
         queryProductUsage apiToken accountId product start end_ filters)
      (S (List.length enabledProducts)) 0 enabledProducts [] []
  with
  | Some (results, events) =>
      Some ((results ++ map (placeholder start end_) disabledProducts)%list,
            events)
  | None => None
  end.

End Engine.

(* ================================================================== *)
(** * graphql.ts: the categoriser *)
(* ================================================================== *)

(** [Array.prototype.sort(compareFn)]: a stable sort; [a] goes before [b]
    when [compareFn(a, b) < 0], and a [NaN] answer counts as [0].  Each
    element is inserted behind those it does not precede. *)
Fixpoint insertBy {A : Type} (compareFn : A -> A -> num) (x : A) (l : list A)
    : list A :=
  match l with
  | [] => [x]
  | y :: l' =>
      if (compareFn x y <? n0)%num then x :: y :: l'
      else y :: insertBy compareFn x l'
  end.

Definition sortBy {A : Type} (compareFn : A -> A -> num) (l : list A) : list A :=
  fold_left (fun acc x => insertBy compareFn x acc) l [].

(** [result.error] as a condition: set, and not the empty string. *)
Definition hasError (r : ProductUsageResult) : bool :=
  match error r with
  | Some msg => negb (msg =? "")
  | None => false
  end.

(** [r.queryDurationMs || 0] *)
Definition durationOrZero (r : ProductUsageResult) : num :=
  match queryDurationMs r with
  | Some d => if JsNum.truthy d then d else n0
  | None => n0
  end.

Definition byPercentUsedDesc (a b : ProductUsageResult) : num :=
  (percentUsed b - percentUsed a)%num.

(** The four [push] branches of the loop of [categorizeUsage]. *)
Definition pushResult (alertThreshold warningThreshold : num)
    (summary : UsageSummary) (r : ProductUsageResult) : UsageSummary :=
  if hasError r then
    {| alerts := alerts summary; warnings := warnings summary;
       healthy := healthy summary; errors := errors summary ++ [r];
       timestamp := timestamp summary;
       totalQueryDurationMs := totalQueryDurationMs summary |}
  else if (percentUsed r >=? alertThreshold)%num then
    {| alerts := alerts summary ++ [r]; warnings := warnings summary;
       healthy := healthy summary; errors := errors summary;
       timestamp := timestamp summary;
       totalQueryDurationMs := totalQueryDurationMs summary |}
  else if (percentUsed r >=? warningThreshold)%num then
    {| alerts := alerts summary; warnings := warnings summary ++ [r];
       healthy := healthy summary; errors := errors summary;
       timestamp := timestamp summary;
       totalQueryDurationMs := totalQueryDurationMs summary |}
  else
    {| alerts := alerts summary; warnings := warnings summary;
       healthy := healthy summary ++ [r]; errors := errors summary;
       timestamp := timestamp summary;
       totalQueryDurationMs := totalQueryDurationMs summary |}.

(** [export function categorizeUsage(results, alertThreshold,
    warningThreshold)]; [now] is the reading of the clock for [timestamp]. *)
Definition categorizeUsage (now : Date) (results : list ProductUsageResult)
    (alertThreshold warningThreshold : num) : UsageSummary :=
  let summary :=
    {| alerts := []; warnings := []; healthy := []; errors := [];
       timestamp := toISOString now;
       totalQueryDurationMs :=
         fold_left (fun sum r => (sum + durationOrZero r)%num) results n0 |} in
  let summary :=
    fold_left (pushResult alertThreshold warningThreshold) results summary in
  {| alerts := sortBy byPercentUsedDesc (alerts summary);
     warnings := sortBy byPercentUsedDesc (warnings summary);
     healthy := healthy summary;
     errors := errors summary;
     timestamp := timestamp summary;
     totalQueryDurationMs := totalQueryDurationMs summary |}.

(* ================================================================== *)
(** * The Worker around the engine

    From here on the embedding covers the code that surrounds the engine:
    [getProductsByCategory] of [src/config.ts], [src/security.ts], the
    request handling of [src/index.ts], [src/products/zero-trust-seats.ts],
    the REST client [src/cloudflare-api.ts], the Discord provider
    [src/notifications/discord.ts] with [src/notifications/index.ts], and
    the notification step of [src/workflow.ts].

    Further conventions:
    - a string is the sequence of its code units, of which the embedding
      has those below 256;
    - the REST API and the webhook are oracles, as [exec] is, and every
      request is appended to a trace;
    - a loop that has no end gives [None];
    - SHA-256 is a function from strings to digests, of which nothing is
      assumed. *)
(* ================================================================== *)

(* ================================================================== *)
(** * config.ts: products by category *)
(* ================================================================== *)

Definition sameCategory (a b : ProductCategory) : bool :=
  match a, b with
  | compute, compute | storage, storage | network, network
  | security, security | media, media | ai, ai
  | connectivity, connectivity | platform, platform => true
  | _, _ => false
  end.

(** [grouped[c]] on the object that [getProductsByCategory] fills, whose
    keys are kept in the order of their creation. *)
Fixpoint groupOf (c : ProductCategory)
    (grouped : list (ProductCategory * list ProductRuntime))
    : option (list ProductRuntime) :=
  match grouped with
  | [] => None
  | (c', products) :: rest =>
      if sameCategory c' c then Some products else groupOf c rest
  end.

(** [if (!grouped[c]) { grouped[c] = []; } grouped[c].push(product)] *)
Fixpoint pushTo (c : ProductCategory) (product : ProductRuntime)
    (grouped : list (ProductCategory * list ProductRuntime))
    : list (ProductCategory * list ProductRuntime) :=
  match grouped with
  | [] => [(c, [product])]
  | (c', products) :: rest =>
      if sameCategory c' c then (c', (products ++ [product])%list) :: rest
      else (c', products) :: pushTo c product rest
  end.

(** [export function getProductsByCategory(config, defaultZoneTags = [])] *)
Definition getProductsByCategory (PRODUCTS : list ProductDefinition)
    (config : ContractConfig) (defaultZoneTags : list string)
    : list (ProductCategory * list ProductRuntime) :=
  fold_left
    (fun grouped product =>
       pushTo (category (definition product)) product grouped)
    (getEnabledProducts PRODUCTS config defaultZoneTags) [].

(* ================================================================== *)
(** * The built-in String *)
(* ================================================================== *)

(** A string is the sequence of its code units; the characters of the
    embedding are the code units below 256. *)

(** White space and line terminators, as [trim] strips them: TAB, LF, VT,
    FF, CR, SP and NBSP are those below 256. *)
Definition isWhiteSpace (c : ascii) : bool :=
  let n := nat_of_ascii c in
  ((9 <=? n) && (n <=? 13) || (n =? 32) || (n =? 160))%nat.

Fixpoint trimStart (s : string) : string :=
  match s with
  | EmptyString => EmptyString
  | String c s' => if isWhiteSpace c then trimStart s' else s
  end.

Fixpoint trimEnd (s : string) : string :=
  match s with
  | EmptyString => EmptyString
  | String c s' =>
      match trimEnd s' with
      | EmptyString =>
          if isWhiteSpace c then EmptyString else String c EmptyString
      | r => String c r
      end
  end.

(** [s.trim()] *)
Definition trim (s : string) : string := trimEnd (trimStart s).

(** [s.split(sep)] for a separator of one character: the pieces between
    the separators, of which there is always one at least. *)
Fixpoint split (sep : ascii) (s : string) : list string :=
  match s with
  | EmptyString => [EmptyString]
  | String c s' =>
      if Ascii.eqb c sep then EmptyString :: split sep s'
      else
        match split sep s' with
        | piece :: pieces => String c piece :: pieces
        | [] => [String c EmptyString]
        end
  end.

(** [s.toLowerCase()]: the letters A-Z and the capital letters of Latin-1
    move 32 places up. *)
Definition lowerChar (c : ascii) : ascii :=
  let n := nat_of_ascii c in
  if ((65 <=? n) && (n <=? 90)
      || (192 <=? n) && (n <=? 222) && negb (n =? 215))%nat
  then ascii_of_nat (n + 32) else c.

Fixpoint toLowerCase (s : string) : string :=
  match s with
  | EmptyString => EmptyString
  | String c s' => String (lowerChar c) (toLowerCase s')
  end.

(** [s.startsWith(p)], and [s.substring(n)]: the rest of [s] from
    position [n]. *)
Definition startsWith (s p : string) : bool := prefix p s.

Definition substringFrom (n : nat) (s : string) : string :=
  substring n (String.length s - n) s.

(** A string as a condition: [undefined], [null] and the empty string are
    falsy.  [filter(Boolean)] keeps the strings that are not empty. *)
Definition nonEmpty (s : string) : bool := negb (s =? "").

Definition given (v : option string) : bool :=
  match v with
  | Some s => nonEmpty s
  | None => false
  end.

(** Every character of [s] is in the class [p]: a match of [^[p]*$]. *)
Fixpoint allChars (p : ascii -> bool) (s : string) : bool :=
  match s with
  | EmptyString => true
  | String c s' => p c && allChars p s'
  end.

(* ================================================================== *)
(** * security.ts *)
(* ================================================================== *)

Definition PROTECTED_ENDPOINTS : list string :=
  ["/api/trigger"; "/api/test-discord"; "/api/check"].

Definition REDACTED_CONFIG_ENDPOINTS : list string :=
  ["/api/config"; "/api/discover"].

(** [export function isProtectedEndpoint(pathname)] *)
Definition isProtectedEndpoint (pathname : string) : bool :=
  existsb (fun ep => (pathname =? ep) || startsWith pathname (ep ++ "?"))
    PROTECTED_ENDPOINTS.

(** [export function parseAllowedOrigins(originsConfig?)] *)
Definition parseAllowedOrigins (originsConfig : option string) : list string :=
  match originsConfig with
  | None => ["*"]
  | Some s =>
      if negb (nonEmpty s) || (s =? "*") then ["*"]
      else filter nonEmpty (map trim (split "," s))
  end.

(** [export function isOriginAllowed(requestOrigin, allowedOrigins)] *)
Definition isOriginAllowed (requestOrigin : option string)
    (allowedOrigins : list string) : bool :=
  match requestOrigin with
  | None => true
  | Some o =>
      if negb (nonEmpty o) then true
      else if includes allowedOrigins "*" then true
      else includes allowedOrigins o
  end.

(** [obj[k] = v] on an object whose own properties are kept in the order
    of their creation, and [obj[k]]. *)
Fixpoint setProp (k v : string) (obj : list (string * string))
    : list (string * string) :=
  match obj with
  | [] => [(k, v)]
  | (k', v') :: rest =>
      if k' =? k then (k', v) :: rest else (k', v') :: setProp k v rest
  end.

Fixpoint getOwn (k : string) (obj : list (string * string)) : option string :=
  match obj with
  | [] => None
  | (k', v') :: rest => if k' =? k then Some v' else getOwn k rest
  end.

(** [export function getCorsHeaders(requestOrigin, allowedOrigins)] *)
Definition getCorsHeaders (requestOrigin : option string)
    (allowedOrigins : list string) : list (string * string) :=
  let headers :=
    [("Access-Control-Allow-Methods", "GET, POST, OPTIONS");
     ("Access-Control-Allow-Headers",
      "Content-Type, Authorization, X-API-Key");
     ("Access-Control-Max-Age", "86400")] in
  if includes allowedOrigins "*" then
    setProp "Access-Control-Allow-Origin" "*" headers
  else
    match requestOrigin with
    | Some o =>
        if nonEmpty o && includes allowedOrigins o then
          setProp "Vary" "Origin"
            (setProp "Access-Control-Allow-Origin" o headers)
        else headers
    | None => headers
    end.

(** The classes [[a-f0-9]] and [[a-zA-Z0-9-_]] of the two patterns. *)
Definition isLowerHex (c : ascii) : bool :=
  let n := nat_of_ascii c in
  ((48 <=? n) && (n <=? 57) || (97 <=? n) && (n <=? 102))%nat.

Definition isInstanceIdChar (c : ascii) : bool :=
  let n := nat_of_ascii c in
  ((97 <=? n) && (n <=? 122) || (65 <=? n) && (n <=? 90)
   || (48 <=? n) && (n <=? 57) || (n =? 45) || (n =? 95))%nat.

(** [export function validateZoneId(zoneId)]; the pattern is
    [/^[a-f0-9]{32}$/]. *)
Definition validateZoneId (zoneId : option string) : option string :=
  match zoneId with
  | None => None
  | Some z =>
      if negb (nonEmpty z) then None
      else
        let sanitized := toLowerCase (trim z) in
        if (String.length sanitized =? 32)%nat && allChars isLowerHex sanitized
        then Some sanitized else None
  end.

(** [export function validateInstanceId(instanceId)]; the pattern is
    [/^[a-zA-Z0-9-_]{1,128}$/]. *)
Definition validateInstanceId (instanceId : option string) : option string :=
  match instanceId with
  | None => None
  | Some i =>
      if negb (nonEmpty i) then None
      else
        let sanitized := trim i in
        if (1 <=? String.length sanitized)%nat
           && (String.length sanitized <=? 128)%nat
           && allChars isInstanceIdChar sanitized
        then Some sanitized else None
  end.

(** An incoming request: its method, the path of its URL, its query
    parameters ([url.searchParams.get]) and its headers
    ([request.headers.get], under the names that the sources write). *)
Record Request : Type := {
  method : string;
  pathname : string;
  searchParams : string -> option string;
  headers : string -> option string
}.

Section Authentication.

(** The SHA-256 digest of the encoding of a string. *)
Variable sha256 : string -> string.

(** [export async function timingSafeEqual(provided, expected)]: the two
    digests are compared. *)
Definition timingSafeEqual (provided expected : string) : bool :=
  sha256 provided =? sha256 expected.

(** [export async function verifyApiKey(request, expectedKey)] *)
Definition verifyApiKey (request : Request) (expectedKey : string) : bool :=
  let byApiKeyHeader :=
    match headers request "X-API-Key" with
    | Some apiKeyHeader =>
        if nonEmpty apiKeyHeader
        then timingSafeEqual apiKeyHeader expectedKey else false
    | None => false
    end in
  match headers request "Authorization" with
  | Some authHeader =>
      if startsWith authHeader "Bearer "
      then timingSafeEqual (substringFrom 7 authHeader) expectedKey
      else byApiKeyHeader
  | None => byApiKeyHeader
  end.

End Authentication.

(* ================================================================== *)
(** * index.ts: the request handler *)
(* ================================================================== *)

(** The bindings of the Worker. *)
Record Env : Type := {
  CLOUDFLARE_API_TOKEN_ANALYTICS_READ_ONLY : option string;
  CLOUDFLARE_ACCOUNT_ID : option string;
  CLOUDFLARE_ZONE_TAGS : option string;
  CLOUDFLARE_ZONE_ID : option string;
  DISCORD_WEBHOOK_URL : option string;
  API_ACCESS_KEY : option string;
  ALLOWED_ORIGINS : option string
}.

(** The handlers that [handleApiRoute] chooses from; [ToNotFound] is its
    [default] branch. *)
Inductive Handler : Type :=
| ToTrigger | ToStatus | ToCheck | ToTestDiscord | ToDiscover | ToConfig
| ToProducts | ToDashboard | ToZones | ToNotFound.

(** The [switch (pathname)] of [handleApiRoute]. *)
Definition handleApiRoute (pathname : string) : Handler :=
  if pathname =? "/api/trigger" then ToTrigger
  else if pathname =? "/api/status" then ToStatus
  else if pathname =? "/api/check" then ToCheck
  else if pathname =? "/api/test-discord" then ToTestDiscord
  else if pathname =? "/api/discover" then ToDiscover
  else if pathname =? "/api/config" then ToConfig
  else if pathname =? "/api/products" then ToProducts
  else if pathname =? "/api/dashboard" then ToDashboard
  else if pathname =? "/api/zones" then ToZones
  else ToNotFound.

(** The default export of the Worker.  [Served] is what [fetch] does with a
    request: the response it returns itself, or the handler whose response
    it returns. *)
Module Worker.

Inductive Served : Type :=
| CorsBlocked
| Preflight
| Unauthorized
| Routed (h : Handler)
| Health
| NotFound.

(** [async fetch(request, env, ctx)] up to the call of the handler;
    [sha256] is the digest that [verifyApiKey] compares. *)
Definition fetch (sha256 : string -> string) (env : Env) (request : Request)
    : Served :=
  let allowedOrigins := parseAllowedOrigins (ALLOWED_ORIGINS env) in
  let requestOrigin := headers request "Origin" in
  if given requestOrigin && negb (isOriginAllowed requestOrigin allowedOrigins)
  then CorsBlocked
  else if method request =? "OPTIONS" then Preflight
  else if startsWith (pathname request) "/api/" then
    match API_ACCESS_KEY env with
    | Some key =>
        if nonEmpty key && isProtectedEndpoint (pathname request) then
          if negb (verifyApiKey sha256 request key) then Unauthorized
          else Routed (handleApiRoute (pathname request))
        else Routed (handleApiRoute (pathname request))
    | None => Routed (handleApiRoute (pathname request))
    end
  else if pathname request =? "/health" then Health
  else NotFound.

End Worker.

(** [function parseFilterOptions(url, request?)] *)
Definition parseFilterOptions (request : Request) : QueryFilterOptions :=
  let rawZoneId := searchParams request "zoneId" in
  let zoneId := validateZoneId rawZoneId in
  let isTrue (v : option string) :=
    match v with
    | Some s => s =? "true"
    | None => false
    end in
  {| eyeballOnly := isTrue (searchParams request "eyeballOnly");
     excludeEdgeWorkers := isTrue (searchParams request "excludeEdgeWorkers");
     excludeBlocked := isTrue (searchParams request "excludeBlocked");
     zoneId := if given zoneId then zoneId else None |}.

(* ================================================================== *)
(** * The built-in Math and loops over numbers *)
(* ================================================================== *)

(** [Math.round(a)]: the nearest integer, the upper of two. *)
Definition round (a : num) : num :=
  match a with
  | Fin q => ofZ (Qfloor (q + (1 # 2)))
  | _ => a
  end.

(** The number of turns of [for (let i = 0; i < bound; i++)], and [None]
    for a loop without end. *)
Definition turns (bound : num) : option nat :=
  match bound with
  | Fin q => Some (Z.to_nat (Qceiling q))
  | PInf => None
  | NInf | NaN => Some O
  end.

(* ================================================================== *)
(** * products/zero-trust-seats.ts *)
(* ================================================================== *)

Inductive SeatStatus : Type :=
| SeatHealthy | SeatWarning | SeatAlert | SeatCritical | SeatUnlimited.

(** [export function calculateSeatUsagePercent(activeSeats, contractLimit)] *)
Definition calculateSeatUsagePercent (activeSeats contractLimit : num) : num :=
  if (contractLimit <=? n0)%num then n0
  else ((activeSeats / contractLimit) * n100)%num.

(** [export function getSeatStatus(activeSeats, contractLimit,
    warningThreshold = 70, alertThreshold = 90)] *)
Definition getSeatStatus (activeSeats contractLimit : num)
    (warningThreshold alertThreshold : num) : SeatStatus :=
  if (contractLimit <=? n0)%num then SeatUnlimited
  else
    let percent := calculateSeatUsagePercent activeSeats contractLimit in
    if (percent >=? n100)%num then SeatCritical
    else if (percent >=? alertThreshold)%num then SeatAlert
    else if (percent >=? warningThreshold)%num then SeatWarning
    else SeatHealthy.

(* ================================================================== *)
(** * notifications/discord.ts: the progress bar *)
(* ================================================================== *)

(** The squares that the two loops of [createProgressBar] append, in
    order. *)
Definition progressSquares (percent : num) : option (list string) :=
  let filled := JsNum.min (round (percent / ofZ 10)%num) (ofZ 10) in
  let empty := (ofZ 10 - filled)%num in
  let square :=
    if (percent >=? ofZ 90)%num then ":red_square:"
    else if (percent >=? ofZ 75)%num then ":orange_square:"
    else ":green_square:" in
  match turns filled, turns empty with
  | Some f, Some e =>
      Some (repeat square f ++ repeat ":white_large_square:" e)%list
  | _, _ => None
  end.

(** [function createProgressBar(percent)] *)
Definition createProgressBar (percent : num) : option string :=
  option_map (String.concat "") (progressSquares percent).

(* ================================================================== *)
(** * index.ts: zone tags and the status of a dashboard row *)
(* ================================================================== *)

(** [env.CLOUDFLARE_ZONE_ID ? [env.CLOUDFLARE_ZONE_ID] : []] *)
Definition singleZone (env : Env) : list string :=
  match CLOUDFLARE_ZONE_ID env with
  | Some z => if nonEmpty z then [z] else []
  | None => []
  end.

(** The value that [handleCheck], [handleDashboard] and the workflow first
    give to [zoneTags]:
    [env.CLOUDFLARE_ZONE_TAGS?.split(',').map((z) => z.trim())
       .filter(Boolean) || (...)]; an array, even an empty one, is truthy. *)
Definition configuredZoneTags (env : Env) : list string :=
  match CLOUDFLARE_ZONE_TAGS env with
  | Some tags => filter nonEmpty (map trim (split "," tags))
  | None => singleZone env
  end.

(** The zone tags of [handleConfig] and [handleProducts], which do not
    filter. *)
Definition displayedZoneTags (env : Env) : list string :=
  match CLOUDFLARE_ZONE_TAGS env with
  | Some tags => map trim (split "," tags)
  | None => singleZone env
  end.

Inductive RowStatus : Type :=
| RowDisabled | RowError | RowHealthy | RowCritical | RowAlert | RowWarning.

(** The [status] that [handleDashboard] gives to a result. *)
Definition rowStatus (config : ContractConfig) (r : ProductUsageResult)
    : RowStatus :=
  match resEnabled r with
  | Some false => RowDisabled
  | _ =>
      if hasError r then RowError
      else if orElse (resUnlimited r) false then RowHealthy
      else if (percentUsed r >=? n100)%num then RowCritical
      else if (percentUsed r >=? alertThresholdPercent config)%num
      then RowAlert
      else if (percentUsed r >=? warningThresholdPercent config)%num
      then RowWarning
      else RowHealthy
  end.

(* ================================================================== *)
(** * cloudflare-api.ts *)
(* ================================================================== *)

(** An integer in a template literal. *)
Definition decimal (z : Z) : string := NilZero.string_of_int (Z.to_int z).

Definition CLOUDFLARE_API_BASE : string :=
  "https://api.cloudflare.com/client/v4".

(** The fields of [interface Zone] and of [interface ZeroTrustUser] that
    the sources read. *)
Record Zone : Type := {
  zoneIdentifier : string;
  zoneName : string;
  zoneStatus : string;
  zoneType : string;
  zonePaused : bool
}.

Record ZeroTrustUser : Type := {
  userIdentifier : string;
  access_seat : bool;
  gateway_seat : bool
}.

(** [interface CloudflareApiResponse<T>], for a [result] that is a list. *)
Record ApiMessage : Type := {
  apiCode : num;
  apiMessage : string
}.

Record ResultInfo : Type := {
  page : num;
  per_page : num;
  total_pages : num;
  count_ : num;
  total_count : num
}.

Record CloudflareApiResponse (T : Type) : Type := {
  success : bool;
  apiErrors : list ApiMessage;
  apiMessages : list ApiMessage;
  apiResult : list T;
  result_info : option ResultInfo
}.

Arguments success {T} _.
Arguments apiErrors {T} _.
Arguments apiMessages {T} _.
Arguments apiResult {T} _.
Arguments result_info {T} _.

(** A request to the REST API: the URL without its query, the query
    parameters in the order they were set, and the bearer token. *)
Record ApiCall : Type := {
  apiUrl : string;
  apiParams : list (string * string);
  apiToken_ : string
}.

(** How a request ends: [fetch] or the parsing of the body rejects, the
    status is not 2xx (with the text of the body), or a body is parsed. *)
Inductive Reply (T : Type) : Type :=
| Unreachable (msg : string)
| Refused (status : Z) (text : string)
| Parsed (body : CloudflareApiResponse T).

Arguments Unreachable {T} msg.
Arguments Refused {T} status text.
Arguments Parsed {T} body.

Inductive ApiEvent : Type :=
| Fetched (c : ApiCall)
| Waited (ms : Z).

(** [interface ZoneDiscoveryResult] and [interface ZeroTrustSeats] *)
Record ZoneDiscoveryResult : Type := {
  zones : list Zone;
  zoneIds : list string;
  totalZones : Z;
  discoveryError : option string;
  discoveryMs : num
}.

Record ZeroTrustSeats : Type := {
  totalUsers : num;
  accessSeats : Z;
  gatewaySeats : Z;
  activeSeats : Z;
  seatsError : option string;
  seatsMs : num
}.

(** The step that both functions take after a request: a status that is
    not 2xx and a body without [success] throw. *)
Definition checked {T : Type} (r : Reply T) : Res (CloudflareApiResponse T) :=
  match r with
  | Unreachable msg => Throw msg
  | Refused status text =>
      Throw ("API request failed: " ++ decimal status ++ " - " ++ text)
  | Parsed data =>
      if negb (success data) then
        Throw ("API error: " ++ join ", " (map apiMessage (apiErrors data)))
      else Ok data
  end.

Local Open Scope m_scope.

Definition request {T : Type} (api : ApiCall -> Reply T) (c : ApiCall)
    : M (list ApiEvent) (Reply T) :=
  fun events => (Ok (api c), events ++ [Fetched c])%list.

Definition wait (ms : Z) : M (list ApiEvent) unit :=
  modify (fun events => events ++ [Waited ms])%list.

Definition lift {S A : Type} (r : Res A) : M S A := fun s => (r, s).

Section ZoneDiscovery.

Variable api : ApiCall -> Reply Zone.
Variable elapsedMs : num.

Definition zonesCall (apiToken accountId : string) (page : Z) : ApiCall :=
  {| apiUrl := CLOUDFLARE_API_BASE ++ "/zones";
     apiParams :=
       [("account.id", accountId); ("status", "active");
        ("page", decimal page); ("per_page", decimal 50)];
     apiToken_ := apiToken |}.

(** The loop [while (true)] of [discoverZones] from page [page] on, with
    the zones gathered so far; [None] when [fuel] turns do not end it. *)
Fixpoint zonePages (apiToken accountId : string) (fuel : nat) (page : Z)
    (allZones : list Zone) : M (list ApiEvent) (option (list Zone)) :=
  match fuel with
  | O => ret None
  | S fuel' =>
      response <- request api (zonesCall apiToken accountId page) ;;
      data <- lift (checked response) ;;
      let allZones := (allZones ++ apiResult data)%list in
      match result_info data with
      | None => ret (Some allZones)
      | Some resultInfo =>
          if (ofZ page >=? total_pages resultInfo)%num
          then ret (Some allZones)
          else
            let page := (page + 1)%Z in
            (if (ofZ page <=? total_pages resultInfo)%num
             then wait 50 else ret tt) ;;
            zonePages apiToken accountId fuel' page allZones
      end
  end.

(** [export async function discoverZones(apiToken, accountId)], with the
    requests it sent. *)
Definition discoverZones (fuel : nat) (apiToken accountId : string)
    : option ZoneDiscoveryResult * list ApiEvent :=
  match zonePages apiToken accountId fuel 1 [] [] with
  | (Ok (Some allZones), events) =>
      (Some {| zones := allZones;
               zoneIds := map zoneIdentifier allZones;
               totalZones := Z.of_nat (List.length allZones);
               discoveryError := None;
               discoveryMs := elapsedMs |}, events)
  | (Ok None, events) => (None, events)
  | (Throw msg, events) =>
      (Some {| zones := []; zoneIds := []; totalZones := 0;
               discoveryError := Some msg;
               discoveryMs := elapsedMs |}, events)
  end.

End ZoneDiscovery.

Section SeatCount.

Variable api : ApiCall -> Reply ZeroTrustUser.
Variable elapsedMs : num.

Definition usersCall (apiToken accountId : string) (page : Z) : ApiCall :=
  {| apiUrl :=
       CLOUDFLARE_API_BASE ++ "/accounts/" ++ accountId ++ "/access/users";
     apiParams := [("per_page", "1000"); ("page", decimal page)];
     apiToken_ := apiToken |}.

(** The values of [page] in [for (let page = 2; page <= totalPages;
    page++)]; [None] for a loop without end. *)
Definition pagesFromTwo (totalPages : num) : option (list Z) :=
  match totalPages with
  | Fin q => Some (map Z.of_nat (seq 2 (Z.to_nat (Qfloor q) - 1)))
  | PInf => None
  | NInf | NaN => Some []
  end.

(** One turn of that loop: a page that is refused, or whose body is
    without [success], adds nothing. *)
Definition addUserPage (apiToken accountId : string)
    (allUsers : list ZeroTrustUser) (page : Z)
    : M (list ApiEvent) (list ZeroTrustUser) :=
  pageResponse <- request api (usersCall apiToken accountId page) ;;
  allUsers <-
    match pageResponse with
    | Unreachable msg => lift (Throw msg)
    | Refused _ _ => ret allUsers
    | Parsed pageData =>
        if success pageData then ret (allUsers ++ apiResult pageData)%list
        else ret allUsers
    end ;;
  wait 50 ;;
  ret allUsers.

Fixpoint addUserPages (apiToken accountId : string)
    (allUsers : list ZeroTrustUser) (pages : list Z)
    : M (list ApiEvent) (list ZeroTrustUser) :=
  match pages with
  | [] => ret allUsers
  | page :: rest =>
      allUsers <- addUserPage apiToken accountId allUsers page ;;
      addUserPages apiToken accountId allUsers rest
  end.

(** The three counters after [for (const user of allUsers)]. *)
Definition countSeats (allUsers : list ZeroTrustUser) : Z * Z * Z :=
  fold_left
    (fun '(accessSeats, gatewaySeats, activeSeats) user =>
       ((if access_seat user then accessSeats + 1 else accessSeats),
        (if gateway_seat user then gatewaySeats + 1 else gatewaySeats),
        (if access_seat user || gateway_seat user
         then activeSeats + 1 else activeSeats))%Z)
    allUsers (0, 0, 0)%Z.

(** The [try] block of [getZeroTrustSeats]; [None] when its loop over the
    pages has no end. *)
Definition seatsBody (apiToken accountId : string)
    : M (list ApiEvent) (option ZeroTrustSeats) :=
  response <- request api (usersCall apiToken accountId 1) ;;
  data <- lift (checked response) ;;
  let resultInfo := result_info data in
  let pages :=
    match resultInfo with
    | Some info =>
        if (total_pages info >? ofZ 1)%num
        then pagesFromTwo (total_pages info) else Some []
    | None => Some []
    end in
  match pages with
  | None => ret None
  | Some pages =>
      allUsers <- addUserPages apiToken accountId (apiResult data) pages ;;
      let '(accessSeats, gatewaySeats, activeSeats) := countSeats allUsers in
      ret (Some {| totalUsers :=
                     match resultInfo with
                     | Some info => total_count info
                     | None => ofZ (Z.of_nat (List.length allUsers))
                     end;
                   accessSeats := accessSeats;
                   gatewaySeats := gatewaySeats;
                   activeSeats := activeSeats;
                   seatsError := None;
                   seatsMs := elapsedMs |})
  end.

(** [export async function getZeroTrustSeats(apiToken, accountId)], with
    the requests it sent. *)
Definition getZeroTrustSeats (apiToken accountId : string)
    : option ZeroTrustSeats * list ApiEvent :=
  match seatsBody apiToken accountId [] with
  | (Ok seats, events) => (seats, events)
  | (Throw msg, events) =>
      (Some {| totalUsers := n0; accessSeats := 0; gatewaySeats := 0;
               activeSeats := 0; seatsError := Some msg;
               seatsMs := elapsedMs |}, events)
  end.

End SeatCount.

Local Close Scope m_scope.

(* ================================================================== *)
(** * index.ts and workflow.ts: the zones of a check *)
(* ================================================================== *)

Section ZonesOfACheck.

Variable api : ApiCall -> Reply Zone.
Variable elapsedMs : num.

(** The [zoneTags] that [handleCheck] and the step [validate-config] of the
    workflow go on with, for the token and the account that passed their
    guard: [if (zoneTags.length === 0) { const zoneDiscovery = await
    discoverZones(apiToken, accountId); ... }].  The result holds the tags,
    [zonesAutoDiscovered] and the requests sent; it is [None] when the
    discovery has no end. *)
Definition checkedZoneTags (fuel : nat) (env : Env)
    (apiToken accountId : string)
    : option ((list string * bool) * list ApiEvent) :=
  let zoneTags := configuredZoneTags env in
  let zonesAutoDiscovered := false in
  if (List.length zoneTags =? 0)%nat then
    match discoverZones api elapsedMs fuel apiToken accountId with
    | (Some zoneDiscovery, events) =>
        if negb (given (discoveryError zoneDiscovery))
        then Some ((zoneIds zoneDiscovery, true), events)
        else Some ((zoneTags, zonesAutoDiscovered), events)
    | (None, _) => None
    end
  else Some ((zoneTags, zonesAutoDiscovered), []).

(** The same for [handleDashboard], which discovers the zones whenever a
    token and an account are configured, and takes the discovered zones
    when it has none of its own. *)
Definition dashboardZoneTags (fuel : nat) (env : Env)
    : option ((list string * bool) * list ApiEvent) :=
  let zoneTags := configuredZoneTags env in
  let zonesAutoDiscovered := false in
  match CLOUDFLARE_API_TOKEN_ANALYTICS_READ_ONLY env,
        CLOUDFLARE_ACCOUNT_ID env with
  | Some apiToken, Some accountId =>
      if nonEmpty apiToken && nonEmpty accountId then
        match discoverZones api elapsedMs fuel apiToken accountId with
        | (Some zoneDiscovery, events) =>
            if given (discoveryError zoneDiscovery)
            then Some ((zoneTags, zonesAutoDiscovered), events)
            else if (List.length zoneTags =? 0)%nat
            then Some ((zoneIds zoneDiscovery, true), events)
            else Some ((zoneTags, zonesAutoDiscovered), events)
        | (None, _) => None
        end
      else Some ((zoneTags, zonesAutoDiscovered), [])
  | _, _ => Some ((zoneTags, zonesAutoDiscovered), [])
  end.

End ZonesOfACheck.

(* ================================================================== *)
(** * notifications: the Discord provider *)
(* ================================================================== *)

(** [s.includes(part)] on strings. *)
Fixpoint stringIncludes (s part : string) : bool :=
  prefix part s
  || match s with
     | EmptyString => false
     | String _ s' => stringIncludes s' part
     end.

(** [interface NotificationFilterInfo], [interface NotificationOptions] and
    [interface NotificationResult] *)
Record NotificationFilterInfo : Type := {
  shownEyeballOnly : option bool;
  shownExcludeEdgeWorkers : option bool;
  shownExcludeBlocked : option bool
}.

Record NotificationOptions : Type := {
  alwaysNotify : option bool;
  includeHealthy : option bool;
  mentionOnCritical : option bool;
  shownFilters : option NotificationFilterInfo
}.

Record NotificationResult : Type := {
  notifySuccess : bool;
  notifyProvider : string;
  notifyError : option string;
  notifyStatusCode : option Z;
  notifyDurationMs : option num
}.

(** An embed, kept as the call of the builder that formats it. *)
Inductive DiscordEmbed : Type :=
| AlertEmbed (alerts : list ProductUsageResult)
| WarningEmbed (warnings : list ProductUsageResult)
| ErrorEmbed (errors : list ProductUsageResult)
| SummaryEmbed (summary : UsageSummary) (options : NotificationOptions).

(** [interface DiscordWebhookPayload] *)
Record DiscordWebhookPayload : Type := {
  content : option string;
  username : string;
  avatar_url : string;
  embeds : list DiscordEmbed
}.

(** The progress bars of [results.map(formatUsageField)], the one part of
    a field whose computation is a loop; [None] when a bar has no end. *)
Fixpoint usageBars (results : list ProductUsageResult)
    : option (list string) :=
  match results with
  | [] => Some []
  | result :: rest =>
      match createProgressBar (percentUsed result) with
      | Some progressBar => option_map (cons progressBar) (usageBars rest)
      | None => None
      end
  end.

(** [buildAlertEmbed(alerts)], [buildWarningEmbed(warnings)],
    [buildErrorEmbed(errors)] and [buildSummaryEmbed(summary, options)]:
    the first two draw a bar for each of their results, the last one for
    [[...summary.alerts, ...summary.warnings].slice(0, 3)]. *)
Definition buildAlertEmbed (alerts : list ProductUsageResult)
    : option DiscordEmbed :=
  option_map (fun _ => AlertEmbed alerts) (usageBars alerts).

Definition buildWarningEmbed (warnings : list ProductUsageResult)
    : option DiscordEmbed :=
  option_map (fun _ => WarningEmbed warnings) (usageBars warnings).

Definition buildErrorEmbed (errors : list ProductUsageResult) : DiscordEmbed :=
  ErrorEmbed errors.

Definition buildSummaryEmbed (summary : UsageSummary)
    (options : NotificationOptions) : option DiscordEmbed :=
  let topProducts := firstn 3 (alerts summary ++ warnings summary)%list in
  option_map (fun _ => SummaryEmbed summary options) (usageBars topProducts).

(** How the [POST] to the webhook ends: with a 2xx status, with another
    status and the text of the body, or by a rejection. *)
Inductive WebhookReply : Type :=
| WebhookOk (status : Z)
| WebhookError (status : Z) (errorText : string)
| WebhookDown (msg : string).

(** The filter of [significantErrors]: the errors that are expected of
    products without data are left out. *)
Definition significant (e : ProductUsageResult) : bool :=
  let error := orElse (error e) "" in
  if stringIncludes error "unknown field" then false
  else if stringIncludes error "time range is too large" then false
  else if stringIncludes error "unknown arg" then false
  else true.

Definition notEmpty {A : Type} (l : list A) : bool :=
  match l with
  | [] => false
  | _ => true
  end.

(** [if (cond) { embeds.push(build) }], where the builder may not
    return. *)
Definition pushWhen (cond : bool) (build : option DiscordEmbed)
    (embeds : list DiscordEmbed) : option (list DiscordEmbed) :=
  if cond then option_map (fun embed => embeds ++ [embed])%list build
  else Some embeds.

Section Discord.

(** The webhook behind [fetch], and the [Date.now() - startTime] measured. *)
Variable post : string -> DiscordWebhookPayload -> WebhookReply.
Variable elapsedMs : num.

(** [discordProvider.sendNotification(webhookUrl, summary, options)], with
    the payloads it posted; [None] when a builder does not return. *)
Definition sendNotification (webhookUrl : string) (summary : UsageSummary)
    (options : NotificationOptions)
    : option (NotificationResult * list (string * DiscordWebhookPayload)) :=
  let significantErrors := filter significant (errors summary) in
  match pushWhen (notEmpty (alerts summary))
          (buildAlertEmbed (alerts summary)) [] with
  | None => None
  | Some embeds =>
  match pushWhen (notEmpty (warnings summary))
          (buildWarningEmbed (warnings summary)) embeds with
  | None => None
  | Some embeds =>
  match pushWhen (notEmpty significantErrors)
          (Some (buildErrorEmbed significantErrors)) embeds with
  | None => None
  | Some embeds =>
      if negb (notEmpty embeds) && negb (orElse (alwaysNotify options) false)
      then
        Some ({| notifySuccess := true; notifyProvider := "discord";
                 notifyError := None; notifyStatusCode := None;
                 notifyDurationMs := Some elapsedMs |}, [])
      else
        match buildSummaryEmbed summary options with
        | None => None
        | Some summaryEmbed =>
            let embeds := (embeds ++ [summaryEmbed])%list in
            let embeds :=
              if (10 <? List.length embeds)%nat
              then firstn 10 embeds else embeds in
            let payload :=
              {| username := "Cloudflare Usage Monitor";
                 avatar_url := "https://www.cloudflare.com/favicon.ico";
                 embeds := embeds;
                 content :=
                   if notEmpty (alerts summary)
                      && match mentionOnCritical options with
                         | Some false => false
                         | _ => true
                         end
                   then
                     Some "@here :rotating_light: **Critical usage alert!**"
                   else None |} in
            Some
              (match post webhookUrl payload with
               | WebhookOk status =>
                   {| notifySuccess := true; notifyProvider := "discord";
                      notifyError := None; notifyStatusCode := Some status;
                      notifyDurationMs := Some elapsedMs |}
               | WebhookError status errorText =>
                   {| notifySuccess := false; notifyProvider := "discord";
                      notifyError :=
                        Some ("Discord webhook failed: " ++ decimal status
                              ++ " " ++ errorText);
                      notifyStatusCode := None;
                      notifyDurationMs := Some elapsedMs |}
               | WebhookDown msg =>
                   {| notifySuccess := false; notifyProvider := "discord";
                      notifyError := Some msg; notifyStatusCode := None;
                      notifyDurationMs := Some elapsedMs |}
               end, [(webhookUrl, payload)])
        end
  end end end.

(** [export async function sendDiscordNotification(webhookUrl, summary,
    options?)]: [{ success, error }] of the result. *)
Definition sendDiscordNotification (webhookUrl : string)
    (summary : UsageSummary) (options : NotificationOptions)
    : option ((bool * option string)
              * list (string * DiscordWebhookPayload)) :=
  option_map
    (fun '(result, posted) =>
       ((notifySuccess result, notifyError result), posted))
    (sendNotification webhookUrl summary options).

(* ================================================================== *)
(** * workflow.ts: the notification step *)
(* ================================================================== *)

Definition DEFAULT_WORKFLOW_FILTERS : QueryFilterOptions :=
  {| eyeballOnly := true; excludeEdgeWorkers := false;
     excludeBlocked := true; zoneId := None |}.

(** [interface WorkflowParams] *)
Record WorkflowParams : Type := {
  forceNotify : option bool;
  products : option (list string);
  triggeredBy : option string
}.

(** The step [send-notification] of [UsageMonitorWorkflow.run]: what it
    returns as [{ sent, error }], and the payloads posted. *)
Definition sendNotificationStep (env : Env) (params : WorkflowParams)
    (summary : UsageSummary)
    : option ((bool * option string)
              * list (string * DiscordWebhookPayload)) :=
  match DISCORD_WEBHOOK_URL env with
  | Some webhookUrl =>
      if negb (nonEmpty webhookUrl)
      then Some ((false, Some "No webhook URL configured"), [])
      else
        let shouldNotify :=
          notEmpty (alerts summary) || notEmpty (warnings summary)
          || orElse (forceNotify params) false in
        if negb shouldNotify then Some ((false, None), [])
        else
          sendDiscordNotification webhookUrl summary
            {| alwaysNotify := forceNotify params;
               includeHealthy := None;
               mentionOnCritical := None;
               shownFilters :=
                 Some {| shownEyeballOnly :=
                           Some (eyeballOnly DEFAULT_WORKFLOW_FILTERS);
                         shownExcludeEdgeWorkers :=
                           Some (excludeEdgeWorkers DEFAULT_WORKFLOW_FILTERS);
                         shownExcludeBlocked :=
                           Some (excludeBlocked DEFAULT_WORKFLOW_FILTERS) |} |}
  | None => Some ((false, Some "No webhook URL configured"), [])
  end.

End Discord.

(* ================================================================== *)
(** * Vocabulary of the properties *)
(* ================================================================== *)

(** The order asked of [alerts] and [warnings]. *)
Definition descendingByPercentUsed (a b : ProductUsageResult) : Prop :=
  (percentUsed a >=? percentUsed b)%num = true.

(** The buckets of a summary and the rule of the specification: the first
    of the four conditions that holds decides. *)
Inductive Bucket : Type := InErrors | InAlerts | InWarnings | InHealthy.

Definition bucketOf (alertThreshold warningThreshold : num)
    (r : ProductUsageResult) : Bucket :=
  if hasError r then InErrors
  else if (percentUsed r >=? alertThreshold)%num then InAlerts
  else if (percentUsed r >=? warningThreshold)%num then InWarnings
  else InHealthy.

Definition sameBucket (a b : Bucket) : bool :=
  match a, b with
  | InErrors, InErrors | InAlerts, InAlerts
  | InWarnings, InWarnings | InHealthy, InHealthy => true
  | _, _ => false
  end.

(** The records of [results] that the rule sends to bucket [b], in the
    order of [results]. *)
Definition inBucket (alertThreshold warningThreshold : num) (b : Bucket)
    (results : list ProductUsageResult) : list ProductUsageResult :=
  filter (fun r => sameBucket (bucketOf alertThreshold warningThreshold r) b)
    results.

(** A record whose [percentUsed] is a number. *)
Definition keyed (r : ProductUsageResult) : Prop :=
  isNaN (percentUsed r) = false.

(** The month of a date as (year, month index), the months before and
    after it, and what it is to be the midnight that opens a given day of a
    given month. *)
Definition monthOf (t : Date) : Z * Z := (getFullYear t, getMonth t).

Definition previousMonth (ym : Z * Z) : Z * Z :=
  let '(y, m) := ym in if (m =? 0)%Z then (y - 1, 11)%Z else (y, m - 1)%Z.

Definition nextMonth (ym : Z * Z) : Z * Z :=
  let '(y, m) := ym in if (m =? 11)%Z then (y + 1, 0)%Z else (y, m + 1)%Z.

Definition midnightOf (t : Date) (ym : Z * Z) (day : Z) : Prop :=
  monthOf t = ym /\ getDate t = day /\ TimeWithinDay t = 0%Z.

(** Day number of the first day of the month after month [m] (1..12) of
    year [y]. *)
Definition firstOfNext (y m : Z) : Z :=
  if (m =? 12)%Z then days_from_civil (y + 1) 1 1
  else days_from_civil y (m + 1) 1.

(** A configuration that only fixes the first day of the billing period. *)
Definition configWithStartDay (day : Z) : ContractConfig :=
  {| alertThresholdPercent := alertThresholdPercent CONTRACT_CONFIG;
     warningThresholdPercent := warningThresholdPercent CONTRACT_CONFIG;
     productOverrides := productOverrides CONTRACT_CONFIG;
     billingPeriod := {| startDay := day; timezone := "UTC" |} |}.

(** The time-filter dialects of the specification: field names and GraphQL
    type per kind. *)
Definition dialect (k : TimeFilterKind) : FilterConfig :=
  match k with
  | date =>
      {| filterStart := "date_geq"; filterEnd := "date_lt";
         graphqlType := "Date" |}
  | datetime =>
      {| filterStart := "datetime_geq"; filterEnd := "datetime_lt";
         graphqlType := "Time" |}
  | datetimeHour =>
      {| filterStart := "datetimeHour_geq"; filterEnd := "datetimeHour_lt";
         graphqlType := "Time" |}
  end.

(** The kind of a product; [datetime] when it names none. *)
Definition kindOf (product : ProductRuntime) : TimeFilterKind :=
  orElse (filterField (definition product)) datetime.

(** [needle] is a part of [s]. *)
Definition occursIn (needle s : string) : Prop :=
  exists pre post, s = pre ++ needle ++ post.

(** How a query declares its two time parameters and filters on them. *)
Definition parameterDeclaration (cfg : FilterConfig) : string :=
  "$start: " ++ graphqlType cfg ++ "!, $end: " ++ graphqlType cfg ++ "!".

Definition timeFilter (cfg : FilterConfig) : string :=
  "filter: { " ++ filterStart cfg ++ ": $start, " ++ filterEnd cfg ++ ": $end".

(** A time cut down to the hour. *)
Definition truncateToHour (t : Date) : Date := (t - t mod msPerHour)%Z.

(** A bound of the period as the specification binds it for a kind: the
    plain calendar date, the full timestamp, the timestamp cut down to the
    hour. *)
Definition boundFor (k : TimeFilterKind) (t : Date) : string :=
  match k with
  | date => isoDate t
  | datetime => toISOString t
  | datetimeHour => toISOString (truncateToHour t)
  end.

(** The CDN products that exist twice, as pairs of the account-wide
    variant and the zone variant, and the zone that a call selects. *)
Definition cdnPairs : list (string * string) :=
  [("http_requests", "http_requests_zone");
   ("bandwidth", "bandwidth_zone");
   ("cached_bandwidth", "cached_bandwidth_zone")].

Definition selectedZone (filters : option QueryFilterOptions) : option string :=
  match filters with
  | Some f =>
      match zoneId f with
      | Some z => if z =? "" then None else Some z
      | None => None
      end
  | None => None
  end.

(** The suppression rules of the zone filter: with a zone selected, a
    product survives when it is zone-scoped and is not the account-wide
    variant of a pair; with none selected, when it is not the zone variant
    of a pair. *)
Definition survives (filters : option QueryFilterOptions)
    (d : ProductDefinition) : bool :=
  match selectedZone filters with
  | Some _ =>
      match scope d with
      | zone => negb (existsb (fun pair => fst pair =? id d) cdnPairs)
      | account => false
      end
  | None => negb (existsb (fun pair => snd pair =? id d) cdnPairs)
  end.

Section Requests.

Variable exec : Call -> Outcome.
Variables apiToken accountId : string.
Variable product : ProductRuntime.
Variables billingStart billingEnd : Date.
Variable filters : option QueryFilterOptions.

Definition startParameter : string :=
  formatDateForQuery billingStart (filterFieldOf product).

Definition endParameter : string :=
  formatDateForQuery billingEnd (filterFieldOf product).

(** The request of [queryProductUsage] for one zone, and the request for
    the account. *)
Definition zoneCall (zoneTag : string) : Call :=
  {| callToken := apiToken;
     callQuery :=
       buildZoneQuery (dataset (definition product))
         (field (definition product)) (aggregationOf product)
         (filterFieldOf product) filters
         (dimensionFilters (definition product));
     callVariables :=
       [("zoneTag", zoneTag); ("start", startParameter);
        ("end", endParameter)] |}.

Definition accountCall : Call :=
  {| callToken := apiToken;
     callQuery :=
       buildAccountQuery (dataset (definition product))
         (field (definition product)) (aggregationOf product)
         (filterFieldOf product) filters
         (dimensionFilters (definition product));
     callVariables :=
       [("accountTag", accountId); ("start", startParameter);
        ("end", endParameter)] |}.

(** The ways a zone's query can end: rejected (the promise of the request
    throws), answered with GraphQL errors, or answered with data. *)
Definition zoneRejection (zoneTag : string) : option string :=
  match exec (zoneCall zoneTag) with
  | Rejected msg => Some msg
  | Responded _ => None
  end.

Definition zoneExtracted (zoneTag : string) : option ExtractedResult :=
  match exec (zoneCall zoneTag) with
  | Responded r =>
      if hasErrors r then None
      else Some (extractValue (data r) (dataset (definition product))
                   (field (definition product)) (aggregationOf product) zone)
  | Rejected _ => None
  end.

(** A zone fails when its query does not end with data. *)
Definition zoneFails (zoneTag : string) : bool :=
  match zoneExtracted zoneTag with
  | Some _ => false
  | None => true
  end.

(** What the zones that ended with data returned, in the order of the
    zones. *)
Definition extractedOf (tags : list string) : list ExtractedResult :=
  flat_map (fun tag =>
              match zoneExtracted tag with
              | Some x => [x]
              | None => []
              end) tags.

End Requests.

(** The usage of several partitions added up from [from]. *)
Definition sumValues (xs : list ExtractedResult) (from : num) : num :=
  fold_left (fun acc x => (acc + value x)%num) xs from.

(** The confidence samples of several partitions combined as the zone loop
    combines them. *)
Definition combineZones (samples : list (option ConfidenceInterval))
    : option ConfidenceInterval :=
  confidenceOfZones (fold_left addZoneConfidence samples initialZoneTotals).

(** [product.transform && usage > 0 ? product.transform(usage) : usage] *)
Definition transformed (product : ProductRuntime) (usage : num) : num :=
  match transform (definition product) with
  | Some f => if (usage >? n0)%num then f usage else usage
  | None => usage
  end.

(** The percentage of the specification for a usage and a limit. *)
Definition percentOf (usage lim : num) : num :=
  if (lim >? n0)%num then ((usage / lim) * n100)%num else n0.

(** The record that the second half of the [try] block and the epilogue
    make of the result [r] left by the first half, and the record that the
    [catch] block and the epilogue make of it. *)
Definition completedResult (elapsedMs : ProductRuntime -> num)
    (product : ProductRuntime) (r : ProductUsageResult) : ProductUsageResult :=
  let usage := transformed product (currentUsage r) in
  set_queryDurationMs (Some (elapsedMs product))
    (set_percentUsed (percentOf usage (limit product))
       (set_currentUsage usage r)).

Definition failedResult (elapsedMs : ProductRuntime -> num)
    (product : ProductRuntime) (msg : string) (r : ProductUsageResult)
    : ProductUsageResult :=
  set_queryDurationMs (Some (elapsedMs product)) (set_error (Some msg) r).

(** The partitions that produced a confidence interval, the sum of one of
    its fields over them, and the level of the last of them. *)
Definition present (samples : list (option ConfidenceInterval))
    : list ConfidenceInterval :=
  flat_map (fun o => match o with Some c => [c] | None => [] end) samples.

Definition total (f : ConfidenceInterval -> num)
    (cs : list ConfidenceInterval) (from : num) : num :=
  fold_left (fun acc c => (acc + f c)%num) cs from.

Definition lastLevel (cs : list ConfidenceInterval) (from : num) : num :=
  fold_left (fun _ c => level c) cs from.

(** Two intervals that differ in their level only. *)
Definition intervalAt (lvl : num) : ConfidenceInterval :=
  {| estimate := ofZ 100; lower := ofZ 90; upper := ofZ 110;
     sampleSize := ofZ 50; isValid := true; level := lvl;
     confidencePercent := Some (ofZ 90) |}.

(** Values that binary64 adds without rounding, in whatever order: whole
    numbers from 0 on whose sum is 2^53 at most. *)
Definition addedExactly (values : list num) : Prop :=
  exists zs : list Z,
    values = map ofZ zs
    /\ Forall (fun z => (0 <= z)%Z) zs
    /\ (fold_right Z.add 0 zs <= 2 ^ 53)%Z.

(** A number that is zero or above. *)
Definition nonneg (a : num) : Prop :=
  match a with
  | Fin q => (0 <= q)%Q
  | PInf => True
  | _ => False
  end.

(** What a row adds to the usage: the value that [rowValue] reads, and
    nothing for a row on which it throws. *)
Definition rowNumber (f : string) (agg : AggregationType) (row : json) : num :=
  match rowValue (Some row) f agg with
  | Ok v => v
  | Throw _ => n0
  end.

(** Consecutive batches of [n] elements; [fuel] bounds their number. *)
Fixpoint chunks {A : Type} (fuel n : nat) (l : list A) : list (list A) :=
  match fuel with
  | O => []
  | S fuel' =>
      match l with
      | [] => []
      | _ => firstn n l :: chunks fuel' n (skipn n l)
      end
  end.

Definition batchesOf {A : Type} (l : list A) : list (list A) :=
  chunks (S (List.length l)) BATCH_SIZE l.

(** The events of several batches, with [pause] after each but the last. *)
Fixpoint pausedBetween (pause : list Event) (batches : list (list Event))
    : list Event :=
  match batches with
  | [] => []
  | b :: rest =>
      match rest with
      | [] => b
      | _ => (b ++ pause ++ pausedBetween pause rest)%list
      end
  end.

(** The events of a run of the batched loop over [l]. *)
Definition runnerTrace
    (query : ProductRuntime -> ProductUsageResult * list Event)
    (l : list ProductRuntime) : list Event :=
  pausedBetween [Slept 100]
    (map (fun batch => List.concat (map (fun p => snd (query p)) batch))
       (batchesOf l)).

(* ================================================================== *)
(** * Sample products and backends *)
(* ================================================================== *)

(** A product over dataset [ds] that sums field [f]. *)
Definition sampleProduct (sc : ProductScope) (kind : option TimeFilterKind)
    (un : option bool) (lim : num) (tags : option (list string))
    : ProductRuntime :=
  {| definition :=
       {| id := "sample"; name := "Sample"; category := network;
          description := "Sample metric"; defaultLimit := n0;
          unit_ := "requests"; dataset := "ds"; field := "f"; scope := sc;
          aggregation := Some sum; filterField := kind;
          enabledByDefault := true; docsUrl := None; transform := None;
          unlimited := un; note := None; dimensionFilters := None |};
     limit := lim; enabled := true; zoneTags := tags |}.

(** The row [{ sum: { f: v } }] and the row that also carries confidence
    data for it. *)
Definition sumRow (f : string) (v : num) : json :=
  JObj [("sum", JObj [(f, JNum v)])].

Definition sampledRow (f : string) (v lvl est low up size : num)
    (valid : bool) : json :=
  JObj [("sum", JObj [(f, JNum v)]);
        ("confidence",
         JObj [("level", JNum lvl);
               ("sum",
                JObj [(f, JObj [("estimate", JNum est); ("lower", JNum low);
                                ("upper", JNum up);
                                ("sampleSize", JNum size);
                                ("isValid", JBool valid)])])])].

(** The payload [{ viewer: { zones|accounts: [{ [ds]: rows }] } }]. *)
Definition resultPayload (sc : ProductScope) (ds : string) (rows : list json)
    : jsval :=
  Some (JObj [("viewer",
               JObj [(match sc with zone => "zones" | account => "accounts" end,
                      JArr [JObj [(ds, JArr rows)]])])]).

Definition answerWith (sc : ProductScope) (rows : list json) : Outcome :=
  Responded {| data := resultPayload sc "ds" rows; respErrors := None |}.

Definition firstVariable (c : Call) : string :=
  match callVariables c with
  | (_, v) :: _ => v
  | [] => EmptyString
  end.

(** A backend that knows zone [Z1] (usage 100), zone [Zerr] (a response
    with GraphQL errors) and account [acct] (usage 900), and rejects every
    other request with a status 500. *)
Definition sampleBackend (c : Call) : Outcome :=
  if firstVariable c =? "Z1" then answerWith zone [sumRow "f" (ofZ 100)]
  else if firstVariable c =? "acct" then
    answerWith account [sumRow "f" (ofZ 900)]
  else if firstVariable c =? "Zerr" then
    Responded {| data := None;
                 respErrors := Some [{| message := "unknown field" |}] |}
  else Rejected "GraphQL request failed: 500 Internal Server Error".

(** The row of a response that reports the usage [fst p] with the
    confidence data [snd p]. *)
Definition rowOf (f : string) (p : num * ConfidenceInterval) : json :=
  sampledRow f (fst p) (level (snd p)) (estimate (snd p)) (lower (snd p))
    (upper (snd p)) (sampleSize (snd p)) (isValid (snd p)).

(** The row that reports [v] under aggregation [agg] of field [f]. *)
Definition aggregateRow (agg : AggregationType) (f : string) (v : num) : json :=
  match agg with
  | count => JObj [("count", JNum v)]
  | _ => JObj [(aggregationName agg, JObj [(f, JNum v)])]
  end.

(** A payload whose first scope entry has the members [members]. *)
Definition scopePayload (sc : ProductScope)
    (members : list (string * json)) : jsval :=
  Some (JObj [("viewer",
               JObj [(match sc with zone => "zones" | account => "accounts" end,
                      JArr [JObj members])])]).

(** The transform of [workers_cpu_time], and a sample product that
    carries it. *)
Definition microsToMillis (us : num) : num := (us / ofZ 1000)%num.

Definition sampleCpuTime : ProductRuntime :=
  {| definition :=
       {| id := "workers_cpu_time"; name := "Workers CPU Time";
          category := compute; description := "Total CPU time";
          defaultLimit := ofZ 30000000; unit_ := "ms"; dataset := "ds";
          field := "f"; scope := account; aggregation := Some sum;
          filterField := None; enabledByDefault := true; docsUrl := None;
          transform := Some microsToMillis; unlimited := None; note := None;
          dimensionFilters := None |};
     limit := ofZ 30000000; enabled := true; zoneTags := None |}.

(** A confidence sample with an estimate of 0. *)
Definition zeroSample : ConfidenceInterval :=
  {| estimate := n0; lower := n0; upper := n0; sampleSize := n0;
     isValid := true; level := CONFIDENCE_LEVEL; confidencePercent := None |}.

Definition noElapsed (_ : ProductRuntime) : num := n0.

(** The configuration that switches product [k] off. *)
Definition configWithout (k : string) : ContractConfig :=
  {| alertThresholdPercent := ofZ 90;
     warningThresholdPercent := ofZ 75;
     billingPeriod := {| startDay := 1; timezone := "UTC" |};
     productOverrides :=
       [(k, {| cfgLimit := None; cfgEnabled := Some false;
               cfgZoneTags := None |})] |}.

Definition march2024 : Date := utc 2024 2 1 0 0 0 0.
Definition april2024 : Date := utc 2024 3 1 0 0 0 0.

(* ================================================================== *)
(** * Vocabulary of the further properties *)
(* ================================================================== *)

(** Day number of day [day] of the month of index [k], months counted from
    January of year 0. *)
Definition cycleDay (day k : Z) : Z := MakeDay 0 k day.

(** The index of a month given as (year, month index). *)
Definition cycleIndex (ym : Z * Z) : Z := (fst ym * 12 + snd ym)%Z.

(** The handlers that act on the outside world. *)
Definition sensitive (h : Handler) : bool :=
  match h with
  | ToTrigger | ToCheck | ToTestDiscord => true
  | _ => false
  end.

(** A request carries the key when its bearer token, or else its API-key
    header, has the digest of the key. *)
Definition carriesKey (sha256 : string -> string) (request : Request)
    (key : string) : Prop :=
  (exists token,
     headers request "Authorization" = Some ("Bearer " ++ token)
     /\ sha256 token = sha256 key)
  \/ (exists apiKey,
        headers request "X-API-Key" = Some apiKey
        /\ apiKey <> ""
        /\ sha256 apiKey = sha256 key).

(** The bucket of the summary that a row status stands for. *)
Definition bucketOfStatus (s : RowStatus) : Bucket :=
  match s with
  | RowError => InErrors
  | RowCritical | RowAlert => InAlerts
  | RowWarning => InWarnings
  | RowHealthy | RowDisabled => InHealthy
  end.

(** A reply that serves the items [items] as one page out of
    [totalPages]. *)
Definition servesPage {T : Type} (r : Reply T) (items : list T)
    (totalPages : Z) : Prop :=
  exists data info,
    r = Parsed data /\ success data = true /\ apiResult data = items
    /\ result_info data = Some info /\ total_pages info = ofZ totalPages.

(** The page numbers [first], [first + 1], ... ([len] of them). *)
Definition pageNumbers (first len : nat) : list Z :=
  map Z.of_nat (seq first len).

(** The requests [calls] one after the other, with a pause of 50 ms
    between two of them. *)
Fixpoint pagedRequests (calls : list ApiCall) : list ApiEvent :=
  match calls with
  | [] => []
  | c :: rest =>
      match rest with
      | [] => [Fetched c]
      | _ => Fetched c :: Waited 50 :: pagedRequests rest
      end
  end.

(** The users that a page after the first adds to the count. *)
Definition usersAdded (r : Reply ZeroTrustUser) : list ZeroTrustUser :=
  match r with
  | Parsed data => if success data then apiResult data else []
  | _ => []
  end.

(** The requests [calls], each followed by a pause of 50 ms. *)
Definition pausedRequests (calls : list ApiCall) : list ApiEvent :=
  flat_map (fun c => [Fetched c; Waited 50]) calls.

(** The products of [products] that belong to category [c], in order. *)
Definition inCategory (c : ProductCategory) (products : list ProductRuntime)
    : list ProductRuntime :=
  filter (fun p => sameCategory (category (definition p)) c) products.

(** The fields of a record that say which product and which period it is
    about. *)
Definition identityOf (r : ProductUsageResult) :=
  (productId r, productName r, resCategory r, resLimit r, resUnit r,
   resScope r, billingPeriodStart r, billingPeriodEnd r, resNote r,
   resEnabled r, resUnlimited r).

(** No product of the configuration names zone tags of its own. *)
Definition noZoneOverride (config : ContractConfig) : Prop :=
  forall k c, In (k, c) (productOverrides config) -> cfgZoneTags c = None.

(** Whether a product is enabled once the overrides of the configuration
    are applied: [override?.enabled ?? definition.enabledByDefault]. *)
Definition enabledUnder (config : ContractConfig) (d : ProductDefinition)
    : bool :=
  orElse (optField cfgEnabled (lookupOverride (id d) (productOverrides config)))
    (enabledByDefault d).

(** A summary has something to report when it holds an alert, a warning
    or a significant error. *)
Definition reportable (summary : UsageSummary) : bool :=
  notEmpty (alerts summary) || notEmpty (warnings summary)
  || existsb significant (errors summary).

(** Every alert and warning of the summary has a percentage other than
    minus infinity, the one value for which a progress bar has no end. *)
Definition drawable (summary : UsageSummary) : Prop :=
  Forall (fun r => percentUsed r <> NInf)
    (alerts summary ++ warnings summary)%list.

(* ================================================================== *)
(** * Further samples *)
(* ================================================================== *)

(** A digest for the samples: the string itself. *)
Definition sampleDigest (s : string) : string := s.

(** A Worker without zones whose sensitive endpoints are guarded by the
    key [s3cret]. *)
Definition guardedEnv : Env :=
  {| CLOUDFLARE_API_TOKEN_ANALYTICS_READ_ONLY := Some "token";
     CLOUDFLARE_ACCOUNT_ID := Some "acct";
     CLOUDFLARE_ZONE_TAGS := None;
     CLOUDFLARE_ZONE_ID := None;
     DISCORD_WEBHOOK_URL := Some "https://discord.com/api/webhooks/1/x";
     API_ACCESS_KEY := Some "s3cret";
     ALLOWED_ORIGINS := None |}.

(** [POST /api/trigger] with the bearer token [s3cret]. *)
Definition triggerRequest : Request :=
  {| method := "POST";
     pathname := "/api/trigger";
     searchParams := fun _ => None;
     headers :=
       fun name =>
         if name =? "Authorization" then Some "Bearer s3cret" else None |}.

(** [GET /api/dashboard?zoneId=...] with the identifier in capitals. *)
Definition dashboardRequest : Request :=
  {| method := "GET";
     pathname := "/api/dashboard";
     searchParams :=
       fun name =>
         if name =? "zoneId"
         then Some " 0123456789ABCDEF0123456789ABCDEF" else None;
     headers := fun _ => None |}.

(** The record of an account-scoped product at 900 of a limit of 1000, and
    the state of a run that has counted a usage of 1000. *)
Definition sampleRecord : ProductUsageResult :=
  fst (queryProductUsage sampleBackend noElapsed "tok" "acct"
         (sampleProduct account None None (ofZ 1000) None)
         march2024 april2024 None).

Definition fullRun : Run :=
  {| result :=
       set_currentUsage (ofZ 1000)
         (initialResult (sampleProduct account None None (ofZ 1000) None)
            march2024 april2024);
     trace := [] |}.

(** Two zones, two users, and the body of a page out of [totalPages]. *)
Definition zoneA : Zone :=
  {| zoneIdentifier := "0123456789abcdef0123456789abcdef";
     zoneName := "a.example"; zoneStatus := "active"; zoneType := "full";
     zonePaused := false |}.

Definition zoneB : Zone :=
  {| zoneIdentifier := "fedcba9876543210fedcba9876543210";
     zoneName := "b.example"; zoneStatus := "active"; zoneType := "full";
     zonePaused := false |}.

Definition userA : ZeroTrustUser :=
  {| userIdentifier := "u1"; access_seat := true; gateway_seat := false |}.

Definition userB : ZeroTrustUser :=
  {| userIdentifier := "u2"; access_seat := true; gateway_seat := true |}.

Definition infoOf (totalPages : Z) : ResultInfo :=
  {| page := ofZ 1; per_page := ofZ 50; total_pages := ofZ totalPages;
     count_ := ofZ 1; total_count := ofZ 3 |}.

Definition pageOf {T : Type} (totalPages : Z) (items : list T)
    : CloudflareApiResponse T :=
  {| success := true; apiErrors := []; apiMessages := [];
     apiResult := items; result_info := Some (infoOf totalPages) |}.

(** The page that a request asks for. *)
Definition pageParam (c : ApiCall) : string :=
  orElse (getOwn "page" (apiParams c)) "".

(** An API that serves the zones in two pages, one that refuses the
    second page, and a users API that refuses the second page. *)
Definition sampleZonesOf (p : Z) : list Zone :=
  if (p =? 1)%Z then [zoneA] else [zoneB].

Definition twoZonePages (c : ApiCall) : Reply Zone :=
  if pageParam c =? "1" then Parsed (pageOf 2 [zoneA])
  else Parsed (pageOf 2 [zoneB]).

Definition brokenZonePages (c : ApiCall) : Reply Zone :=
  if pageParam c =? "1" then Parsed (pageOf 2 [zoneA])
  else Refused 500 "upstream error".

Definition brokenUserPages (c : ApiCall) : Reply ZeroTrustUser :=
  if pageParam c =? "1" then Parsed (pageOf 2 [userA; userB])
  else Refused 500 "upstream error".

(** The summary of the sample record, options that ask for nothing, and a
    webhook that accepts every payload. *)
Definition alertSummary : UsageSummary :=
  categorizeUsage march2024 [sampleRecord] (ofZ 90) (ofZ 75).

Definition quietOptions : NotificationOptions :=
  {| alwaysNotify := None; includeHealthy := None;
     mentionOnCritical := None; shownFilters := None |}.

Definition acceptingWebhook (webhookUrl : string)
    (payload : DiscordWebhookPayload) : WebhookReply :=
  WebhookOk 204.

(** A Worker whose zone tags are written with blanks and an empty entry,
    the parameters of a scheduled run, and a filter on zone [Z1]. *)
Definition taggedEnv : Env :=
  {| CLOUDFLARE_API_TOKEN_ANALYTICS_READ_ONLY := Some "token";
     CLOUDFLARE_ACCOUNT_ID := Some "acct";
     CLOUDFLARE_ZONE_TAGS := Some " z1, ,z2 ";
     CLOUDFLARE_ZONE_ID := Some "z9";
     DISCORD_WEBHOOK_URL := None;
     API_ACCESS_KEY := None;
     ALLOWED_ORIGINS := None |}.

Definition scheduledParams : WorkflowParams :=
  {| forceNotify := None; products := None; triggeredBy := None |}.

Definition oneZoneFilter : QueryFilterOptions :=
  {| eyeballOnly := false; excludeEdgeWorkers := false;
     excludeBlocked := false; zoneId := Some "Z1" |}.

(* ================================================================== *)
(** * Properties of the numbers *)
(* ================================================================== *)

Local Open Scope Z_scope.

Lemma Qltb_true (a b : Q) : Qltb a b = true <-> (a < b)%Q.
Proof.
  unfold Qltb. rewrite negb_true_iff.
  split; intros H.
  - apply Qnot_le_lt. intros Hle. apply Qle_bool_iff in Hle. congruence.
  - destruct (Qle_bool b a) eqn:E; [|reflexivity].
    apply Qle_bool_iff in E. lra.
Qed.

Lemma Qltb_false (a b : Q) : Qltb a b = false <-> (b <= a)%Q.
Proof.
  unfold Qltb. rewrite negb_false_iff. apply Qle_bool_iff.
Qed.

Lemma Qeq_bool_false (a b : Q) : Qeq_bool a b = false <-> ~ (a == b)%Q.
Proof.
  split; intros H.
  - intros E. apply Qeq_bool_iff in E. congruence.
  - destruct (Qeq_bool a b) eqn:E; [|reflexivity].
    apply Qeq_bool_iff in E. contradiction.
Qed.

Lemma Qsign_Eq (q : Q) : Qsign q = Eq <-> (q == 0)%Q.
Proof.
  unfold Qsign, Qeq. cbn. rewrite Z.compare_eq_iff. lia.
Qed.

Lemma Qsign_Gt (q : Q) : Qsign q = Gt <-> (0 < q)%Q.
Proof.
  unfold Qsign, Qlt. cbn. rewrite Z.compare_gt_iff. lia.
Qed.

Lemma Qsign_Lt (q : Q) : Qsign q = Lt <-> (q < 0)%Q.
Proof.
  unfold Qsign, Qlt. cbn. rewrite Z.compare_lt_iff. lia.
Qed.

(** A clamped value is [NaN] only for a [NaN] argument, and lies between the
    two bounds otherwise. *)
Lemma clamp_cases (x : num) :
  clamp x n0 n99 = NaN /\ x = NaN \/
  (n0 <=? clamp x n0 n99)%num = true /\ (clamp x n0 n99 <=? n99)%num = true.
Proof.
  destruct x as [q| | |];
    [|right; split; reflexivity|right; split; reflexivity
     |left; split; reflexivity].
  right. unfold clamp, JsNum.min, n99, n0, ofZ.
  cbn [ltb].
  destruct (Qltb q (inject_Z 99)) eqn:E1.
  - apply Qltb_true in E1. unfold JsNum.max. cbn [ltb].
    destruct (Qltb (inject_Z 0) q) eqn:E2.
    + apply Qltb_true in E2. cbn [leb].
      unfold inject_Z in *. split; apply Qle_bool_iff; lra.
    + split; reflexivity.
  - split; reflexivity.
Qed.

Lemma leb_99_not_100 (x : num) :
  (x <=? n99)%num = true -> (x =? n100)%num = false.
Proof.
  destruct x as [q| | |]; cbn; try reflexivity; try discriminate.
  intros H. apply Qle_bool_iff in H. apply Qeq_bool_false.
  intros E. unfold inject_Z in *. lra.
Qed.

(** The score before clamping is a number as soon as the estimate is finite
    and not zero and the width of the interval is a number. *)
Lemma raw_score_not_NaN (q : Q) (range : num) :
  ~ (q == 0)%Q -> isNaN range = false ->
  isNaN (n100 - (((range / Fin q) * n100) / n2))%num = false.
Proof.
  intros Hq Hr.
  destruct range as [r| | |]; [| | |discriminate Hr].
  - cbn [div]. destruct (Qsign q) eqn:Es;
      [apply Qsign_Eq in Es; contradiction|reflexivity|reflexivity].
  - cbn [div]. destruct (Qsign q); reflexivity.
  - cbn [div]. destruct (Qsign q); reflexivity.
Qed.

(* ================================================================== *)
(** * Confidence score *)
(* ================================================================== *)

Lemma calculateConfidencePercent_special (e l u : num) :
  (e =? n0)%num = true \/ isFinite e = false ->
  calculateConfidencePercent e l u = n99.
Proof.
  unfold calculateConfidencePercent.
  intros [H | H]; rewrite H; [reflexivity|].
  rewrite orb_true_r. reflexivity.
Qed.

Lemma calculateConfidencePercent_regular (e l u : num) :
  (e =? n0)%num = false -> isFinite e = true ->
  calculateConfidencePercent e l u
  = clamp (n100 - ((((u - l) / e) * n100) / n2))%num n0 n99.
Proof.
  unfold calculateConfidencePercent. intros -> ->. reflexivity.
Qed.

(** C8.  The confidence score is the clamp of 100 - (upper - lower) /
    estimate * 100 / 2 to 0..99 whenever the estimate is finite and not
    zero; it is exactly 99 for a zero or non-finite estimate; for a finite
    estimate above zero, and bounds whose difference is a number (all
    finite bounds are such), it lies within 0..99; and it is never 100. *)
Theorem C8_confidence_percent_clamped (e l u : num) :
  (isFinite e = true -> (e =? n0)%num = false ->
   calculateConfidencePercent e l u
   = clamp (n100 - ((((u - l) / e) * n100) / n2))%num n0 n99)
  /\ ((e =? n0)%num = true \/ isFinite e = false ->
      calculateConfidencePercent e l u = n99)
  /\ (isFinite e = true -> (e >? n0)%num = true ->
      isNaN (u - l)%num = false ->
      (n0 <=? calculateConfidencePercent e l u)%num = true
      /\ (calculateConfidencePercent e l u <=? n99)%num = true)
  /\ (calculateConfidencePercent e l u =? n100)%num = false.
Proof.
  split; [|split; [|split]].
  - intros Hf Hz. apply calculateConfidencePercent_regular; assumption.
  - apply calculateConfidencePercent_special.
  - intros Hf Hpos Hr.
    destruct e as [q| | |]; try discriminate Hf.
    assert (Hq : (0 < q)%Q).
    { apply Qltb_true. exact Hpos. }
    assert (Hz : (Fin q =? n0)%num = false).
    { apply Qeq_bool_false. intros E. unfold inject_Z in E. lra. }
    rewrite calculateConfidencePercent_regular by assumption.
    destruct (clamp_cases (n100 - ((((u - l) / Fin q) * n100) / n2))%num)
      as [[_ Hn] | H]; [|exact H].
    assert (Hnn := raw_score_not_NaN q (u - l)%num).
    rewrite Hn in Hnn.
    assert (false = true -> False) by discriminate.
    exfalso. apply H. symmetry. apply Hnn; [|exact Hr].
    intros E. lra.
  - destruct ((e =? n0)%num || negb (isFinite e)) eqn:Hs.
    + unfold calculateConfidencePercent. rewrite Hs. reflexivity.
    + apply orb_false_elim in Hs. destruct Hs as [Hz Hf].
      apply negb_false_iff in Hf.
      rewrite calculateConfidencePercent_regular by assumption.
      destruct (clamp_cases (n100 - ((((u - l) / e) * n100) / n2))%num)
        as [[Hc _] | [_ H]].
      * rewrite Hc. reflexivity.
      * apply leb_99_not_100. exact H.
Qed.

(** C8 at the interval 90..110 around an estimate of 100. *)
Lemma C8_confidence_percent_witness :
  calculateConfidencePercent (ofZ 100) (ofZ 90) (ofZ 110) = ofZ 90
  /\ (n0 <=? calculateConfidencePercent (ofZ 100) (ofZ 90) (ofZ 110))%num = true
  /\ (calculateConfidencePercent (ofZ 100) (ofZ 90) (ofZ 110) <=? n99)%num = true
  /\ calculateConfidencePercent n0 (ofZ 90) (ofZ 110) = n99.
Proof.
  destruct (C8_confidence_percent_clamped (ofZ 100) (ofZ 90) (ofZ 110))
    as (H1 & _ & H3 & _).
  destruct (C8_confidence_percent_clamped n0 (ofZ 90) (ofZ 110))
    as (_ & H2 & _).
  split; [rewrite H1 by reflexivity; reflexivity|].
  split; [apply H3; reflexivity|].
  split; [apply H3; reflexivity|].
  apply H2. left. reflexivity.
Defined.

(* ================================================================== *)
(** * The sort *)
(* ================================================================== *)

Lemma leb_trans (a b c : num) :
  (a <=? b)%num = true -> (b <=? c)%num = true -> (a <=? c)%num = true.
Proof.
  destruct a as [x| | |], b as [y| | |], c as [z| | |]; cbn;
    try reflexivity; try discriminate.
  intros H1 H2. apply Qle_bool_iff in H1. apply Qle_bool_iff in H2.
  apply Qle_bool_iff. lra.
Qed.

Lemma leb_not_NaN_l (a b : num) : (a <=? b)%num = true -> isNaN a = false.
Proof. destruct a, b; cbn; congruence. Qed.

(** How the comparator [(a, b) => b - a] orders two numbers. *)
Lemma sub_neg_geb (a b : num) :
  ((b - a) <? n0)%num = true -> (a >=? b)%num = true.
Proof.
  unfold geb, n0, ofZ.
  destruct a as [x| | |], b as [y| | |]; cbn [sub ltb leb];
    try reflexivity; try discriminate.
  intros H. apply Qltb_true in H. apply Qle_bool_iff.
  rewrite Qred_correct in H. unfold inject_Z in H. lra.
Qed.

Lemma sub_not_neg_geb (a b : num) :
  isNaN a = false -> isNaN b = false ->
  ((b - a) <? n0)%num = false -> (b >=? a)%num = true.
Proof.
  unfold geb, n0, ofZ.
  destruct a as [x| | |], b as [y| | |]; cbn [sub ltb leb isNaN];
    try reflexivity; try discriminate.
  intros _ _ H. apply Qltb_false in H. apply Qle_bool_iff.
  rewrite Qred_correct in H. unfold inject_Z in H. lra.
Qed.

Lemma insertBy_perm (x : ProductUsageResult) (l : list ProductUsageResult) :
  Permutation (x :: l) (insertBy byPercentUsedDesc x l).
Proof.
  induction l as [|y l IH]; cbn.
  - apply Permutation_refl.
  - destruct (byPercentUsedDesc x y <? n0)%num.
    + apply Permutation_refl.
    + eapply perm_trans; [apply perm_swap|].
      apply perm_skip. exact IH.
Qed.

Lemma sortBy_perm_acc (l acc : list ProductUsageResult) :
  Permutation (acc ++ l)
    (fold_left (fun acc x => insertBy byPercentUsedDesc x acc) l acc).
Proof.
  revert acc. induction l as [|x l IH]; intros acc; cbn.
  - rewrite app_nil_r. apply Permutation_refl.
  - eapply perm_trans; [|apply IH].
    eapply perm_trans; [apply Permutation_sym, Permutation_middle|].
    change (x :: acc ++ l)%list with ((x :: acc) ++ l)%list.
    apply Permutation_app_tail. apply insertBy_perm.
Qed.

Lemma sortBy_perm (l : list ProductUsageResult) :
  Permutation l (sortBy byPercentUsedDesc l).
Proof. exact (sortBy_perm_acc l []). Qed.

Lemma insertBy_Forall (P : ProductUsageResult -> Prop)
    (x : ProductUsageResult) (l : list ProductUsageResult) :
  P x -> Forall P l -> Forall P (insertBy byPercentUsedDesc x l).
Proof.
  intros Hx Hl.
  eapply Permutation_Forall; [apply insertBy_perm|].
  constructor; assumption.
Qed.

Lemma insertBy_sorted (x : ProductUsageResult) (l : list ProductUsageResult) :
  keyed x -> Forall keyed l ->
  StronglySorted descendingByPercentUsed l ->
  StronglySorted descendingByPercentUsed (insertBy byPercentUsedDesc x l).
Proof.
  intros Hx Hk Hs.
  induction l as [|y l IH]; cbn.
  - constructor; constructor.
  - inversion Hk as [|? ? Hy Hk']; subst.
    inversion Hs as [|? ? Hs' Hall]; subst.
    destruct (byPercentUsedDesc x y <? n0)%num eqn:E.
    + constructor; [exact Hs|].
      assert (Hxy : descendingByPercentUsed x y)
        by (apply sub_neg_geb; exact E).
      constructor; [exact Hxy|].
      eapply Forall_impl; [|exact Hall].
      intros z Hyz. unfold descendingByPercentUsed, geb in *.
      eapply leb_trans; eassumption.
    + constructor; [apply IH; assumption|].
      apply insertBy_Forall; [|exact Hall].
      apply sub_not_neg_geb; assumption.
Qed.

Lemma sortBy_sorted_acc (l acc : list ProductUsageResult) :
  Forall keyed l -> Forall keyed acc ->
  StronglySorted descendingByPercentUsed acc ->
  StronglySorted descendingByPercentUsed
    (fold_left (fun acc x => insertBy byPercentUsedDesc x acc) l acc).
Proof.
  revert acc. induction l as [|x l IH]; intros acc Hl Hacc Hs; cbn.
  - exact Hs.
  - inversion Hl; subst.
    apply IH; [assumption| |].
    + apply insertBy_Forall; assumption.
    + apply insertBy_sorted; assumption.
Qed.

(** Sorting records whose [percentUsed] is a number leaves them in
    descending order of it. *)
Lemma sortBy_sorted (l : list ProductUsageResult) :
  Forall keyed l ->
  StronglySorted descendingByPercentUsed (sortBy byPercentUsedDesc l).
Proof.
  intros Hl. apply sortBy_sorted_acc; [exact Hl|constructor|constructor].
Qed.

(* ================================================================== *)
(** * Categoriser *)
(* ================================================================== *)

Lemma leb_not_NaN_r (a b : num) : (a <=? b)%num = true -> isNaN b = false.
Proof. destruct a, b; cbn; congruence. Qed.

Lemma sameBucket_refl (b : Bucket) : sameBucket b b = true.
Proof. destruct b; reflexivity. Qed.

(** What the loop of [categorizeUsage] appends to each list. *)
Lemma fold_pushResult (a w : num) (results : list ProductUsageResult)
    (s : UsageSummary) :
  let s' := fold_left (pushResult a w) results s in
  errors s' = (errors s ++ inBucket a w InErrors results)%list
  /\ alerts s' = (alerts s ++ inBucket a w InAlerts results)%list
  /\ warnings s' = (warnings s ++ inBucket a w InWarnings results)%list
  /\ healthy s' = (healthy s ++ inBucket a w InHealthy results)%list
  /\ timestamp s' = timestamp s
  /\ totalQueryDurationMs s' = totalQueryDurationMs s.
Proof.
  revert s. induction results as [|r results IH]; intros s.
  - cbn. rewrite !app_nil_r. repeat split.
  - cbn [fold_left]. specialize (IH (pushResult a w s r)).
    cbn zeta in IH. destruct IH as (He & Ha & Hw & Hh & Ht & Hd).
    cbn zeta. rewrite He, Ha, Hw, Hh, Ht, Hd.
    unfold inBucket. cbn [filter]. unfold pushResult, bucketOf.
    destruct (hasError r); cbn;
      [rewrite <- ?app_assoc; repeat split|].
    destruct (percentUsed r >=? a)%num; cbn;
      [rewrite <- ?app_assoc; repeat split|].
    destruct (percentUsed r >=? w)%num; cbn;
      rewrite <- ?app_assoc; repeat split.
Qed.

(** The four buckets of the rule split the input. *)
Lemma inBucket_partition (a w : num) (results : list ProductUsageResult) :
  Permutation results
    (inBucket a w InAlerts results ++ inBucket a w InWarnings results
     ++ inBucket a w InHealthy results ++ inBucket a w InErrors results).
Proof.
  induction results as [|r results IH]; [apply Permutation_refl|].
  unfold inBucket in *. cbn [filter].
  set (A := filter _ results) in *.
  set (W := filter (fun r => sameBucket (bucketOf a w r) InWarnings) results)
    in *.
  set (H := filter (fun r => sameBucket (bucketOf a w r) InHealthy) results)
    in *.
  set (E := filter (fun r => sameBucket (bucketOf a w r) InErrors) results)
    in *.
  destruct (bucketOf a w r); cbn [sameBucket app].
  - replace (A ++ W ++ H ++ r :: E)%list with ((A ++ W ++ H) ++ r :: E)%list
      by (rewrite <- !app_assoc; reflexivity).
    apply Permutation_cons_app. rewrite <- !app_assoc. exact IH.
  - apply perm_skip. exact IH.
  - apply Permutation_cons_app. exact IH.
  - replace (A ++ W ++ r :: H ++ E)%list with ((A ++ W) ++ r :: H ++ E)%list
      by (rewrite <- !app_assoc; reflexivity).
    apply Permutation_cons_app. rewrite <- !app_assoc. exact IH.
Qed.

Lemma inBucket_alerts_keyed (a w : num) (results : list ProductUsageResult) :
  Forall keyed (inBucket a w InAlerts results).
Proof.
  apply Forall_forall. intros r Hr.
  apply filter_In in Hr. destruct Hr as [_ Hb].
  unfold bucketOf in Hb.
  destruct (hasError r); [discriminate|].
  destruct (percentUsed r >=? a)%num eqn:E.
  - unfold geb in E. eapply leb_not_NaN_r. exact E.
  - destruct (percentUsed r >=? w)%num; discriminate.
Qed.

Lemma inBucket_warnings_keyed (a w : num) (results : list ProductUsageResult) :
  Forall keyed (inBucket a w InWarnings results).
Proof.
  apply Forall_forall. intros r Hr.
  apply filter_In in Hr. destruct Hr as [_ Hb].
  unfold bucketOf in Hb.
  destruct (hasError r); [discriminate|].
  destruct (percentUsed r >=? a)%num; [discriminate|].
  destruct (percentUsed r >=? w)%num eqn:E; [|discriminate].
  unfold geb in E. eapply leb_not_NaN_r. exact E.
Qed.

(** C4.  For any records and thresholds, [categorizeUsage] sends every
    record to the one bucket named by the rule "error present, else
    percentUsed >= alertThreshold, else percentUsed >= warningThreshold, else
    healthy" (an error is present when the field holds a non-empty message):
    [errors] and [healthy] are the records of their bucket in input order,
    [alerts] and [warnings] are those of theirs, sorted descending by
    percentUsed; the four lists together are a rearrangement of the input,
    and their sizes sum to its length. *)
Theorem C4_categorize_partition (now : Date)
    (results : list ProductUsageResult) (a w : num) :
  let s := categorizeUsage now results a w in
  errors s = inBucket a w InErrors results
  /\ healthy s = inBucket a w InHealthy results
  /\ Permutation (inBucket a w InAlerts results) (alerts s)
  /\ Permutation (inBucket a w InWarnings results) (warnings s)
  /\ StronglySorted descendingByPercentUsed (alerts s)
  /\ StronglySorted descendingByPercentUsed (warnings s)
  /\ Permutation results (alerts s ++ warnings s ++ healthy s ++ errors s)
  /\ (List.length (alerts s) + List.length (warnings s)
      + List.length (healthy s) + List.length (errors s)
      = List.length results)%nat.
Proof.
  intros s.
  pose proof (fold_pushResult a w results
    {| alerts := []; warnings := []; healthy := []; errors := [];
       timestamp := toISOString now;
       totalQueryDurationMs :=
         fold_left (fun sum r => (sum + durationOrZero r)%num) results n0 |})
    as H.
  cbn zeta in H. cbn [alerts warnings healthy errors app] in H.
  destruct H as (He & Ha & Hw & Hh & _ & _).
  assert (Hse : errors s = inBucket a w InErrors results) by exact He.
  assert (Hsh : healthy s = inBucket a w InHealthy results) by exact Hh.
  assert (Hsa : alerts s
                = sortBy byPercentUsedDesc (inBucket a w InAlerts results)).
  { unfold s, categorizeUsage. cbn [alerts]. rewrite Ha. reflexivity. }
  assert (Hsw : warnings s
                = sortBy byPercentUsedDesc (inBucket a w InWarnings results)).
  { unfold s, categorizeUsage. cbn [warnings]. rewrite Hw. reflexivity. }
  assert (Hperm : Permutation results
            (alerts s ++ warnings s ++ healthy s ++ errors s)).
  { rewrite Hse, Hsh, Hsa, Hsw.
    eapply perm_trans; [apply inBucket_partition with (a := a) (w := w)|].
    apply Permutation_app; [apply sortBy_perm|].
    apply Permutation_app; [apply sortBy_perm|].
    apply Permutation_refl. }
  split; [exact Hse|]. split; [exact Hsh|].
  split; [rewrite Hsa; apply sortBy_perm|].
  split; [rewrite Hsw; apply sortBy_perm|].
  split; [rewrite Hsa; apply sortBy_sorted, inBucket_alerts_keyed|].
  split; [rewrite Hsw; apply sortBy_sorted, inBucket_warnings_keyed|].
  split; [exact Hperm|].
  apply Permutation_length in Hperm.
  rewrite !length_app in Hperm. lia.
Qed.

(* ================================================================== *)
(** * Calendar *)
(* ================================================================== *)

Lemma yoe_roundtrip (yoe doy : Z) :
  0 <= yoe <= 399 -> 0 <= doy <= 364 ->
  let doe := yoe * 365 + yoe / 4 - yoe / 100 + doy in
  (doe - doe / 1460 + doe / 36524 - doe / 146096) / 365 = yoe.
Proof.
  intros Hy Hd doe. subst doe.
  Z.div_mod_to_equations; lia.
Qed.

(** A day number built from a civil date reads back as that date. *)
Lemma civil_roundtrip (y m d : Z) :
  1 <= m <= 12 -> 1 <= d <= 28 ->
  civil_from_days (days_from_civil y m d) = (y, m, d).
Proof.
  intros Hm Hd.
  unfold civil_from_days, days_from_civil.
  set (y' := if m <=? 2 then y - 1 else y).
  set (era := y' / 400).
  set (yoe := y' - era * 400).
  set (mp := if m <=? 2 then m + 9 else m - 3).
  set (doy := (153 * mp + 2) / 5 + d - 1).
  set (doe := yoe * 365 + yoe / 4 - yoe / 100 + doy).
  assert (Hyoe : 0 <= yoe <= 399)
    by (subst yoe era; Z.div_mod_to_equations; lia).
  assert (Hmp : 0 <= mp <= 11) by (subst mp; destruct (Z.leb_spec m 2); lia).
  assert (Hdoy : 0 <= doy <= 364) by (subst doy; Z.div_mod_to_equations; lia).
  assert (Hdoe : 0 <= doe < 146097)
    by (subst doe; Z.div_mod_to_equations; lia).
  replace (era * 146097 + doe - 719468 + 719468) with (doe + era * 146097)
    by lia.
  rewrite Z.div_add by lia.
  rewrite (Z.div_small doe) by lia.
  replace (doe + era * 146097 - (0 + era) * 146097) with doe by lia.
  pose proof (yoe_roundtrip yoe doy Hyoe Hdoy) as Hy. cbn zeta in Hy.
  fold doe in Hy. rewrite Hy.
  replace (doe - (365 * yoe + yoe / 4 - yoe / 100)) with doy
    by (subst doe; lia).
  assert (Hmp' : (5 * doy + 2) / 153 = mp)
    by (subst doy; Z.div_mod_to_equations; lia).
  rewrite Hmp'.
  assert (Hd' : doy - (153 * mp + 2) / 5 + 1 = d) by (subst doy; lia).
  rewrite Hd'.
  assert (Hm' : (if mp <? 10 then mp + 3 else mp - 9) = m).
  { destruct (Z.ltb_spec mp 10); subst mp; destruct (Z.leb_spec m 2); lia. }
  rewrite Hm'.
  f_equal. f_equal.
  subst yoe y'. destruct (Z.leb_spec m 2); lia.
Qed.

(** Months run from 1 to 12 and days of the month from 1 to 31. *)
Lemma civil_ranges (z : Z) :
  let '(y, m, d) := civil_from_days z in 1 <= m <= 12 /\ 1 <= d <= 31.
Proof.
  unfold civil_from_days.
  set (z' := z + 719468).
  set (era := z' / 146097).
  set (doe := z' - era * 146097).
  set (yoe := (doe - doe / 1460 + doe / 36524 - doe / 146096) / 365).
  set (doy := doe - (365 * yoe + yoe / 4 - yoe / 100)).
  set (mp := (5 * doy + 2) / 153).
  assert (Hdoe : 0 <= doe < 146097)
    by (subst doe era; Z.div_mod_to_equations; lia).
  assert (Hdoy : 0 <= doy <= 365)
    by (subst doy yoe; Z.div_mod_to_equations; lia).
  assert (Hmp : 0 <= mp <= 11) by (subst mp; Z.div_mod_to_equations; lia).
  split.
  - destruct (Z.ltb_spec mp 10); lia.
  - subst mp. Z.div_mod_to_equations; lia.
Qed.

Lemma getMonth_range (t : Date) : 0 <= getMonth t <= 11.
Proof.
  unfold getMonth. pose proof (civil_ranges (Day t)) as H.
  destruct (civil_from_days (Day t)) as [[y m] d]. lia.
Qed.

(** The civil date of [MakeDay]: the month index is carried into the year. *)
Lemma MakeDay_civil (y mi d : Z) :
  1 <= d <= 28 ->
  civil_from_days (MakeDay y mi d) = (y + mi / 12, mi mod 12 + 1, d).
Proof.
  intros Hd. unfold MakeDay.
  assert (Hm : 1 <= mi mod 12 + 1 <= 12)
    by (pose proof (Z.mod_pos_bound mi 12); lia).
  rewrite <- (civil_roundtrip (y + mi / 12) (mi mod 12 + 1) d Hm Hd).
  f_equal. unfold days_from_civil. lia.
Qed.

Lemma Day_MakeDate_midnight (day : Z) :
  Day (MakeDate day (MakeTime 0 0 0 0)) = day
  /\ TimeWithinDay (MakeDate day (MakeTime 0 0 0 0)) = 0.
Proof.
  unfold Day, TimeWithinDay, MakeDate, MakeTime, msPerDay, msPerHour,
    msPerMinute, msPerSecond.
  split; Z.div_mod_to_equations; lia.
Qed.

(** The fields of the midnight that opens day [d] of month index [mi],
    one month beyond the year on either side included. *)
Lemma MakeDate_midnight (y mi d : Z) :
  -1 <= mi <= 12 -> 1 <= d <= 28 ->
  midnightOf (MakeDate (MakeDay y mi d) (MakeTime 0 0 0 0))
    (if mi =? -1 then (y - 1, 11) else if mi =? 12 then (y + 1, 0) else (y, mi))
    d.
Proof.
  intros Hmi Hd.
  destruct (Day_MakeDate_midnight (MakeDay y mi d)) as [HD HT].
  unfold midnightOf, monthOf, getFullYear, getMonth, getDate.
  rewrite HD, HT, MakeDay_civil by exact Hd.
  split; [|split; reflexivity].
  destruct (Z.eqb_spec mi (-1)) as [->|H1]; [reflexivity|].
  destruct (Z.eqb_spec mi 12) as [->|H2]; [reflexivity|].
  assert (mi / 12 = 0) by (Z.div_mod_to_equations; lia).
  assert (mi mod 12 = mi) by (Z.div_mod_to_equations; lia).
  f_equal; lia.
Qed.

(** The constructor leaves a year outside 0..99 alone. *)
Lemma newDate_far_year (y mi d : Z) :
  99 < y ->
  newDate y mi d 0 0 0 0 = MakeDate (MakeDay y mi d) (MakeTime 0 0 0 0).
Proof.
  intros Hy. unfold newDate.
  replace ((0 <=? y) && (y <=? 99)) with false
    by (symmetry; apply andb_false_iff; right; apply Z.leb_gt; lia).
  reflexivity.
Qed.

(** [setMonth] on a midnight. *)
Lemma setMonth_midnight (t : Date) (y m d k : Z) :
  midnightOf t (y, m) d ->
  setMonth t k = MakeDate (MakeDay y k d) (MakeTime 0 0 0 0).
Proof.
  intros (Hym & Hd & HT). unfold monthOf in Hym.
  inversion Hym as [[Hy Hm]].
  unfold setMonth. rewrite HT, Hd. reflexivity.
Qed.

(** A civil date read from a day number builds that day number again. *)
Lemma days_civil_roundtrip (z : Z) :
  let '(y, m, d) := civil_from_days z in days_from_civil y m d = z.
Proof.
  unfold civil_from_days.
  set (z' := z + 719468).
  set (era := z' / 146097).
  set (doe := z' - era * 146097).
  set (yoe := (doe - doe / 1460 + doe / 36524 - doe / 146096) / 365).
  set (doy := doe - (365 * yoe + yoe / 4 - yoe / 100)).
  set (mp := (5 * doy + 2) / 153).
  set (d := doy - (153 * mp + 2) / 5 + 1).
  set (m := if mp <? 10 then mp + 3 else mp - 9).
  assert (Hdoe : 0 <= doe < 146097)
    by (subst doe era; Z.div_mod_to_equations; lia).
  assert (Hyoe : 0 <= yoe <= 399)
    by (subst yoe; Z.div_mod_to_equations; lia).
  assert (Hdoy : 0 <= doy <= 365)
    by (subst doy yoe; Z.div_mod_to_equations; lia).
  assert (Hmp : 0 <= mp <= 11) by (subst mp; Z.div_mod_to_equations; lia).
  unfold days_from_civil.
  assert (Hm : (m <=? 2) = negb (mp <? 10)).
  { subst m.
    destruct (Z.ltb_spec mp 10); cbn; [apply Z.leb_gt|apply Z.leb_le]; lia. }
  rewrite Hm.
  set (y := yoe + era * 400).
  replace (if negb (mp <? 10)
           then (if negb (mp <? 10) then y + 1 else y) - 1
           else (if negb (mp <? 10) then y + 1 else y))
    with y by (destruct (mp <? 10); cbn; lia).
  subst y.
  replace ((yoe + era * 400) / 400) with era
    by (Z.div_mod_to_equations; lia).
  replace (yoe + era * 400 - era * 400) with yoe by lia.
  replace (if negb (mp <? 10) then m + 9 else m - 3) with mp
    by (subst m; destruct (mp <? 10); cbn; lia).
  subst d doy. subst z' . lia.
Qed.

Ltac decide_tests :=
  repeat match goal with
         | |- context [(?a <=? ?b)] =>
             let v := eval vm_compute in (a <=? b) in
             change (a <=? b) with v
         | |- context [(?a =? ?b)] =>
             let v := eval vm_compute in (a =? b) in
             change (a =? b) with v
         end;
  cbv iota.

(** Every month has 28 days at least. *)
Lemma month_at_least_28 (y m : Z) :
  1 <= m <= 12 -> days_from_civil y m 1 + 28 <= firstOfNext y m.
Proof.
  intros Hm. unfold firstOfNext.
  assert (Hc : m = 1 \/ m = 2 \/ m = 3 \/ m = 4 \/ m = 5 \/ m = 6 \/ m = 7
               \/ m = 8 \/ m = 9 \/ m = 10 \/ m = 11 \/ m = 12) by lia.
  unfold days_from_civil.
  destruct Hc
    as [-> | [-> | [-> | [-> | [-> | [-> | [-> | [-> | [-> | [-> | [-> | ->
       ]]]]]]]]]]];
    decide_tests; Z.div_mod_to_equations; lia.
Qed.

(** A day lies before the first day of the month after its own. *)
Lemma day_before_next_month (z : Z) :
  let '(y, m, d) := civil_from_days z in z < firstOfNext y m.
Proof.
  unfold civil_from_days, firstOfNext.
  set (z' := z + 719468).
  set (era := z' / 146097).
  set (doe := z' - era * 146097).
  set (yoe := (doe - doe / 1460 + doe / 36524 - doe / 146096) / 365).
  set (doy := doe - (365 * yoe + yoe / 4 - yoe / 100)).
  set (mp := (5 * doy + 2) / 153).
  assert (Hdoe : 0 <= doe < 146097)
    by (subst doe era; Z.div_mod_to_equations; lia).
  assert (Hyoe : 0 <= yoe <= 399)
    by (subst yoe; Z.div_mod_to_equations; lia).
  assert (Hdoy : 0 <= doy <= 365)
    by (subst doy yoe; Z.div_mod_to_equations; lia).
  assert (Hnext : yoe < 399 ->
                  doe < 365 * (yoe + 1) + (yoe + 1) / 4 - (yoe + 1) / 100).
  { subst yoe. Z.div_mod_to_equations. lia. }
  assert (Hmp : 0 <= mp <= 11) by (subst mp; Z.div_mod_to_equations; lia).
  assert (Hz : z = era * 146097 + doe - 719468) by (subst doe z'; lia).
  assert (Hmonth : mp < 11 -> doy < (153 * (mp + 1) + 2) / 5)
    by (subst mp; Z.div_mod_to_equations; lia).
  assert (Hc : mp = 0 \/ mp = 1 \/ mp = 2 \/ mp = 3 \/ mp = 4 \/ mp = 5
               \/ mp = 6 \/ mp = 7 \/ mp = 8 \/ mp = 9 \/ mp = 10
               \/ mp = 11) by lia.
  assert (Hdoe' : doe = 365 * yoe + yoe / 4 - yoe / 100 + doy)
    by (subst doy; lia).
  clearbody mp doy yoe doe era. clear z'.
  unfold days_from_civil.
  destruct Hc
    as [-> | [-> | [-> | [-> | [-> | [-> | [-> | [-> | [-> | [-> | [-> | ->
       ]]]]]]]]]]];
    cbn [Z.ltb Z.compare Pos.compare Pos.compare_cont]; cbv iota;
    repeat match goal with
           | |- context [(?a <=? ?b)] =>
               let v := eval vm_compute in (a <=? b) in
               change (a <=? b) with v
           | |- context [(?a =? ?b)] =>
               let v := eval vm_compute in (a =? b) in
               change (a =? b) with v
           end; cbv iota;
    try (specialize (Hmonth ltac:(lia)));
    Z.div_mod_to_equations; lia.
Qed.

Lemma MakeDay_index (y mi d : Z) :
  -1 <= mi <= 12 ->
  MakeDay y mi d
  = (if mi =? -1 then days_from_civil (y - 1) 12 1
     else if mi =? 12 then days_from_civil (y + 1) 1 1
     else days_from_civil y (mi + 1) 1) + d - 1.
Proof.
  intros Hmi. unfold MakeDay.
  destruct (Z.eqb_spec mi (-1)) as [->|H1]; [reflexivity|].
  destruct (Z.eqb_spec mi 12) as [->|H2]; [reflexivity|].
  assert (mi / 12 = 0) by (Z.div_mod_to_equations; lia).
  assert (mi mod 12 = mi) by (Z.div_mod_to_equations; lia).
  replace (y + mi / 12) with y by lia.
  replace (mi mod 12) with mi by lia. reflexivity.
Qed.

Lemma now_split (now : Date) :
  now = Day now * msPerDay + TimeWithinDay now
  /\ 0 <= TimeWithinDay now < msPerDay.
Proof.
  unfold Day, TimeWithinDay, msPerDay. split; Z.div_mod_to_equations; lia.
Qed.

(* ================================================================== *)
(** * Billing period *)
(* ================================================================== *)

Lemma billing_period_general (now : Date) (config : ContractConfig) :
  1 <= startDay (billingPeriod config) <= 28 ->
  99 < getFullYear now ->
  let day := startDay (billingPeriod config) in
  let cycle :=
    if getDate now <? day then previousMonth (monthOf now) else monthOf now in
  midnightOf (fst (getCurrentBillingPeriod now config)) cycle day
  /\ midnightOf (snd (getCurrentBillingPeriod now config)) (nextMonth cycle) day.
Proof.
  intros Hday Hyear day cycle.
  pose proof (getMonth_range now) as Hm.
  unfold getCurrentBillingPeriod. fold day. cbn [fst snd].
  set (start := if getDate now <? day then _ else _).
  assert (Hstart : midnightOf start cycle day).
  { subst start cycle. unfold monthOf, previousMonth.
    destruct (getDate now <? day).
    - rewrite newDate_far_year by exact Hyear.
      pose proof (MakeDate_midnight (getFullYear now) (getMonth now - 1) day)
        as H.
      destruct (Z.eqb_spec (getMonth now) 0) as [E|E].
      + rewrite E in *. apply H; lia.
      + replace (getMonth now - 1 =? -1) with false in H
          by (symmetry; apply Z.eqb_neq; lia).
        replace (getMonth now - 1 =? 12) with false in H
          by (symmetry; apply Z.eqb_neq; lia).
        apply H; lia.
    - rewrite newDate_far_year by exact Hyear.
      pose proof (MakeDate_midnight (getFullYear now) (getMonth now) day) as H.
      replace (getMonth now =? -1) with false in H
        by (symmetry; apply Z.eqb_neq; lia).
      replace (getMonth now =? 12) with false in H
        by (symmetry; apply Z.eqb_neq; lia).
      apply H; lia. }
  split; [exact Hstart|].
  destruct cycle as [cy cm] eqn:Ec.
  assert (Hcm : 0 <= cm <= 11).
  { destruct Hstart as (Hym & _). unfold monthOf in Hym.
    inversion Hym. apply getMonth_range. }
  assert (Hgm : getMonth start = cm).
  { destruct Hstart as (Hym & _). unfold monthOf in Hym.
    inversion Hym. reflexivity. }
  rewrite Hgm.
  rewrite (setMonth_midnight start cy cm day (cm + 1) Hstart).
  pose proof (MakeDate_midnight cy (cm + 1) day) as H.
  replace (cm + 1 =? -1) with false in H by (symmetry; apply Z.eqb_neq; lia).
  unfold nextMonth.
  destruct (Z.eqb_spec cm 11) as [E|E].
  - rewrite E in *. apply H; lia.
  - replace (cm + 1 =? 12) with false in H by (symmetry; apply Z.eqb_neq; lia).
    apply H; lia.
Qed.

Lemma days_from_civil_day (y m d : Z) :
  days_from_civil y m d = days_from_civil y m 1 + d - 1.
Proof. unfold days_from_civil. lia. Qed.

(** The billing period holds the current time. *)
Lemma billing_period_contains_now (now : Date) (config : ContractConfig) :
  1 <= startDay (billingPeriod config) <= 28 ->
  99 < getFullYear now ->
  fst (getCurrentBillingPeriod now config) <= now
  < snd (getCurrentBillingPeriod now config).
Proof.
  intros Hday Hyear.
  destruct (billing_period_general now config Hday Hyear) as [Hstart _].
  cbn zeta in Hstart.
  pose proof (civil_ranges (Day now)) as Hr.
  pose proof (days_civil_roundtrip (Day now)) as Hz.
  pose proof (day_before_next_month (Day now)) as Hn.
  destruct (now_split now) as [Hnow Htod].
  unfold getCurrentBillingPeriod in *. cbn [fst snd] in *.
  set (sd := startDay (billingPeriod config)) in *.
  destruct (civil_from_days (Day now)) as [[y m0] d] eqn:Ec.
  assert (Hgy : getFullYear now = y)
    by (unfold getFullYear; rewrite Ec; reflexivity).
  assert (Hgm : getMonth now = m0 - 1)
    by (unfold getMonth; rewrite Ec; reflexivity).
  assert (Hgd : getDate now = d)
    by (unfold getDate; rewrite Ec; reflexivity).
  unfold monthOf in Hstart.
  rewrite Hgy, Hgm, Hgd in *.
  remember m0 as m eqn:Em. clear Em.
  rewrite days_from_civil_day in Hz.
  set (start := if d <? sd then _ else _) in *.
  assert (Hs : start = (if d <? sd then MakeDay y (m - 1 - 1) sd
                        else MakeDay y (m - 1) sd) * msPerDay).
  { subst start. destruct (d <? sd); rewrite newDate_far_year by exact Hyear;
      unfold MakeDate, MakeTime; lia. }
  assert (He : forall cy cm, midnightOf start (cy, cm) sd ->
               setMonth start (getMonth start + 1)
               = MakeDay cy (cm + 1) sd * msPerDay).
  { intros cy cm H.
    assert (Hsm : getMonth start = cm).
    { destruct H as (Hym & _). unfold monthOf in Hym. inversion Hym.
      reflexivity. }
    rewrite Hsm, (setMonth_midnight start cy cm sd (cm + 1) H).
    unfold MakeDate, MakeTime. lia. }
  unfold previousMonth in Hstart.
  destruct (d <? sd) eqn:Ed.
  - apply Z.ltb_lt in Ed.
    destruct (Z.eqb_spec (m - 1) 0) as [E|E].
    + assert (m = 1) by lia. subst m.
      rewrite (He _ _ Hstart), Hs.
      rewrite !MakeDay_index by lia.
      change (1 - 1 - 1 =? -1) with true. change (11 + 1 =? -1) with false.
      change (11 + 1 =? 12) with true. cbv iota.
      pose proof (month_at_least_28 (y - 1) 12 ltac:(lia)) as H28.
      unfold firstOfNext in H28. change (12 =? 12) with true in H28.
      cbv iota in H28.
      replace (y - 1 + 1) with y in * by lia.
      unfold msPerDay in *. lia.
    + rewrite (He _ _ Hstart), Hs.
      rewrite !MakeDay_index by lia.
      replace (m - 1 - 1 =? -1) with false by (symmetry; apply Z.eqb_neq; lia).
      replace (m - 1 - 1 =? 12) with false by (symmetry; apply Z.eqb_neq; lia).
      replace (m - 1 - 1 + 1 =? -1) with false
        by (symmetry; apply Z.eqb_neq; lia).
      replace (m - 1 - 1 + 1 =? 12) with false
        by (symmetry; apply Z.eqb_neq; lia).
      pose proof (month_at_least_28 y (m - 1) ltac:(lia)) as H28.
      unfold firstOfNext in H28.
      replace (m - 1 =? 12) with false in H28
        by (symmetry; apply Z.eqb_neq; lia).
      replace (m - 1 - 1 + 1) with (m - 1) by lia.
      replace (m - 1 + 1) with m in * by lia.
      unfold msPerDay in *. lia.
  - apply Z.ltb_ge in Ed.
    rewrite (He _ _ Hstart), Hs.
    rewrite !MakeDay_index by lia.
    replace (m - 1 =? -1) with false by (symmetry; apply Z.eqb_neq; lia).
    replace (m - 1 =? 12) with false by (symmetry; apply Z.eqb_neq; lia).
    replace (m - 1 + 1 =? -1) with false by (symmetry; apply Z.eqb_neq; lia).
    replace (m - 1 + 1) with m by lia.
    unfold firstOfNext in Hn.
    destruct (m =? 12); unfold msPerDay in *; lia.
Qed.

(** C6.  For a start day in 1..28 and a current time (of a year the Date
    constructor takes as it is, 100 or later), the billing period starts at
    midnight of the start day in the previous month when the day of the
    month of the current time is below the start day, and in the current
    month otherwise; it ends at midnight of the start day one calendar month
    later; and the current time lies in it, the start included and the end
    excluded.  Start day 1 on 2024-03-15 gives 2024-03-01T00:00:00 to
    2024-04-01T00:00:00, start day 15 on 2024-03-10 gives
    2024-02-15T00:00:00 to 2024-03-15T00:00:00. *)
Theorem C6_billing_period_window (now : Date) (config : ContractConfig) :
  1 <= startDay (billingPeriod config) <= 28 ->
  99 < getFullYear now ->
  let day := startDay (billingPeriod config) in
  let cycle :=
    if getDate now <? day then previousMonth (monthOf now) else monthOf now in
  (midnightOf (fst (getCurrentBillingPeriod now config)) cycle day
   /\ midnightOf (snd (getCurrentBillingPeriod now config))
        (nextMonth cycle) day)
  /\ fst (getCurrentBillingPeriod now config) <= now
     < snd (getCurrentBillingPeriod now config)
  /\ (let p := getCurrentBillingPeriod (utc 2024 2 15 9 30 0 0)
                 (configWithStartDay 1) in
      toISOString (fst p) = "2024-03-01T00:00:00.000Z"
      /\ toISOString (snd p) = "2024-04-01T00:00:00.000Z")
  /\ (let p := getCurrentBillingPeriod (utc 2024 2 10 9 30 0 0)
                 (configWithStartDay 15) in
      toISOString (fst p) = "2024-02-15T00:00:00.000Z"
      /\ toISOString (snd p) = "2024-03-15T00:00:00.000Z").
Proof.
  intros Hday Hyear day cycle.
  split; [apply billing_period_general; assumption|].
  split; [apply billing_period_contains_now; assumption|].
  split; split; vm_compute; reflexivity.
Qed.

(** C6 on 2024-01-10 with start day 15: the period opened in December of
    the year before. *)
Lemma C6_billing_period_witness :
  midnightOf
    (fst (getCurrentBillingPeriod (utc 2024 0 10 0 0 0 0)
            (configWithStartDay 15)))
    (2023, 11) 15
  /\ midnightOf
       (snd (getCurrentBillingPeriod (utc 2024 0 10 0 0 0 0)
               (configWithStartDay 15)))
       (2024, 0) 15.
Proof.
  assert (H1 : 1 <= startDay (billingPeriod (configWithStartDay 15)) <= 28)
    by (cbn; lia).
  assert (H2 : 99 < getFullYear (utc 2024 0 10 0 0 0 0))
    by (vm_compute; reflexivity).
  exact (proj1 (C6_billing_period_window (utc 2024 0 10 0 0 0 0)
                  (configWithStartDay 15) H1 H2)).
Defined.

(* ================================================================== *)
(** * One metric *)
(* ================================================================== *)

Section EngineProperties.

Variable exec : Call -> Outcome.
Variable elapsedMs : ProductRuntime -> num.
Variables apiToken accountId : string.
Variable product : ProductRuntime.
Variables billingStart billingEnd : Date.
Variable filters : option QueryFilterOptions.

Abbreviation zcall :=
  (zoneCall apiToken product billingStart billingEnd filters).
Abbreviation rejection :=
  (zoneRejection exec apiToken product billingStart billingEnd filters).
Abbreviation extracted :=
  (zoneExtracted exec apiToken product billingStart billingEnd filters).
Abbreviation extractedAll :=
  (extractedOf exec apiToken product billingStart billingEnd filters).
Abbreviation loop :=
  (zoneLoop exec apiToken product (startParameter product billingStart)
     (endParameter product billingEnd) filters).

Lemma set_currentUsage_same (r : ProductUsageResult) :
  set_currentUsage (currentUsage r) r = r.
Proof. destruct r; reflexivity. Qed.

Lemma zoneLoop_step (tag : string) (rest : list string) (t : ZoneTotals)
    (s : Run) :
  loop (tag :: rest) t s =
  match exec (zcall tag) with
  | Rejected msg =>
      (Throw msg,
       {| result := result s; trace := trace s ++ [Issued (zcall tag)] |})
  | Responded r =>
      if hasErrors r then
        loop rest t
          {| result := result s; trace := trace s ++ [Issued (zcall tag)] |}
      else
        let x := extractValue (data r) (dataset (definition product))
                   (field (definition product)) (aggregationOf product) zone in
        loop rest (addZoneConfidence t (extractedConfidence x))
          {| result :=
               set_currentUsage (currentUsage (result s) + value x)%num
                 (result s);
             trace := trace s ++ [Issued (zcall tag)] |}
  end.
Proof.
  cbn [zoneLoop]. unfold bind at 1. unfold executeGraphQL.
  change {| callToken := apiToken; callQuery := _; callVariables := _ |}
    with (zcall tag).
  destruct (exec (zcall tag)) as [r|msg]; [|reflexivity].
  destruct (hasErrors r); reflexivity.
Qed.

Lemma extractedOf_cons (tag : string) (rest : list string) :
  extractedAll (tag :: rest) =
  match exec (zcall tag) with
  | Responded r =>
      if hasErrors r then extractedAll rest
      else extractValue (data r) (dataset (definition product))
             (field (definition product)) (aggregationOf product) zone
           :: extractedAll rest
  | Rejected _ => extractedAll rest
  end.
Proof.
  unfold extractedOf. cbn [flat_map]. unfold zoneExtracted at 1.
  destruct (exec (zcall tag)) as [r|msg]; [|reflexivity].
  destruct (hasErrors r); reflexivity.
Qed.

Lemma zoneLoop_answered (tags : list string) (t : ZoneTotals) (s : Run) :
  Forall (fun tag => rejection tag = None) tags ->
  loop tags t s =
  (Ok (fold_left addZoneConfidence
         (map extractedConfidence (extractedAll tags)) t),
   {| result :=
        set_currentUsage
          (sumValues (extractedAll tags) (currentUsage (result s))) (result s);
      trace := trace s ++ map (fun tag => Issued (zcall tag)) tags |}).
Proof.
  revert t s. induction tags as [|tag rest IH]; intros t s Hall.
  - cbn. rewrite set_currentUsage_same, app_nil_r. destruct s; reflexivity.
  - inversion Hall as [|? ? Htag Hrest]; subst.
    rewrite zoneLoop_step.
    unfold zoneRejection in Htag.
    rewrite extractedOf_cons.
    destruct (exec (zcall tag)) as [r|msg]; [|discriminate].
    destruct (hasErrors r).
    + rewrite IH by exact Hrest. cbn [result trace app].
      rewrite <- app_assoc. reflexivity.
    + cbn zeta. rewrite IH by exact Hrest. cbn [result trace app map fold_left].
      rewrite <- app_assoc. reflexivity.
Qed.

Lemma zoneLoop_rejected (pre post : list string) (z msg : string)
    (t : ZoneTotals) (s : Run) :
  Forall (fun tag => rejection tag = None) pre ->
  rejection z = Some msg ->
  loop (pre ++ z :: post)%list t s =
  (Throw msg,
   {| result :=
        set_currentUsage
          (sumValues (extractedAll pre) (currentUsage (result s))) (result s);
      trace :=
        trace s ++ map (fun tag => Issued (zcall tag)) (pre ++ [z])%list |}).
Proof.
  revert t s. induction pre as [|tag rest IH]; intros t s Hall Hz.
  - cbn [app]. rewrite zoneLoop_step. unfold zoneRejection in Hz.
    destruct (exec (zcall z)) as [r|m]; [discriminate|].
    inversion Hz; subst. cbn. rewrite set_currentUsage_same. reflexivity.
  - inversion Hall as [|? ? Htag Hrest]; subst.
    cbn [app]. rewrite zoneLoop_step.
    unfold zoneRejection in Htag.
    rewrite extractedOf_cons.
    destruct (exec (zcall tag)) as [r|m]; [|discriminate].
    destruct (hasErrors r).
    + rewrite IH by assumption. cbn [result trace app].
      rewrite <- app_assoc. reflexivity.
    + cbn zeta. rewrite IH by assumption. cbn [result trace app map fold_left].
      rewrite <- app_assoc. reflexivity.
Qed.



Abbreviation run :=
  (queryProductUsage exec elapsedMs apiToken accountId product billingStart
     billingEnd filters).
Abbreviation fetch :=
  (fetchUsage exec apiToken accountId product billingStart billingEnd filters).
Abbreviation init := (initialResult product billingStart billingEnd).
Abbreviation s0 := {| result := init; trace := [] |}.
Abbreviation completed := (completedResult elapsedMs product).
Abbreviation failed := (failedResult elapsedMs product).
Abbreviation acall :=
  (accountCall apiToken accountId product billingStart billingEnd filters).

Lemma tail_run (s : Run) :
  bind (applyTransform product) (fun _ => computePercentUsed product) s
  = (Ok tt,
     {| result :=
          set_percentUsed
            (percentOf (transformed product (currentUsage (result s)))
               (limit product))
            (set_currentUsage (transformed product (currentUsage (result s)))
               (result s));
        trace := trace s |}).
Proof.
  unfold applyTransform, computePercentUsed, transformed, percentOf.
  unfold bind, get, assign, modify, ret.
  destruct s as [r tr]. cbn [result trace].
  destruct (transform (definition product)) as [f|].
  - destruct (currentUsage r >? n0)%num; cbn [result trace].
    + reflexivity.
    + rewrite set_currentUsage_same. reflexivity.
  - rewrite set_currentUsage_same. reflexivity.
Qed.

Lemma run_of_fetch_ok (s1 : Run) :
  fetch s0 = (Ok tt, s1) -> run = (completed (result s1), trace s1).
Proof.
  intros H.
  unfold queryProductUsage, tryCatch, queryProductUsageBody.
  unfold bind at 1. rewrite H.
  rewrite tail_run. reflexivity.
Qed.

Lemma run_of_fetch_throw (msg : string) (s1 : Run) :
  fetch s0 = (Throw msg, s1) -> run = (failed msg (result s1), trace s1).
Proof.
  intros H.
  unfold queryProductUsage, tryCatch, queryProductUsageBody.
  unfold bind at 1. rewrite H. reflexivity.
Qed.

Lemma fetch_no_tags :
  scope (definition product) = zone ->
  orElse (zoneTags product) [] = [] ->
  fetch s0
  = (Ok tt, {| result := set_error (Some "No zone tags configured") init;
               trace := [] |}).
Proof.
  intros Hs Ht. unfold fetchUsage. rewrite Hs, Ht. reflexivity.
Qed.

Lemma fetch_zone_answered (tags : list string) :
  scope (definition product) = zone ->
  orElse (zoneTags product) [] = tags -> tags <> [] ->
  Forall (fun tag => rejection tag = None) tags ->
  fetch s0
  = (Ok tt,
     {| result :=
          set_confidence
            (combineZones (map extractedConfidence (extractedAll tags)))
            (set_currentUsage (sumValues (extractedAll tags) n0) init);
        trace := map (fun tag => Issued (zcall tag)) tags |}).
Proof.
  intros Hs Ht Hne Hall. unfold fetchUsage. rewrite Hs, Ht.
  destruct tags as [|tag rest]; [contradiction|].
  fold (startParameter product billingStart).
  fold (endParameter product billingEnd).
  unfold bind. rewrite zoneLoop_answered by exact Hall.
  unfold combineZones.
  destruct (confidenceOfZones _) as [ci|]; reflexivity.
Qed.

Lemma fetch_zone_rejected (pre post : list string) (z msg : string) :
  scope (definition product) = zone ->
  orElse (zoneTags product) [] = (pre ++ z :: post)%list ->
  Forall (fun tag => rejection tag = None) pre ->
  rejection z = Some msg ->
  fetch s0
  = (Throw msg,
     {| result := set_currentUsage (sumValues (extractedAll pre) n0) init;
        trace := map (fun tag => Issued (zcall tag)) (pre ++ [z])%list |}).
Proof.
  intros Hs Ht Hall Hz. unfold fetchUsage. rewrite Hs, Ht.
  fold (startParameter product billingStart).
  fold (endParameter product billingEnd).
  destruct (pre ++ z :: post)%list as [|tag rest] eqn:E.
  - destruct pre; discriminate.
  - rewrite <- E. unfold bind.
    rewrite zoneLoop_rejected with (msg := msg) by assumption.
    reflexivity.
Qed.

Lemma fetch_account :
  scope (definition product) = account ->
  fetch s0
  = match exec acall with
    | Rejected msg => (Throw msg, {| result := init; trace := [Issued acall] |})
    | Responded r =>
        if hasErrors r then
          (Ok tt, {| result := set_error (Some (errorMessages r)) init;
                     trace := [Issued acall] |})
        else
          let x := extractValue (data r) (dataset (definition product))
                     (field (definition product)) (aggregationOf product)
                     account in
          (Ok tt, {| result := set_confidence (extractedConfidence x)
                                 (set_currentUsage (value x) init);
                     trace := [Issued acall] |})
    end.
Proof.
  intros Hs. unfold fetchUsage. rewrite Hs.
  unfold bind at 1. unfold executeGraphQL.
  change {| callToken := apiToken; callQuery := _; callVariables := _ |}
    with acall.
  destruct (exec acall) as [r|msg]; [|reflexivity].
  destruct (hasErrors r); reflexivity.
Qed.

End EngineProperties.

(* ================================================================== *)
(** * Zone fan-out *)
(* ================================================================== *)

Lemma transformed_zero (product : ProductRuntime) : transformed product n0 = n0.
Proof.
  unfold transformed. destruct (transform (definition product)); reflexivity.
Qed.

Lemma extractedOf_all_fail (exec : Call -> Outcome) (tok : string)
    (product : ProductRuntime) (bs be : Date)
    (filters : option QueryFilterOptions) (tags : list string) :
  Forall (fun tag => zoneFails exec tok product bs be filters tag = true) tags ->
  extractedOf exec tok product bs be filters tags = [].
Proof.
  induction 1 as [|tag rest Htag _ IH]; [reflexivity|].
  unfold extractedOf in *. cbn [flat_map]. rewrite IH.
  unfold zoneFails in Htag.
  destruct (zoneExtracted exec tok product bs be filters tag);
    [discriminate|reflexivity].
Qed.

(** C1, as the code has it.  For a zone-scoped metric: with no zone tag
    the record gets the error "No zone tags configured" and no request is
    sent.  With zone tags, when every request is answered, each zone is
    queried once, a zone whose answer carries GraphQL errors adds nothing,
    the usage of the other zones is summed, and the error field stays unset,
    also when every zone answers with errors (the usage is then 0).  A
    request that is rejected sets the error field to the message of the
    rejection, whatever the zones before it returned, and no later zone is
    queried. *)
Theorem C1_zone_fanout_errors (exec : Call -> Outcome)
    (elapsedMs : ProductRuntime -> num) (tok acc : string)
    (product : ProductRuntime) (bs be : Date)
    (filters : option QueryFilterOptions) :
  scope (definition product) = zone ->
  let tags := orElse (zoneTags product) [] in
  let run := queryProductUsage exec elapsedMs tok acc product bs be filters in
  let issued := map (fun tag => Issued (zoneCall tok product bs be filters tag)) in
  (tags = [] ->
   error (fst run) = Some "No zone tags configured" /\ snd run = [])
  /\ (tags <> [] ->
      Forall (fun tag => zoneRejection exec tok product bs be filters tag = None)
        tags ->
      error (fst run) = None
      /\ currentUsage (fst run)
         = transformed product
             (sumValues (extractedOf exec tok product bs be filters tags) n0)
      /\ (Forall (fun tag => zoneFails exec tok product bs be filters tag = true)
            tags ->
          currentUsage (fst run) = n0)
      /\ snd run = issued tags)
  /\ (forall (pre post : list string) (z msg : string),
      tags = (pre ++ z :: post)%list ->
      Forall (fun tag => zoneRejection exec tok product bs be filters tag = None)
        pre ->
      zoneRejection exec tok product bs be filters z = Some msg ->
      error (fst run) = Some msg /\ snd run = issued (pre ++ [z])%list).
Proof.
  intros Hs tags run issued.
  split; [|split].
  - intros Ht. unfold run.
    rewrite (run_of_fetch_ok exec elapsedMs tok acc product bs be filters _
               (fetch_no_tags exec tok acc product bs be filters Hs Ht)).
    split; reflexivity.
  - intros Hne Hall. unfold run.
    rewrite (run_of_fetch_ok exec elapsedMs tok acc product bs be filters _
               (fetch_zone_answered exec tok acc product bs be filters tags
                  Hs eq_refl Hne Hall)).
    cbn [fst snd result trace].
    split; [reflexivity|]. split; [reflexivity|]. split; [|reflexivity].
    intros Hfail. unfold completedResult.
    cbn [currentUsage set_queryDurationMs set_percentUsed set_currentUsage
         set_confidence initialResult].
    rewrite extractedOf_all_fail by exact Hfail.
    apply transformed_zero.
  - intros pre post z msg Ht Hall Hz. unfold run.
    rewrite (run_of_fetch_throw exec elapsedMs tok acc product bs be filters
               msg _
               (fetch_zone_rejected exec tok acc product bs be filters pre post
                  z msg Hs Ht Hall Hz)).
    split; reflexivity.
Qed.

(** C1 on the sample backend: zones Z1 (usage 100) and Zerr (GraphQL
    errors) give usage 100 and no error; no zone gives the configuration
    error; zones Z1 and Z2 (rejected) give the error of the rejection. *)
Lemma C1_zone_fanout_witness :
  (let run :=
     queryProductUsage sampleBackend noElapsed "token" "acct"
       (sampleProduct zone None None (ofZ 1000) (Some ["Z1"; "Zerr"]))
       march2024 april2024 None in
   error (fst run) = None /\ currentUsage (fst run) = ofZ 100)
  /\ (let run :=
        queryProductUsage sampleBackend noElapsed "token" "acct"
          (sampleProduct zone None None (ofZ 1000) None)
          march2024 april2024 None in
      error (fst run) = Some "No zone tags configured" /\ snd run = [])
  /\ (let run :=
        queryProductUsage sampleBackend noElapsed "token" "acct"
          (sampleProduct zone None None (ofZ 1000) (Some ["Z1"; "Z2"]))
          march2024 april2024 None in
      error (fst run)
      = Some "GraphQL request failed: 500 Internal Server Error").
Proof.
  split; [|split].
  - destruct (C1_zone_fanout_errors sampleBackend noElapsed "token" "acct"
                (sampleProduct zone None None (ofZ 1000) (Some ["Z1"; "Zerr"]))
                march2024 april2024 None eq_refl) as (_ & H & _).
    destruct H as (He & Hu & _).
    + discriminate.
    + repeat constructor.
    + cbn zeta. split; [exact He|]. rewrite Hu. vm_compute. reflexivity.
  - destruct (C1_zone_fanout_errors sampleBackend noElapsed "token" "acct"
                (sampleProduct zone None None (ofZ 1000) None)
                march2024 april2024 None eq_refl) as (H & _).
    apply H. reflexivity.
  - destruct (C1_zone_fanout_errors sampleBackend noElapsed "token" "acct"
                (sampleProduct zone None None (ofZ 1000) (Some ["Z1"; "Z2"]))
                march2024 april2024 None eq_refl) as (_ & _ & H).
    destruct (H ["Z1"] [] "Z2"
                "GraphQL request failed: 500 Internal Server Error")
      as (He & _).
    + reflexivity.
    + repeat constructor.
    + reflexivity.
    + exact He.
Defined.

(** C1 as stated fails: of the zones Z1 and Z2, Z1 returns usage 100 and
    only the request for Z2 is rejected, yet the error field is set. *)
Lemma C1_single_rejection_sets_error :
  let p := sampleProduct zone None None (ofZ 1000) (Some ["Z1"; "Z2"]) in
  let run :=
    queryProductUsage sampleBackend noElapsed "token" "acct" p
      march2024 april2024 None in
  zoneFails sampleBackend "token" p march2024 april2024 None "Z1" = false
  /\ zoneFails sampleBackend "token" p march2024 april2024 None "Z2" = true
  /\ error (fst run) <> None
  /\ currentUsage (fst run) = ofZ 100.
Proof.
  vm_compute. repeat split. discriminate.
Qed.

(* ================================================================== *)
(** * Batched runner *)
(* ================================================================== *)

Section Runner.
Variable query : ProductRuntime -> ProductUsageResult * list Event.

Abbreviation traceOf :=
  (fun batch : list ProductRuntime =>
     List.concat (map (fun p => snd (query p)) batch)).

Lemma skipn_twice {A : Type} (a b : nat) (l : list A) :
  skipn a (skipn b l) = skipn (b + a) l.
Proof.
  revert l; induction b as [|b IH]; intros l; [reflexivity|].
  destruct l; [destruct a; reflexivity|]. cbn. apply IH.
Qed.

Lemma chunks_nil_iff {A} (fuel n : nat) (l : list A) :
  (0 < fuel)%nat -> (chunks fuel n l = [] <-> l = []).
Proof.
  intros Hf. destruct fuel as [|f]; [lia|]. cbn.
  destruct l; split; intros H; try reflexivity; discriminate.
Qed.

Lemma chunks_step {A} (fuel n : nat) (l : list A) :
  l <> [] -> chunks (S fuel) n l = firstn n l :: chunks fuel n (skipn n l).
Proof. destruct l; [contradiction|reflexivity]. Qed.

Lemma runBatches_spec (l : list ProductRuntime) (fuel : nat) :
  forall (i : nat) (results : list ProductUsageResult) (events : list Event),
  (List.length l - i < fuel)%nat ->
  runBatches query fuel i l results events
  = Some ((results ++ map (fun p => fst (query p)) (skipn i l))%list,
          (events ++ pausedBetween [Slept 100]
                       (map traceOf (chunks fuel BATCH_SIZE (skipn i l))))%list).
Proof.
  induction fuel as [|fuel IH]; intros i results events Hfuel; [lia|].
  cbn [runBatches].
  destruct (Nat.ltb_spec i (List.length l)) as [Hi|Hi].
  - rewrite IH by (unfold BATCH_SIZE; lia).
    unfold slice. replace (i + BATCH_SIZE - i)%nat with BATCH_SIZE by lia.
    set (s := skipn i l).
    assert (Hs : s <> []).
    { subst s. intros E. apply (f_equal (@List.length _)) in E.
      rewrite length_skipn in E. cbn in E. lia. }
    rewrite (chunks_step fuel BATCH_SIZE s Hs).
    replace (skipn (i + BATCH_SIZE) l) with (skipn BATCH_SIZE s)
      by (subst s; apply skipn_twice).
    rewrite !map_map.
    f_equal. f_equal.
    + rewrite <- app_assoc, <- map_app, (firstn_skipn BATCH_SIZE s). reflexivity.
    + rewrite <- !app_assoc. f_equal. cbn [map pausedBetween]. f_equal.
      destruct (Nat.ltb_spec (i + BATCH_SIZE) (List.length l)) as [Hj|Hj].
      * assert (Hne : chunks fuel BATCH_SIZE (skipn BATCH_SIZE s) <> []).
        { intros E. apply chunks_nil_iff in E; [|unfold BATCH_SIZE in *; lia].
          apply (f_equal (@List.length _)) in E. subst s.
          rewrite skipn_twice, length_skipn in E. cbn in E. lia. }
        destruct (chunks fuel BATCH_SIZE (skipn BATCH_SIZE s)) as [|c cs];
          [contradiction|]. reflexivity.
      * assert (E : skipn BATCH_SIZE s = []).
        { apply length_zero_iff_nil. subst s.
          rewrite skipn_twice, length_skipn. lia. }
        rewrite E. destruct fuel; cbn; rewrite ?app_nil_r; reflexivity.
  - assert (E : skipn i l = []).
    { apply length_zero_iff_nil. rewrite length_skipn. lia. }
    rewrite E. cbn. rewrite !app_nil_r. reflexivity.
Qed.

(** The batched loop ends within its fuel, with one record per product in
    the order of the products. *)
Lemma runBatches_all (l : list ProductRuntime) :
  runBatches query (S (List.length l)) 0 l [] []
  = Some (map (fun p => fst (query p)) l, runnerTrace query l).
Proof.
  rewrite runBatches_spec by lia. reflexivity.
Qed.

End Runner.

Lemma chunks_concat {A : Type} (fuel : nat) :
  forall l : list A, (List.length l < fuel)%nat ->
  List.concat (chunks fuel BATCH_SIZE l) = l.
Proof.
  induction fuel as [|fuel IH]; intros l Hl; [lia|].
  destruct l as [|x l']; [reflexivity|].
  rewrite chunks_step by discriminate.
  cbn [List.concat]. rewrite IH.
  - apply firstn_skipn.
  - rewrite length_skipn. cbn [List.length] in *. unfold BATCH_SIZE. lia.
Qed.

Lemma chunks_sizes {A : Type} (fuel : nat) :
  forall l : list A, (List.length l < fuel)%nat ->
  Forall (fun b => (1 <= List.length b <= BATCH_SIZE)%nat)
    (chunks fuel BATCH_SIZE l)
  /\ Forall (fun b => List.length b = BATCH_SIZE)
       (removelast (chunks fuel BATCH_SIZE l)).
Proof.
  induction fuel as [|fuel IH]; intros l Hl; [lia|].
  destruct l as [|x l']; [split; constructor|].
  rewrite chunks_step by discriminate.
  assert (Hrest : (List.length (skipn BATCH_SIZE (x :: l')) < fuel)%nat).
  { rewrite length_skipn. cbn [List.length] in *. unfold BATCH_SIZE. lia. }
  destruct (IH _ Hrest) as [H1 H2].
  split.
  - constructor; [|exact H1].
    rewrite length_firstn. cbn [List.length]. unfold BATCH_SIZE. lia.
  - destruct (chunks fuel BATCH_SIZE (skipn BATCH_SIZE (x :: l')))
      as [|c cs] eqn:E; [constructor|].
    change (removelast (firstn BATCH_SIZE (x :: l') :: c :: cs))
      with (firstn BATCH_SIZE (x :: l') :: removelast (c :: cs)).
    constructor; [|exact H2].
    assert (Hne : skipn BATCH_SIZE (x :: l') <> []).
    { intros E'. rewrite E' in E. destruct fuel; discriminate. }
    rewrite length_firstn. apply Nat.min_l.
    destruct (Nat.le_gt_cases BATCH_SIZE (List.length (x :: l')))
      as [Hle|Hgt]; [exact Hle|].
    exfalso. apply Hne. apply length_zero_iff_nil.
    rewrite length_skipn. lia.
Qed.

Lemma batches_of_twelve {A : Type} (l : list A) :
  List.length l = 12%nat -> map (@List.length A) (batchesOf l) = [5; 5; 2]%nat.
Proof.
  intros H.
  do 12 (destruct l as [|? l]; [discriminate|]).
  destruct l; [reflexivity|discriminate].
Qed.


(** C2, as the code has it.  [queryAllProductUsage] always returns, with
    exactly one record per enabled product, in the order of the products.
    The products are taken in consecutive batches of five: the batches
    together are the list, each holds one to five products and all but the
    last hold five, so that twelve products make batches of 5, 5 and 2; the
    loop pauses between two batches.  A rejected request (network failure,
    status other than 2xx, malformed body) is caught and becomes the error of
    that product's record, whose percentUsed is 0; its currentUsage is 0 for
    an account-scoped product, and for a zone-scoped one when no zone before
    the rejected one returned data. *)
Theorem C2_runner_one_record_per_metric (exec : Call -> Outcome)
    (elapsedMs : ProductRuntime -> num) (PRODUCTS : list ProductDefinition)
    (config : ContractConfig) (now : Date) (tok acc : string)
    (allZones : list string) (filters : option QueryFilterOptions) :
  let period := getCurrentBillingPeriod now config in
  let query p :=
    queryProductUsage exec elapsedMs tok acc p (fst period) (snd period)
      filters in
  let metrics := getEnabledProducts PRODUCTS config allZones in
  queryAllProductUsage exec elapsedMs PRODUCTS config now tok acc allZones
    filters
  = Some (map (fun p => fst (query p)) metrics, runnerTrace query metrics)
  /\ List.concat (batchesOf metrics) = metrics
  /\ Forall (fun b => (1 <= List.length b <= 5)%nat) (batchesOf metrics)
  /\ Forall (fun b => List.length b = 5%nat) (removelast (batchesOf metrics))
  /\ (forall p1 p2 p3 p4 p5 p6 p7 p8 p9 p10 p11 p12 : ProductRuntime,
      map (@List.length ProductRuntime)
        (batchesOf [p1; p2; p3; p4; p5; p6; p7; p8; p9; p10; p11; p12])
      = [5; 5; 2]%nat)
  /\ (forall (p : ProductRuntime) (msg : string),
      scope (definition p) = account ->
      exec (accountCall tok acc p (fst period) (snd period) filters)
      = Rejected msg ->
      error (fst (query p)) = Some msg
      /\ currentUsage (fst (query p)) = n0
      /\ percentUsed (fst (query p)) = n0)
  /\ (forall (p : ProductRuntime) (pre post : list string) (z msg : string),
      scope (definition p) = zone ->
      orElse (zoneTags p) [] = (pre ++ z :: post)%list ->
      Forall
        (fun tag =>
           zoneRejection exec tok p (fst period) (snd period) filters tag
           = None) pre ->
      zoneRejection exec tok p (fst period) (snd period) filters z = Some msg ->
      error (fst (query p)) = Some msg
      /\ percentUsed (fst (query p)) = n0
      /\ (extractedOf exec tok p (fst period) (snd period) filters pre = [] ->
          currentUsage (fst (query p)) = n0)).
Proof.
  intros period query metrics.
  split; [|split; [|split; [|split; [|split; [|split]]]]].
  - unfold queryAllProductUsage. fold period.
    destruct period as [start end_] eqn:Ep. fold metrics.
    rewrite runBatches_all. reflexivity.
  - apply chunks_concat. lia.
  - apply (chunks_sizes (S (List.length metrics)) metrics). lia.
  - apply (chunks_sizes (S (List.length metrics)) metrics). lia.
  - intros. reflexivity.
  - intros p msg Hs Hr. unfold query.
    pose proof (fetch_account exec tok acc p (fst period) (snd period) filters
                  Hs) as Hf.
    rewrite Hr in Hf.
    rewrite (run_of_fetch_throw exec elapsedMs tok acc p (fst period)
               (snd period) filters msg _ Hf).
    repeat split.
  - intros p pre post z msg Hs Ht Hall Hz. unfold query.
    rewrite (run_of_fetch_throw exec elapsedMs tok acc p (fst period)
               (snd period) filters msg _
               (fetch_zone_rejected exec tok acc p (fst period) (snd period)
                  filters pre post z msg Hs Ht Hall Hz)).
    split; [reflexivity|]. split; [reflexivity|].
    intros E. cbn [fst result]. unfold failedResult.
    cbn [currentUsage set_queryDurationMs set_error set_currentUsage].
    rewrite E. reflexivity.
Qed.

(** C2 on the sample backend, which rejects the requests for account
    [nobody] and for zone [Z2]. *)
Lemma C2_runner_witness :
  (let run :=
     queryProductUsage sampleBackend noElapsed "token" "nobody"
       (sampleProduct account None None (ofZ 1000) None)
       march2024 april2024 None in
   error (fst run) = Some "GraphQL request failed: 500 Internal Server Error"
   /\ currentUsage (fst run) = n0 /\ percentUsed (fst run) = n0)
  /\ (let run :=
        queryProductUsage sampleBackend noElapsed "token" "nobody"
          (sampleProduct zone None None (ofZ 1000) (Some ["Z2"; "Z1"]))
          march2024 april2024 None in
      error (fst run)
      = Some "GraphQL request failed: 500 Internal Server Error"
      /\ percentUsed (fst run) = n0 /\ currentUsage (fst run) = n0).
Proof.
  destruct (C2_runner_one_record_per_metric sampleBackend noElapsed []
              (configWithStartDay 1) march2024 "token" "nobody" [] None)
    as (_ & _ & _ & _ & _ & Ha & Hz).
  assert (Hp : getCurrentBillingPeriod march2024 (configWithStartDay 1)
               = (march2024, april2024)) by (vm_compute; reflexivity).
  rewrite Hp in Ha, Hz. cbn [fst snd] in Ha, Hz.
  split.
  - apply Ha; reflexivity.
  - destruct (Hz (sampleProduct zone None None (ofZ 1000) (Some ["Z2"; "Z1"]))
                [] ["Z1"] "Z2"
                "GraphQL request failed: 500 Internal Server Error")
      as (He & Hpct & Hu).
    + reflexivity.
    + reflexivity.
    + constructor.
    + reflexivity.
    + split; [exact He|]. split; [exact Hpct|]. apply Hu. reflexivity.
Defined.

(** C2 as stated fails: with zones Z1 (usage 100) and Z2 (rejected) the
    record of the product has its error set and a currentUsage of 100. *)
Lemma C2_rejection_keeps_partial_usage :
  match
    queryAllProductUsage sampleBackend noElapsed
      [definition (sampleProduct zone None None n0 None)]
      (configWithStartDay 1) march2024 "token" "acct" ["Z1"; "Z2"] None
  with
  | Some ([r], _) =>
      error r = Some "GraphQL request failed: 500 Internal Server Error"
      /\ currentUsage r = ofZ 100
      /\ (currentUsage r =? n0)%num = false
  | _ => False
  end.
Proof.
  vm_compute. repeat split.
Qed.

(* ================================================================== *)
(** * Percentage of the limit *)
(* ================================================================== *)

(** Whenever the [try] block of [queryProductUsage] runs to its end, the
    percentage is that of the final usage against the limit; the flag
    [unlimited] plays no part in it. *)
Lemma percentUsed_of_completed (elapsedMs : ProductRuntime -> num)
    (product : ProductRuntime) (r : ProductUsageResult) :
  percentUsed (completedResult elapsedMs product r)
  = percentOf (currentUsage (completedResult elapsedMs product r))
      (limit product).
Proof. reflexivity. Qed.

Lemma percentOf_no_limit (usage lim : num) :
  (lim >? n0)%num = false -> percentOf usage lim = n0.
Proof. unfold percentOf. intros ->. reflexivity. Qed.

(** C3 fails on the code.  An account-scoped product flagged unlimited
    whose limit was overridden to 1000, with a backend usage of 900, gets
    percentUsed = 90, not 0, and the categoriser files it under alerts at
    the thresholds 90 and 75. *)
Theorem C3_unlimited_percent_used_not_zero :
  let p := sampleProduct account None (Some true) (ofZ 1000) None in
  let r :=
    fst (queryProductUsage sampleBackend noElapsed "token" "acct" p
           march2024 april2024 None) in
  resUnlimited r = Some true
  /\ error r = None
  /\ currentUsage r = ofZ 900
  /\ percentUsed r = ofZ 90
  /\ alerts (categorizeUsage april2024 [r] (ofZ 90) (ofZ 75)) = [r].
Proof.
  vm_compute. repeat split.
Qed.

(* ================================================================== *)
(** * Confidence combination *)
(* ================================================================== *)

Lemma add_comm (a b : num) : (a + b)%num = (b + a)%num.
Proof.
  destruct a as [x| | |], b as [y| | |]; cbn [add]; try reflexivity.
  f_equal. apply Qred_complete. ring.
Qed.

Lemma add_assoc (a b c : num) : ((a + b) + c)%num = (a + (b + c))%num.
Proof.
  destruct a as [x| | |], b as [y| | |], c as [z| | |]; cbn [add];
    try reflexivity.
  f_equal. apply Qred_complete. rewrite !Qred_correct. ring.
Qed.

Lemma add_swap (a b c : num) : ((a + b) + c)%num = ((a + c) + b)%num.
Proof.
  rewrite !add_assoc. f_equal. apply add_comm.
Qed.

Lemma total_perm (f : ConfidenceInterval -> num)
    (cs cs' : list ConfidenceInterval) :
  Permutation cs cs' -> forall from, total f cs from = total f cs' from.
Proof.
  unfold total.
  induction 1 as [|x l l' _ IH|x y l|l l' l'' _ IH1 _ IH2]; intros from; cbn.
  - reflexivity.
  - apply IH.
  - rewrite add_swap. reflexivity.
  - rewrite IH1. apply IH2.
Qed.

Lemma present_perm (s s' : list (option ConfidenceInterval)) :
  Permutation s s' -> Permutation (present s) (present s').
Proof.
  unfold present.
  induction 1 as [|x l l' _ IH|x y l|l l' l'' _ IH1 _ IH2]; cbn.
  - constructor.
  - apply Permutation_app_head. exact IH.
  - rewrite !app_assoc. apply Permutation_app_tail.
    apply Permutation_app_comm.
  - eapply perm_trans; eassumption.
Qed.

Lemma lastLevel_common (lvl : num) (cs : list ConfidenceInterval) (from : num) :
  Forall (fun c => level c = lvl) cs -> cs <> [] -> lastLevel cs from = lvl.
Proof.
  unfold lastLevel. revert from.
  induction cs as [|c cs IH]; intros from Hall Hne; [contradiction|].
  inversion Hall as [|? ? Hc Hrest]; subst. cbn.
  destruct cs as [|c' cs']; [reflexivity|].
  apply IH; [exact Hrest|discriminate].
Qed.

Lemma lastLevel_in (cs : list ConfidenceInterval) (from : num) :
  cs <> [] -> exists c, In c cs /\ lastLevel cs from = level c.
Proof.
  unfold lastLevel. revert from.
  induction cs as [|c cs IH]; intros from Hne; [contradiction|].
  cbn. destruct cs as [|c' cs'].
  - exists c. split; [left; reflexivity|reflexivity].
  - destruct (IH (level c)) as (c0 & Hin & Hl); [discriminate|].
    exists c0. split; [right; exact Hin|exact Hl].
Qed.

Lemma forallb_perm {A} (f : A -> bool) (l l' : list A) :
  Permutation l l' -> forallb f l = forallb f l'.
Proof.
  induction 1 as [|x l l' _ IH|x y l|l l' l'' _ IH1 _ IH2]; cbn.
  - reflexivity.
  - rewrite IH. reflexivity.
  - destruct (f x), (f y); reflexivity.
  - congruence.
Qed.

(** The zone loop in closed form. *)
Lemma fold_addZoneConfidence (samples : list (option ConfidenceInterval))
    (t : ZoneTotals) :
  fold_left addZoneConfidence samples t
  = {| zTotalEstimate := total estimate (present samples) (zTotalEstimate t);
       zTotalLower := total lower (present samples) (zTotalLower t);
       zTotalUpper := total upper (present samples) (zTotalUpper t);
       zTotalSampleSize :=
         total sampleSize (present samples) (zTotalSampleSize t);
       zHasConfidence :=
         zHasConfidence t || negb (Nat.eqb (List.length (present samples)) 0);
       zAllValid := zAllValid t && forallb isValid (present samples);
       zConfidenceLevel := lastLevel (present samples) (zConfidenceLevel t) |}.
Proof.
  revert t. induction samples as [|o samples IH]; intros t.
  - cbn. rewrite orb_false_r, andb_true_r. destruct t; reflexivity.
  - cbn [fold_left]. rewrite IH. destruct o as [c|]; [|reflexivity].
    cbn. rewrite orb_true_r.
    destruct (isValid c), (zAllValid t); reflexivity.
Qed.

Lemma combineZones_closed (samples : list (option ConfidenceInterval)) :
  combineZones samples
  = buildConfidence (negb (Nat.eqb (List.length (present samples)) 0))
      (total estimate (present samples) n0) (total lower (present samples) n0)
      (total upper (present samples) n0)
      (total sampleSize (present samples) n0)
      (forallb isValid (present samples))
      (lastLevel (present samples) CONFIDENCE_LEVEL).
Proof.
  unfold combineZones, confidenceOfZones.
  rewrite fold_addZoneConfidence. reflexivity.
Qed.

Lemma add_pos (a b : num) :
  nonneg a -> (b >? n0)%num = true -> (a + b >? n0)%num = true.
Proof.
  unfold gtb, n0, ofZ.
  destruct a as [x| | |], b as [y| | |]; cbn [add ltb nonneg];
    try reflexivity; try discriminate; try contradiction.
  intros Hx Hy. apply Qltb_true in Hy. apply Qltb_true.
  rewrite Qred_correct. unfold inject_Z in *. lra.
Qed.

Lemma pos_nonneg (a : num) : (a >? n0)%num = true -> nonneg a.
Proof.
  unfold gtb, n0, ofZ.
  destruct a as [x| | |]; cbn [ltb nonneg]; try discriminate; try tauto.
  intros H. apply Qltb_true in H. unfold inject_Z in *. lra.
Qed.

Lemma total_pos (cs : list ConfidenceInterval) :
  Forall (fun c => (estimate c >? n0)%num = true) cs ->
  forall from, nonneg from -> cs <> [] ->
  (total estimate cs from >? n0)%num = true.
Proof.
  unfold total.
  induction 1 as [|c cs Hc _ IH]; intros from Hfrom Hne; [contradiction|].
  cbn [fold_left].
  destruct cs as [|c' cs'].
  - cbn. apply add_pos; assumption.
  - apply IH; [|discriminate].
    apply pos_nonneg. apply add_pos; assumption.
Qed.


Lemma lookupMember_single (k : string) (v : json) :
  lookupMember k [(k, v)] = Some v.
Proof. cbn. rewrite String.eqb_refl. reflexivity. Qed.

(** One turn of the loop of [extractValue] on a row with confidence data. *)
Lemma extractRow_sampled (f : string) (t : Totals)
    (v lvl est low up size : num) (valid : bool) :
  extractRow f sum t (sampledRow f v lvl est low up size valid)
  = Ok {| totalValue := (totalValue t + v)%num;
          totalEstimate := (totalEstimate t + est)%num;
          totalLower := (totalLower t + low)%num;
          totalUpper := (totalUpper t + up)%num;
          totalSampleSize := (totalSampleSize t + size)%num;
          hasConfidence := true;
          confidenceLevel := lvl;
          allValid := if valid then allValid t else false |}.
Proof.
  unfold extractRow, sampledRow, rowValue, nestedConfidenceOf, bindR.
  cbn [getProp lookupMember fold_left fst snd String.eqb Ascii.eqb Bool.eqb
       optProp truthy numberOr].
  rewrite !String.eqb_refl.
  cbn [getProp lookupMember fold_left fst snd String.eqb Ascii.eqb Bool.eqb
       optProp truthy numberOr].
  reflexivity.
Qed.

Lemma isZero_length (rows : list json) :
  rows <> [] -> isZero (Some (lengthOf rows)) = false.
Proof.
  intros Hne. unfold isZero, lengthOf, n0, ofZ. cbn [eqb].
  apply Qeq_bool_false. unfold inject_Z, Qeq. cbn.
  destruct rows; [contradiction|]. cbn [List.length]. lia.
Qed.

(** On a payload of the expected shape, [extractValue] is the loop over the
    rows of the result array. *)
Lemma extractValue_payload (sc : ProductScope) (ds f : string)
    (agg : AggregationType) (rows : list json) :
  rows <> [] ->
  extractValue (resultPayload sc ds rows) ds f agg sc
  = match foldR (extractRow f agg) rows initialTotals with
    | Ok t => {| value := totalValue t;
                 extractedConfidence := confidenceOfTotals t |}
    | Throw _ => noValue
    end.
Proof.
  intros Hne. unfold extractValue, extractValueBody, resultPayload, bindR.
  destruct sc;
    cbn [getProp getFirst lookupMember fold_left fst snd String.eqb Ascii.eqb
         Bool.eqb truthy negb nth_error iterate];
    rewrite String.eqb_refl;
    cbn [getProp getFirst lookupMember fold_left fst snd String.eqb Ascii.eqb
         Bool.eqb truthy negb nth_error iterate];
    rewrite (isZero_length rows Hne);
    destruct (foldR (extractRow f agg) rows initialTotals); reflexivity.
Qed.

Lemma foldR_sampled (f : string) (pairs : list (num * ConfidenceInterval)) :
  forall t : Totals,
  foldR (extractRow f sum) (map (rowOf f) pairs) t
  = Ok {| totalValue := fold_left add (map fst pairs) (totalValue t);
          totalEstimate := total estimate (map snd pairs) (totalEstimate t);
          totalLower := total lower (map snd pairs) (totalLower t);
          totalUpper := total upper (map snd pairs) (totalUpper t);
          totalSampleSize :=
            total sampleSize (map snd pairs) (totalSampleSize t);
          hasConfidence :=
            hasConfidence t || negb (Nat.eqb (List.length (map snd pairs)) 0);
          confidenceLevel := lastLevel (map snd pairs) (confidenceLevel t);
          allValid := allValid t && forallb isValid (map snd pairs) |}.
Proof.
  induction pairs as [|p pairs IH]; intros t.
  - cbn. rewrite orb_false_r, andb_true_r. destruct t; reflexivity.
  - cbn [map foldR]. unfold rowOf at 1. rewrite extractRow_sampled.
    cbn [bindR]. rewrite IH. cbn. rewrite orb_true_r.
    destruct (isValid (snd p)), (allValid t); reflexivity.
Qed.

Lemma present_map_Some (cs : list ConfidenceInterval) :
  present (map Some cs) = cs.
Proof.
  induction cs as [|c cs IH]; [reflexivity|].
  unfold present in *. cbn. rewrite IH. reflexivity.
Qed.

(** The loop over the rows of one response combines their confidence data
    as the loop over the zones combines the intervals of the zones. *)
Lemma extractValue_sampled_rows (sc : ProductScope) (ds f : string)
    (pairs : list (num * ConfidenceInterval)) :
  pairs <> [] ->
  extractValue (resultPayload sc ds (map (rowOf f) pairs)) ds f sum sc
  = {| value := fold_left add (map fst pairs) n0;
       extractedConfidence := combineZones (map Some (map snd pairs)) |}.
Proof.
  intros Hne.
  rewrite extractValue_payload
    by (destruct pairs; [contradiction|discriminate]).
  rewrite foldR_sampled, combineZones_closed, present_map_Some.
  reflexivity.
Qed.

Lemma buildConfidence_Some (has : bool) (est low up size : num) (valid : bool)
    (lvl : num) (ci : ConfidenceInterval) :
  buildConfidence has est low up size valid lvl = Some ci ->
  has = true /\ (est >? n0)%num = true
  /\ ci = {| estimate := est; lower := low; upper := up; sampleSize := size;
             isValid := valid; level := lvl;
             confidencePercent :=
               Some (calculateConfidencePercent est low up) |}.
Proof.
  unfold buildConfidence.
  destruct has; [|discriminate]. cbn [andb].
  destruct (est >? n0)%num; [|discriminate].
  intros H. inversion H. repeat split.
Qed.

Lemma buildConfidence_None (has : bool) (est low up size : num) (valid : bool)
    (lvl : num) :
  buildConfidence has est low up size valid lvl = None
  <-> has = false \/ (est >? n0)%num = false.
Proof.
  unfold buildConfidence.
  destruct has, (est >? n0)%num; cbn; split; intros H;
    try discriminate; try tauto; try reflexivity.
  destruct H; discriminate.
Qed.

(** What the [try] block of [extractValue] can return. *)
Lemma extractValueBody_shape (data : jsval) (ds f : string)
    (agg : AggregationType) (sc : ProductScope) (r : ExtractedResult) :
  extractValueBody data ds f agg sc = Ok r ->
  r = noValue
  \/ exists t, r = {| value := totalValue t;
                      extractedConfidence := confidenceOfTotals t |}.
Proof.
  unfold extractValueBody.
  destruct (getProp data "viewer") as [viewer|]; cbn [bindR]; [|discriminate].
  destruct (getProp viewer _) as [scopeData|]; cbn [bindR]; [|discriminate].
  destruct (negb (truthy scopeData));
    [intros H; inversion H; left; reflexivity|].
  destruct (getProp scopeData "length") as [len|]; cbn [bindR];
    [|discriminate].
  destruct (isZero len); [intros H; inversion H; left; reflexivity|].
  destruct (getFirst scopeData) as [firstScope|]; cbn [bindR]; [|discriminate].
  destruct (getProp firstScope ds) as [datasetResults|]; cbn [bindR];
    [|discriminate].
  destruct (negb (truthy datasetResults));
    [intros H; inversion H; left; reflexivity|].
  destruct (getProp datasetResults "length") as [len'|]; cbn [bindR];
    [|discriminate].
  destruct (isZero len'); [intros H; inversion H; left; reflexivity|].
  destruct (iterate datasetResults) as [rows|]; cbn [bindR]; [|discriminate].
  destruct (foldR (extractRow f agg) rows initialTotals) as [t|]; cbn [bindR];
    [|discriminate].
  intros H. inversion H. right. exists t. reflexivity.
Qed.

(** Every interval that [extractValue] returns has an estimate above 0. *)
Lemma extractValue_confidence_pos (data : jsval) (ds f : string)
    (agg : AggregationType) (sc : ProductScope) (ci : ConfidenceInterval) :
  extractedConfidence (extractValue data ds f agg sc) = Some ci ->
  (estimate ci >? n0)%num = true.
Proof.
  unfold extractValue.
  destruct (extractValueBody data ds f agg sc) as [r|] eqn:E;
    [|discriminate].
  apply extractValueBody_shape in E. destruct E as [->|[t ->]];
    [discriminate|].
  cbn [extractedConfidence]. unfold confidenceOfTotals. intros H.
  apply buildConfidence_Some in H. destruct H as (_ & Hp & ->). exact Hp.
Qed.

Lemma length_zero_eqb {A} (l : list A) :
  negb (Nat.eqb (List.length l) 0) = false <-> l = [].
Proof.
  destruct l; cbn; split; intros H; try reflexivity; discriminate.
Qed.




(* ================================================================== *)
(** * Result normaliser *)
(* ================================================================== *)

Lemma getProp_some (j : json) (k : string) :
  j <> JNull -> exists x, getProp (Some j) k = Ok x.
Proof.
  destruct j; cbn; intros H; try (eexists; reflexivity).
  contradiction.
Qed.

Lemma truthy_some (v : jsval) :
  truthy v = true -> exists j, v = Some j /\ j <> JNull.
Proof.
  destruct v as [j|]; [|discriminate].
  destruct j; cbn; intros H; try discriminate;
    (eexists; split; [reflexivity|discriminate]).
Qed.

Lemma getProp_truthy (v : jsval) (k : string) :
  truthy v = true -> exists x, getProp v k = Ok x.
Proof.
  intros H. apply truthy_some in H. destruct H as (j & -> & Hj).
  apply getProp_some. exact Hj.
Qed.

Lemma optProp_ok (v : jsval) (k : string) : exists x, optProp v k = Ok x.
Proof.
  destruct v as [j|]; [|eexists; reflexivity].
  destruct j; cbn; eexists; reflexivity.
Qed.

Lemma rowValue_some (j : json) (f : string) (agg : AggregationType) :
  j <> JNull -> exists v, rowValue (Some j) f agg = Ok v.
Proof.
  intros Hj. unfold rowValue.
  destruct agg.
  - destruct (getProp_some j "sum" Hj) as [a ->]. cbn [bindR].
    destruct (optProp_ok a f) as [x ->]. eexists; reflexivity.
  - destruct (getProp_some j "count" Hj) as [a ->]. eexists; reflexivity.
  - destruct (getProp_some j "avg" Hj) as [a ->]. cbn [bindR].
    destruct (optProp_ok a f) as [x ->]. eexists; reflexivity.
  - destruct (getProp_some j "max" Hj) as [a ->]. cbn [bindR].
    destruct (optProp_ok a f) as [x ->]. eexists; reflexivity.
Qed.

Lemma nestedConfidenceOf_ok (cd : jsval) (f : string) (agg : AggregationType) :
  truthy cd = true -> exists x, nestedConfidenceOf cd f agg = Ok x.
Proof.
  intros H. unfold nestedConfidenceOf.
  destruct agg.
  - destruct (getProp_truthy cd "sum" H) as [a ->]. cbn [bindR].
    apply optProp_ok.
  - apply getProp_truthy. exact H.
  - destruct (getProp_truthy cd "avg" H) as [a ->]. cbn [bindR].
    apply optProp_ok.
  - destruct (getProp_truthy cd "max" H) as [a ->]. cbn [bindR].
    apply optProp_ok.
Qed.

(** A turn of the loop on a row that is not [null] does not throw, and
    adds the number of the row to the running value. *)
Lemma extractRow_some (f : string) (agg : AggregationType) (t : Totals)
    (row : json) :
  row <> JNull ->
  exists t', extractRow f agg t row = Ok t'
             /\ totalValue t' = (totalValue t + rowNumber f agg row)%num.
Proof.
  intros Hrow. unfold extractRow, rowNumber.
  destruct (rowValue_some row f agg Hrow) as [v ->]. cbn [bindR].
  destruct (getProp_some row "confidence" Hrow) as [cd ->]. cbn [bindR].
  destruct (truthy cd) eqn:Hcd; [|eexists; split; reflexivity].
  destruct (getProp_truthy cd "level" Hcd) as [lvl ->]. cbn [bindR].
  destruct (nestedConfidenceOf_ok cd f agg Hcd) as [nested ->]. cbn [bindR].
  destruct (truthy nested) eqn:Hn; [|eexists; split; reflexivity].
  destruct (getProp_truthy nested "estimate" Hn) as [e ->].
  destruct (getProp_truthy nested "lower" Hn) as [l ->].
  destruct (getProp_truthy nested "upper" Hn) as [u ->].
  destruct (getProp_truthy nested "sampleSize" Hn) as [s ->].
  destruct (getProp_truthy nested "isValid" Hn) as [valid ->].
  cbn [bindR]. eexists; split; reflexivity.
Qed.

Lemma foldR_rows (f : string) (agg : AggregationType) (rows : list json) :
  Forall (fun row => row <> JNull) rows ->
  forall t : Totals,
  exists t', foldR (extractRow f agg) rows t = Ok t'
             /\ totalValue t'
                = fold_left add (map (rowNumber f agg) rows) (totalValue t).
Proof.
  induction 1 as [|row rows Hrow _ IH]; intros t.
  - exists t. split; reflexivity.
  - destruct (extractRow_some f agg t row Hrow) as (t1 & E1 & V1).
    destruct (IH t1) as (t2 & E2 & V2).
    exists t2. cbn [foldR map fold_left]. rewrite E1. cbn [bindR].
    split; [exact E2|]. rewrite V2, V1. reflexivity.
Qed.

(** A [null] row makes the loop throw, whatever the other rows hold. *)
Lemma foldR_null_row (f : string) (agg : AggregationType) (rows : list json) :
  In JNull rows ->
  forall t : Totals, exists msg, foldR (extractRow f agg) rows t = Throw msg.
Proof.
  induction rows as [|row rows IH]; intros Hin t; [contradiction|].
  cbn [foldR].
  destruct (extractRow f agg t row) as [t1|msg] eqn:E.
  - cbn [bindR]. destruct Hin as [->|Hin].
    + unfold extractRow, rowValue in E. destruct agg; discriminate.
    + apply IH. exact Hin.
  - exists msg. reflexivity.
Qed.

Lemma rowNumber_aggregateRow (f : string) (agg : AggregationType) (v : num) :
  rowNumber f agg (aggregateRow agg f v) = v.
Proof.
  unfold rowNumber, rowValue, aggregateRow, bindR.
  destruct agg;
    cbn [getProp optProp lookupMember fold_left fst snd aggregationName
         String.eqb Ascii.eqb Bool.eqb];
    rewrite ?String.eqb_refl; reflexivity.
Qed.

Lemma extractValue_absent_dataset (sc : ProductScope) (ds f : string)
    (agg : AggregationType) (members : list (string * json)) :
  lookupMember ds members = None ->
  extractValue (scopePayload sc members) ds f agg sc = noValue.
Proof.
  intros H. unfold extractValue, extractValueBody, scopePayload, bindR.
  destruct sc;
    cbn [getProp getFirst lookupMember fold_left fst snd String.eqb Ascii.eqb
         Bool.eqb truthy negb nth_error iterate isZero lengthOf List.length];
    fold (lookupMember ds members); rewrite H; reflexivity.
Qed.

Lemma extractValue_empty_rows (sc : ProductScope) (ds f : string)
    (agg : AggregationType) :
  extractValue (resultPayload sc ds []) ds f agg sc = noValue.
Proof.
  unfold extractValue, extractValueBody, resultPayload, bindR.
  destruct sc;
    cbn [getProp getFirst lookupMember fold_left fst snd String.eqb Ascii.eqb
         Bool.eqb truthy negb nth_error iterate];
    rewrite String.eqb_refl; reflexivity.
Qed.

Lemma gtb_not_zero (u : num) : (u >? n0)%num = true -> (u =? n0)%num = false.
Proof.
  unfold gtb, n0, ofZ. destruct u as [q| | |]; cbn [ltb eqb];
    try reflexivity; try discriminate.
  intros H. apply Qltb_true in H. apply Qeq_bool_false.
  intros E. unfold inject_Z in *. lra.
Qed.

(** What [queryProductUsage] returns for an account-scoped product whose
    request is answered without GraphQL errors. *)
Lemma run_account_answered (exec : Call -> Outcome)
    (elapsedMs : ProductRuntime -> num) (tok acc : string)
    (product : ProductRuntime) (bs be : Date)
    (filters : option QueryFilterOptions) (r : GraphQLResponse) :
  scope (definition product) = account ->
  exec (accountCall tok acc product bs be filters) = Responded r ->
  hasErrors r = false ->
  let x := extractValue (data r) (dataset (definition product))
             (field (definition product)) (aggregationOf product) account in
  queryProductUsage exec elapsedMs tok acc product bs be filters
  = (completedResult elapsedMs product
       (set_confidence (extractedConfidence x)
          (set_currentUsage (value x) (initialResult product bs be))),
     [Issued (accountCall tok acc product bs be filters)]).
Proof.
  intros Hs Hr He x.
  pose proof (fetch_account exec tok acc product bs be filters Hs) as Hf.
  rewrite Hr, He in Hf. cbn zeta in Hf.
  rewrite (run_of_fetch_ok exec elapsedMs tok acc product bs be filters _ Hf).
  reflexivity.
Qed.

(** C7.  On a payload of the expected shape the normaliser sums the
    requested aggregate over all the rows of the result array: the numbers
    that the rows hold under the aggregation, whatever else the rows hold.
    An empty result array and an absent one give the value 0 with no
    confidence, and the record of the metric then has no error.  Whenever
    reading the payload throws (a missing key on the way, a null row) the
    exception is caught and the value is 0 with no confidence.  The transform
    of the product is applied to the combined value exactly when it is
    defined and the value is above 0, so only to a value that is not 0. *)
Theorem C7_result_normalisation (exec : Call -> Outcome)
    (elapsedMs : ProductRuntime -> num) (tok acc : string)
    (product : ProductRuntime) (bs be : Date)
    (filters : option QueryFilterOptions) :
  let run := queryProductUsage exec elapsedMs tok acc product bs be filters in
  let extractOf (r : GraphQLResponse) :=
    extractValue (data r) (dataset (definition product))
      (field (definition product)) (aggregationOf product) account in
  (forall (sc : ProductScope) (ds f : string) (agg : AggregationType)
      (rows : list json),
    rows <> [] -> Forall (fun row => row <> JNull) rows ->
    value (extractValue (resultPayload sc ds rows) ds f agg sc)
    = fold_left add (map (rowNumber f agg) rows) n0)
  /\ (forall (sc : ProductScope) (ds f : string) (agg : AggregationType)
        (values : list num),
      values <> [] ->
      value (extractValue
               (resultPayload sc ds (map (aggregateRow agg f) values))
               ds f agg sc)
      = fold_left add values n0)
  /\ (forall (sc : ProductScope) (ds f : string) (agg : AggregationType),
      extractValue (resultPayload sc ds []) ds f agg sc = noValue)
  /\ (forall (sc : ProductScope) (ds f : string) (agg : AggregationType)
        (members : list (string * json)),
      lookupMember ds members = None ->
      extractValue (scopePayload sc members) ds f agg sc = noValue)
  /\ (forall r : GraphQLResponse,
      scope (definition product) = account ->
      exec (accountCall tok acc product bs be filters) = Responded r ->
      hasErrors r = false ->
      extractOf r = noValue ->
      error (fst run) = None /\ currentUsage (fst run) = n0
      /\ confidence (fst run) = None)
  /\ (forall (payload : jsval) (ds f : string) (agg : AggregationType)
        (sc : ProductScope) (msg : string),
      extractValueBody payload ds f agg sc = Throw msg ->
      extractValue payload ds f agg sc = noValue)
  /\ (forall (ds f : string) (agg : AggregationType) (sc : ProductScope),
      extractValue None ds f agg sc = noValue
      /\ extractValue (Some JNull) ds f agg sc = noValue
      /\ extractValue (Some (JObj [])) ds f agg sc = noValue)
  /\ (forall (sc : ProductScope) (ds f : string) (agg : AggregationType)
        (rows : list json),
      In JNull rows ->
      extractValue (resultPayload sc ds rows) ds f agg sc = noValue)
  /\ (forall r : GraphQLResponse,
      scope (definition product) = account ->
      exec (accountCall tok acc product bs be filters) = Responded r ->
      hasErrors r = false ->
      currentUsage (fst run) = transformed product (value (extractOf r)))
  /\ (forall u : num,
      (transform (definition product) = None -> transformed product u = u)
      /\ ((u >? n0)%num = false -> transformed product u = u)
      /\ (forall g : num -> num,
          transform (definition product) = Some g ->
          (u >? n0)%num = true -> transformed product u = g u)
      /\ ((u >? n0)%num = true -> (u =? n0)%num = false)).
Proof.
  intros run extractOf.
  split; [|split; [|split; [|split; [|split; [|split; [|split; [|split;
    [|split]]]]]]]].
  - intros sc ds f agg rows Hne Hrows.
    rewrite extractValue_payload by exact Hne.
    destruct (foldR_rows f agg rows Hrows initialTotals) as (t & -> & V).
    exact V.
  - intros sc ds f agg values Hne.
    rewrite extractValue_payload
      by (destruct values; [contradiction|discriminate]).
    destruct (foldR_rows f agg (map (aggregateRow agg f) values))
      with (t := initialTotals) as (t & -> & V).
    { apply Forall_forall. intros row Hin. apply in_map_iff in Hin.
      destruct Hin as (v & <- & _). destruct agg; discriminate. }
    cbn [value]. rewrite V, map_map. cbn [totalValue initialTotals].
    f_equal. rewrite <- (map_id values) at 2. apply map_ext.
    intros v. apply rowNumber_aggregateRow.
  - intros. apply extractValue_empty_rows.
  - intros. apply extractValue_absent_dataset. assumption.
  - intros r Hs Hr He Hx. unfold run.
    rewrite (run_account_answered exec elapsedMs tok acc product bs be filters
               r Hs Hr He).
    cbn zeta. fold (extractOf r). rewrite Hx.
    cbn [fst]. unfold completedResult.
    cbn [error currentUsage confidence set_queryDurationMs set_percentUsed
         set_currentUsage set_confidence initialResult noValue value
         extractedConfidence].
    rewrite transformed_zero. repeat split.
  - intros payload ds f agg sc msg H. unfold extractValue. rewrite H.
    reflexivity.
  - intros ds f agg sc. repeat split; destruct sc; reflexivity.
  - intros sc ds f agg rows Hin.
    rewrite extractValue_payload
      by (destruct rows; [contradiction|discriminate]).
    destruct (foldR_null_row f agg rows Hin initialTotals) as [msg ->].
    reflexivity.
  - intros r Hs Hr He. unfold run.
    rewrite (run_account_answered exec elapsedMs tok acc product bs be filters
               r Hs Hr He).
    reflexivity.
  - intros u. unfold transformed. repeat split.
    + intros ->. reflexivity.
    + intros ->. destruct (transform (definition product)); reflexivity.
    + intros g -> ->. reflexivity.
    + apply gtb_not_zero.
Qed.

(** C7 on rows of 100, 200 and 300, and on the sample backend for a
    product whose transform turns microseconds into milliseconds. *)
Lemma C7_result_normalisation_witness :
  value (extractValue
           (resultPayload account "ds"
              (map (aggregateRow sum "f") [ofZ 100; ofZ 200; ofZ 300]))
           "ds" "f" sum account)
  = ofZ 600
  /\ transformed sampleCpuTime (ofZ 900) = microsToMillis (ofZ 900)
  /\ currentUsage
       (fst (queryProductUsage sampleBackend noElapsed "token" "acct"
               sampleCpuTime march2024 april2024 None))
     = Fin (9 # 10)
  /\ extractValue (scopePayload zone []) "ds" "f" sum zone = noValue.
Proof.
  destruct (C7_result_normalisation sampleBackend noElapsed "token" "acct"
              sampleCpuTime march2024 april2024 None)
    as (_ & Hsum & _ & Habsent & _ & _ & _ & _ & Hrun & Htr).
  split; [|split; [|split]].
  - rewrite Hsum by discriminate. vm_compute. reflexivity.
  - destruct (Htr (ofZ 900)) as (_ & _ & H & _).
    apply H; reflexivity.
  - rewrite (Hrun {| data := resultPayload account "ds" [sumRow "f" (ofZ 900)];
                     respErrors := None |}) by reflexivity.
    vm_compute. reflexivity.
  - apply Habsent. reflexivity.
Defined.

(* ================================================================== *)
(** * Query builder *)
(* ================================================================== *)

Lemma append_assoc' (a b c : string) : ((a ++ b) ++ c = a ++ (b ++ c))%string.
Proof.
  induction a as [|ch a IH]; cbn; [reflexivity|]. rewrite IH. reflexivity.
Qed.

Lemma occursIn_skip (a needle s : string) :
  occursIn needle s -> occursIn needle (a ++ s).
Proof.
  intros (pre & post & ->). exists (a ++ pre), post.
  rewrite append_assoc'. reflexivity.
Qed.

Lemma occursIn_keep (needle s b : string) :
  occursIn needle s -> occursIn needle (s ++ b).
Proof.
  intros (pre & post & ->). exists pre, (post ++ b).
  rewrite !append_assoc'. reflexivity.
Qed.

Lemma getFilterConfig_dialect (k : TimeFilterKind) :
  getFilterConfig (kindName k) = dialect k.
Proof. destruct k; reflexivity. Qed.

Lemma filterFieldOf_kind (product : ProductRuntime) :
  filterFieldOf product = kindName (kindOf product).
Proof.
  unfold filterFieldOf, kindOf.
  destruct (filterField (definition product)); reflexivity.
Qed.

Lemma timeFilter_in_clause (k : TimeFilterKind) (add dims : string) :
  occursIn (timeFilter (dialect k)) (filterClause (dialect k) add dims).
Proof.
  exists EmptyString, (add ++ dims ++ " }").
  destruct k; reflexivity.
Qed.

Ltac skip_to_filter :=
  repeat match goal with
         | |- occursIn _ (filterClause _ _ _ ++ _) => fail 1
         | |- occursIn _ (_ ++ _) => apply occursIn_skip
         end.

Lemma zoneQuery_dialect (ds f : string) (agg : AggregationType)
    (k : TimeFilterKind) (filters : option QueryFilterOptions)
    (dims : option (list (string * DimensionValue))) :
  occursIn (parameterDeclaration (dialect k))
    (buildZoneQuery ds f agg (kindName k) filters dims)
  /\ occursIn (timeFilter (dialect k))
       (buildZoneQuery ds f agg (kindName k) filters dims).
Proof.
  unfold buildZoneQuery. cbv zeta. rewrite getFilterConfig_dialect.
  split.
  - apply occursIn_skip.
    destruct k;
      (exists "    query ZoneUsage($zoneTag: String!, "; eexists;
       cbn [dialect graphqlType parameterDeclaration append]; reflexivity).
  - skip_to_filter. apply occursIn_keep. apply timeFilter_in_clause.
Qed.

Lemma accountQuery_dialect (ds f : string) (agg : AggregationType)
    (k : TimeFilterKind) (filters : option QueryFilterOptions)
    (dims : option (list (string * DimensionValue))) :
  occursIn (parameterDeclaration (dialect k))
    (buildAccountQuery ds f agg (kindName k) filters dims)
  /\ occursIn (timeFilter (dialect k))
       (buildAccountQuery ds f agg (kindName k) filters dims).
Proof.
  unfold buildAccountQuery. cbv zeta. rewrite getFilterConfig_dialect.
  split.
  - apply occursIn_skip.
    destruct k;
      (exists "    query AccountUsage($accountTag: String!, "; eexists;
       cbn [dialect graphqlType parameterDeclaration append]; reflexivity).
  - skip_to_filter. apply occursIn_keep. apply timeFilter_in_clause.
Qed.

Lemma digit_not_T (z : Z) :
  Ascii.eqb (digit (z mod 10)) "T"%char = false.
Proof.
  unfold digit.
  assert (H : (Z.to_nat (z mod 10) < 10)%nat)
    by (pose proof (Z.mod_pos_bound z 10); lia).
  remember (Z.to_nat (z mod 10)) as n eqn:E. clear E.
  do 10 (destruct n as [|n]; [reflexivity|]). lia.
Qed.

(** The digits of a number hold no [T]. *)
Lemma beforeT_pad (k : nat) :
  forall (z : Z) (r : string), beforeT (pad k z ++ r) = pad k z ++ beforeT r.
Proof.
  induction k as [|k IH]; intros z r; [reflexivity|].
  cbn [pad]. rewrite !append_assoc', IH. cbn [append beforeT].
  rewrite digit_not_T. reflexivity.
Qed.

Lemma beforeT_isoYear (y : Z) (r : string) :
  beforeT (isoYear y ++ r) = isoYear y ++ beforeT r.
Proof.
  unfold isoYear.
  destruct ((0 <=? y)%Z && (y <=? 9999)%Z); [apply beforeT_pad|].
  destruct (y <? 0)%Z; rewrite append_assoc'; cbn [append beforeT Ascii.eqb
    Bool.eqb]; rewrite beforeT_pad; reflexivity.
Qed.

(** The date part of an ISO timestamp is what stands before its [T]. *)
Lemma beforeT_toISOString (t : Date) : beforeT (toISOString t) = isoDate t.
Proof.
  unfold toISOString, isoDate.
  rewrite !append_assoc', beforeT_isoYear.
  cbn [append beforeT Ascii.eqb Bool.eqb]. rewrite beforeT_pad.
  cbn [append beforeT Ascii.eqb Bool.eqb]. rewrite beforeT_pad.
  cbn [append beforeT Ascii.eqb Bool.eqb].
  reflexivity.
Qed.

Lemma formatDateForQuery_kind (t : Date) (k : TimeFilterKind) :
  formatDateForQuery t (kindName k)
  = match k with
    | date => isoDate t
    | datetime | datetimeHour => toISOString t
    end.
Proof.
  destruct k; unfold formatDateForQuery; cbn [kindName String.eqb Ascii.eqb
    Bool.eqb]; [reflexivity|apply beforeT_toISOString|reflexivity].
Qed.

Lemma In_firstn {A : Type} (x : A) (n : nat) :
  forall l : list A, In x (firstn n l) -> In x l.
Proof.
  induction n as [|n IH]; intros l H; [contradiction|].
  destruct l as [|y l]; [contradiction|].
  destruct H as [->|H]; [left; reflexivity|right; apply IH; exact H].
Qed.

(** The requests of a run are requests for the zones of the product, or
    the request for the account. *)
Lemma zoneLoop_trace (exec : Call -> Outcome) (tok : string)
    (product : ProductRuntime) (bs be : Date)
    (filters : option QueryFilterOptions) (tags : list string) :
  forall (t : ZoneTotals) (s : Run),
  exists n : nat,
    trace (snd (zoneLoop exec tok product (startParameter product bs)
                  (endParameter product be) filters tags t s))
    = (trace s
       ++ map (fun tag => Issued (zoneCall tok product bs be filters tag))
            (firstn n tags))%list.
Proof.
  induction tags as [|tag rest IH]; intros t s.
  - exists 0%nat. cbn. rewrite app_nil_r. reflexivity.
  - rewrite zoneLoop_step.
    destruct (exec (zoneCall tok product bs be filters tag)) as [r|msg].
    + destruct (hasErrors r).
      * destruct (IH t {| result := result s;
                          trace := (trace s
                                    ++ [Issued (zoneCall tok product bs be
                                                  filters tag)])%list |})
          as [n Hn].
        exists (S n). rewrite Hn. cbn [trace firstn map].
        rewrite <- app_assoc. reflexivity.
      * cbn zeta.
        match goal with
        | |- context [zoneLoop _ _ _ _ _ _ rest ?t' ?s'] =>
            destruct (IH t' s') as [n Hn]
        end.
        exists (S n). rewrite Hn. cbn [trace firstn map].
        rewrite <- app_assoc. reflexivity.
    + exists 1%nat. reflexivity.
Qed.

Lemma run_trace (exec : Call -> Outcome) (elapsedMs : ProductRuntime -> num)
    (tok acc : string) (product : ProductRuntime) (bs be : Date)
    (filters : option QueryFilterOptions) :
  snd (queryProductUsage exec elapsedMs tok acc product bs be filters)
  = trace (snd (fetchUsage exec tok acc product bs be filters
                  {| result := initialResult product bs be; trace := [] |})).
Proof.
  destruct (fetchUsage exec tok acc product bs be filters
              {| result := initialResult product bs be; trace := [] |})
    as [[[]|msg] s1] eqn:E.
  - rewrite (run_of_fetch_ok exec elapsedMs tok acc product bs be filters s1 E).
    reflexivity.
  - rewrite (run_of_fetch_throw exec elapsedMs tok acc product bs be filters
               msg s1 E).
    reflexivity.
Qed.

Lemma run_requests (exec : Call -> Outcome) (elapsedMs : ProductRuntime -> num)
    (tok acc : string) (product : ProductRuntime) (bs be : Date)
    (filters : option QueryFilterOptions) :
  Forall
    (fun e =>
       e = Issued (accountCall tok acc product bs be filters)
       \/ exists tag,
            In tag (orElse (zoneTags product) [])
            /\ e = Issued (zoneCall tok product bs be filters tag))
    (snd (queryProductUsage exec elapsedMs tok acc product bs be filters)).
Proof.
  rewrite run_trace.
  destruct (scope (definition product)) eqn:Hs.
  - unfold fetchUsage. rewrite Hs.
    destruct (orElse (zoneTags product) []) as [|tag rest] eqn:Ht.
    + constructor.
    + fold (startParameter product bs). fold (endParameter product be).
      unfold bind.
      destruct (zoneLoop_trace exec tok product bs be filters (tag :: rest)
                  initialZoneTotals
                  {| result := initialResult product bs be; trace := [] |})
        as [n Hn].
      destruct (zoneLoop exec tok product (startParameter product bs)
                  (endParameter product be) filters (tag :: rest)
                  initialZoneTotals _) as [[t|msg] s1].
      * cbn [snd trace app] in Hn.
        assert (Ht1 : trace (snd (match confidenceOfZones t with
                                  | Some ci => assign (set_confidence (Some ci))
                                  | None => ret tt
                                  end s1)) = trace s1)
          by (destruct (confidenceOfZones t); reflexivity).
        rewrite Ht1, Hn.
        apply Forall_forall. intros e He. apply in_map_iff in He.
        destruct He as (z & <- & Hz). right. exists z.
        split; [|reflexivity]. eapply In_firstn. exact Hz.
      * cbn [snd trace app] in Hn. cbn [snd]. rewrite Hn.
        apply Forall_forall. intros e He. apply in_map_iff in He.
        destruct He as (z & <- & Hz). right. exists z.
        split; [|reflexivity]. eapply In_firstn. exact Hz.
  - rewrite (fetch_account exec tok acc product bs be filters Hs).
    destruct (exec (accountCall tok acc product bs be filters)) as [r|msg].
    + destruct (hasErrors r); cbn; repeat constructor.
    + cbn. repeat constructor.
Qed.

(** The dialect of the queries of a product, and its bounds as
    [formatDateForQuery] writes them, for arbitrary bounds. *)
Lemma time_filter_requests (exec : Call -> Outcome)
    (elapsedMs : ProductRuntime -> num) (tok acc : string)
    (product : ProductRuntime) (bs be : Date)
    (filters : option QueryFilterOptions) :
  let k := kindOf product in
  getFilterConfig (filterFieldOf product) = dialect k
  /\ (forall tag : string,
      occursIn (parameterDeclaration (dialect k))
        (callQuery (zoneCall tok product bs be filters tag))
      /\ occursIn (timeFilter (dialect k))
           (callQuery (zoneCall tok product bs be filters tag)))
  /\ (occursIn (parameterDeclaration (dialect k))
        (callQuery (accountCall tok acc product bs be filters))
      /\ occursIn (timeFilter (dialect k))
           (callQuery (accountCall tok acc product bs be filters)))
  /\ startParameter product bs
     = match k with
       | date => isoDate bs
       | datetime | datetimeHour => toISOString bs
       end
  /\ endParameter product be
     = match k with
       | date => isoDate be
       | datetime | datetimeHour => toISOString be
       end
  /\ Forall
       (fun e =>
          exists c, e = Issued c
                    /\ In ("start", startParameter product bs) (callVariables c)
                    /\ In ("end", endParameter product be) (callVariables c)
                    /\ occursIn (timeFilter (dialect k)) (callQuery c))
       (snd (queryProductUsage exec elapsedMs tok acc product bs be filters)).
Proof.
  intros k.
  assert (Hz : forall tag : string,
             occursIn (parameterDeclaration (dialect k))
               (callQuery (zoneCall tok product bs be filters tag))
             /\ occursIn (timeFilter (dialect k))
                  (callQuery (zoneCall tok product bs be filters tag))).
  { intros tag. cbn [callQuery zoneCall]. rewrite filterFieldOf_kind.
    apply zoneQuery_dialect. }
  assert (Ha : occursIn (parameterDeclaration (dialect k))
                 (callQuery (accountCall tok acc product bs be filters))
               /\ occursIn (timeFilter (dialect k))
                    (callQuery (accountCall tok acc product bs be filters))).
  { cbn [callQuery accountCall]. rewrite filterFieldOf_kind.
    apply accountQuery_dialect. }
  split; [rewrite filterFieldOf_kind; apply getFilterConfig_dialect|].
  split; [exact Hz|]. split; [exact Ha|].
  split; [unfold startParameter; rewrite filterFieldOf_kind;
          apply formatDateForQuery_kind|].
  split; [unfold endParameter; rewrite filterFieldOf_kind;
          apply formatDateForQuery_kind|].
  eapply Forall_impl; [|apply run_requests].
  intros e [->|(tag & _ & ->)].
  - eexists. split; [reflexivity|].
    split; [right; left; reflexivity|].
    split; [right; right; left; reflexivity|]. apply Ha.
  - eexists. split; [reflexivity|].
    split; [right; left; reflexivity|].
    split; [right; right; left; reflexivity|]. apply Hz.
Qed.

Lemma truncateToHour_midnight (t : Date) :
  TimeWithinDay t = 0 -> truncateToHour t = t.
Proof.
  unfold TimeWithinDay, truncateToHour, msPerDay, msPerHour. intros H.
  Z.div_mod_to_equations. lia.
Qed.

Lemma boundFor_midnight (k : TimeFilterKind) (t : Date) :
  TimeWithinDay t = 0 ->
  match k with
  | date => isoDate t
  | datetime | datetimeHour => toISOString t
  end = boundFor k t.
Proof.
  intros H. destruct k; cbn [boundFor]; rewrite ?(truncateToHour_midnight t H);
    reflexivity.
Qed.

Lemma pausedBetween_In (pause : list Event) (batches : list (list Event))
    (e : Event) :
  In e (pausedBetween pause batches) ->
  In e pause \/ exists b, In b batches /\ In e b.
Proof.
  induction batches as [|b rest IH]; cbn [pausedBetween]; [contradiction|].
  destruct rest as [|b' rest'].
  - intros H. right. exists b. split; [left; reflexivity|exact H].
  - intros H. apply in_app_or in H. destruct H as [H|H].
    + right. exists b. split; [left; reflexivity|exact H].
    + apply in_app_or in H. destruct H as [H|H]; [left; exact H|].
      destruct (IH H) as [Hp|(b0 & Hb0 & He)]; [left; exact Hp|].
      right. exists b0. split; [right; exact Hb0|exact He].
Qed.

(** Every request of the batched loop is a request of the run of one of
    its products. *)
Lemma runnerTrace_sources
    (query : ProductRuntime -> ProductUsageResult * list Event)
    (l : list ProductRuntime) :
  Forall (fun e => e = Slept 100
                   \/ exists p, In p l /\ In e (snd (query p)))
    (runnerTrace query l).
Proof.
  apply Forall_forall. intros e He. unfold runnerTrace in He.
  apply pausedBetween_In in He. destruct He as [[<-|[]]|(b & Hb & He)].
  - left. reflexivity.
  - right. apply in_map_iff in Hb. destruct Hb as (batch & <- & Hbatch).
    apply in_concat in He. destruct He as (tr & Htr & He).
    apply in_map_iff in Htr. destruct Htr as (p & <- & Hp).
    exists p. split; [|exact He].
    rewrite <- (chunks_concat (S (List.length l)) l) by lia.
    apply in_concat. exists batch. split; assumption.
Qed.



(* ================================================================== *)
(** * All configured products *)
(* ================================================================== *)

Section IdentityProperties.

Variable exec : Call -> Outcome.
Variable elapsedMs : ProductRuntime -> num.
Variables apiToken accountId : string.
Variable product : ProductRuntime.
Variables billingStart billingEnd : Date.
Variable filters : option QueryFilterOptions.

Lemma zoneLoop_identity (tags : list string) :
  forall t s,
    identityOf
      (result (snd (zoneLoop exec apiToken product
                      (startParameter product billingStart)
                      (endParameter product billingEnd) filters tags t s)))
    = identityOf (result s).
Proof.
  induction tags as [|tag rest IH]; intros t s; [reflexivity|].
  rewrite zoneLoop_step.
  destruct (exec _) as [r|msg]; [|reflexivity].
  destruct (hasErrors r); [rewrite IH; reflexivity|].
  cbn zeta. rewrite IH. reflexivity.
Qed.

Lemma fetchUsage_identity (s : Run) :
  identityOf
    (result (snd (fetchUsage exec apiToken accountId product billingStart
                    billingEnd filters s)))
  = identityOf (result s).
Proof.
  unfold fetchUsage. destruct (scope (definition product)).
  - destruct (orElse (zoneTags product) []) as [|tag rest]; [reflexivity|].
    fold (startParameter product billingStart).
    fold (endParameter product billingEnd).
    unfold bind.
    pose proof (zoneLoop_identity (tag :: rest) initialZoneTotals s) as H.
    destruct (zoneLoop _ _ _ _ _ _ _ _ _) as [[t|msg] s1]; cbn [snd] in *;
      [|exact H].
    destruct (confidenceOfZones t); exact H.
  - unfold bind at 1. unfold executeGraphQL.
    destruct (exec _) as [r|msg]; [|reflexivity].
    destruct (hasErrors r); reflexivity.
Qed.

Lemma run_identity :
  let r :=
    fst (queryProductUsage exec elapsedMs apiToken accountId product
           billingStart billingEnd filters) in
  identityOf r = identityOf (initialResult product billingStart billingEnd)
  /\ queryDurationMs r = Some (elapsedMs product).
Proof.
  pose proof (fetchUsage_identity
                {| result := initialResult product billingStart billingEnd;
                   trace := [] |}) as H.
  destruct (fetchUsage exec apiToken accountId product billingStart billingEnd
              filters _) as [[[]|msg] s1] eqn:E; cbn [snd result] in H.
  - rewrite (run_of_fetch_ok exec elapsedMs apiToken accountId product
               billingStart billingEnd filters s1 E).
    cbn [fst]. split; [|reflexivity]. rewrite <- H. reflexivity.
  - rewrite (run_of_fetch_throw exec elapsedMs apiToken accountId product
               billingStart billingEnd filters msg s1 E).
    cbn [fst]. split; [|reflexivity]. rewrite <- H. reflexivity.
Qed.

End IdentityProperties.

Lemma identity_fields (exec : Call -> Outcome)
    (elapsedMs : ProductRuntime -> num) (tok acc : string)
    (product : ProductRuntime) (bs be : Date)
    (filters : option QueryFilterOptions) :
  let r :=
    fst (queryProductUsage exec elapsedMs tok acc product bs be filters) in
  productId r = id (definition product)
  /\ resScope r = scope (definition product).
Proof.
  destruct (run_identity exec elapsedMs tok acc product bs be filters)
    as [H _].
  cbn zeta in H |- *. unfold identityOf in H.
  cbn [initialResult productId productName resCategory resLimit resUnit
       resScope billingPeriodStart billingPeriodEnd resNote resEnabled
       resUnlimited] in H.
  inversion H. split; reflexivity.
Qed.

(** The products that the code keeps are those that survive the rules. *)
Lemma filteredProducts_survive (PRODUCTS : list ProductDefinition)
    (config : ContractConfig) (allZones : list string)
    (filters : option QueryFilterOptions) :
  filteredProducts PRODUCTS config allZones filters
  = filter (fun p => survives filters (definition p))
      (getConfiguredProducts PRODUCTS config
         match selectedZone filters with
         | Some z => [z]
         | None => allZones
         end).
Proof.
  assert (Hz : zoneFilter filters = selectedZone filters).
  { unfold zoneFilter, selectedZone, optField.
    destruct filters as [f|]; reflexivity. }
  unfold filteredProducts, survives. rewrite Hz.
  destruct (selectedZone filters) as [z|]; apply filter_ext; intros p.
  - destruct (scope (definition p)); [|reflexivity]. f_equal.
    unfold includes, CDN_ACCOUNT_PRODUCTS, cdnPairs. cbn [existsb fst].
    rewrite !(String.eqb_sym (id (definition p))). reflexivity.
  - f_equal. unfold includes, CDN_ZONE_PRODUCTS, cdnPairs. cbn [existsb snd].
    rewrite !(String.eqb_sym (id (definition p))). reflexivity.
Qed.

(** Surviving and being enabled are read off the registry alone. *)
Lemma configured_survivors (PRODUCTS : list ProductDefinition)
    (config : ContractConfig) (tags : list string)
    (f : ProductDefinition -> bool) (g : bool -> bool) :
  map (fun p => id (definition p))
    (filter (fun p => g (enabled p))
       (filter (fun p => f (definition p))
          (getConfiguredProducts PRODUCTS config tags)))
  = map id (filter (fun d => g (enabledUnder config d)) (filter f PRODUCTS)).
Proof.
  unfold getConfiguredProducts.
  induction PRODUCTS as [|d rest IH]; [reflexivity|].
  cbn [map filter].
  set (p := mergeProductConfig d _ _).
  assert (Hd : definition p = d) by reflexivity.
  assert (He : enabled p = enabledUnder config d) by reflexivity.
  rewrite Hd. destruct (f d); [|exact IH].
  cbn [filter]. rewrite He.
  destruct (g (enabledUnder config d)); cbn [map]; rewrite ?Hd, IH;
    reflexivity.
Qed.

Lemma survivors_length (PRODUCTS : list ProductDefinition)
    (config : ContractConfig) (tags : list string)
    (f : ProductDefinition -> bool) :
  List.length (filter (fun p => f (definition p))
                 (getConfiguredProducts PRODUCTS config tags))
  = List.length (filter f PRODUCTS).
Proof.
  unfold getConfiguredProducts.
  induction PRODUCTS as [|d rest IH]; [reflexivity|].
  cbn [map filter].
  set (p := mergeProductConfig d _ _).
  assert (Hd : definition p = d) by reflexivity.
  rewrite Hd. destruct (f d); cbn [List.length]; rewrite IH; reflexivity.
Qed.

Lemma enabled_ids (PRODUCTS : list ProductDefinition) (config : ContractConfig)
    (tags : list string) :
  map (fun p => id (definition p)) (getEnabledProducts PRODUCTS config tags)
  = map id (filter (enabledUnder config) PRODUCTS).
Proof.
  unfold getEnabledProducts, getConfiguredProducts.
  induction PRODUCTS as [|d rest IH]; [reflexivity|].
  cbn [map filter]. unfold mergeProductConfig at 1. cbn [enabled].
  fold (enabledUnder config d).
  destruct (enabledUnder config d); cbn [map definition]; rewrite IH;
    reflexivity.
Qed.

(** C10.  [queryAllConfiguredProductUsage] always returns, with one record
    per product of the registry that survives the suppression rules of the
    zone filter, and no other: with a zone selected, the zone-scoped
    products that are not the account-wide variant of a CDN pair, queried
    for that zone; with none selected, the products that are not the zone
    variant of a CDN pair, queried for the zones of the account.  First
    come the records of the survivors that are enabled once the overrides
    are applied, queried in batches, in the order of the registry, then one
    placeholder per survivor that is not enabled, in that order.  A
    placeholder has currentUsage 0, percentUsed 0, queryDurationMs 0 and
    enabled = false, and every request sent belongs to the run of an
    enabled survivor. *)
Theorem C10_configured_products (exec : Call -> Outcome)
    (elapsedMs : ProductRuntime -> num) (PRODUCTS : list ProductDefinition)
    (config : ContractConfig) (now : Date) (tok acc : string)
    (allZones : list string) (filters : option QueryFilterOptions) :
  let period := getCurrentBillingPeriod now config in
  let query p :=
    queryProductUsage exec elapsedMs tok acc p (fst period) (snd period)
      filters in
  let zones :=
    match selectedZone filters with
    | Some z => [z]
    | None => allZones
    end in
  let survivors := filter (survives filters) PRODUCTS in
  let configured :=
    filter (fun p => survives filters (definition p))
      (getConfiguredProducts PRODUCTS config zones) in
  let enabledProducts := filter enabled configured in
  let disabledProducts := filter (fun p => negb (enabled p)) configured in
  let placeholders :=
    map (placeholder (fst period) (snd period)) disabledProducts in
  exists (results : list ProductUsageResult) (events : list Event),
    queryAllConfiguredProductUsage exec elapsedMs PRODUCTS config now tok acc
      allZones filters
    = Some (results, events)
    /\ results
       = (map (fun p => fst (query p)) enabledProducts ++ placeholders)%list
    /\ map productId results
       = (map id (filter (enabledUnder config) survivors)
          ++ map id (filter (fun d => negb (enabledUnder config d))
                       survivors))%list
    /\ List.length results = List.length survivors
    /\ events = runnerTrace query enabledProducts
    /\ Forall (fun r => currentUsage r = n0 /\ percentUsed r = n0
                        /\ queryDurationMs r = Some n0
                        /\ resEnabled r = Some false
                        /\ error r = None)
         placeholders
    /\ Forall (fun e => e = Slept 100
                        \/ exists p, In p configured /\ enabled p = true
                                     /\ In e (snd (query p)))
         events.
Proof.
  intros period query zones survivors configured enabledProducts
    disabledProducts placeholders.
  exists (map (fun p => fst (query p)) enabledProducts ++ placeholders)%list,
    (runnerTrace query enabledProducts).
  split; [|split; [reflexivity|split; [|split; [|split;
    [reflexivity|split]]]]].
  - unfold queryAllConfiguredProductUsage. fold period.
    destruct period as [start end_] eqn:Ep.
    rewrite filteredProducts_survive. fold zones. fold configured.
    fold enabledProducts. rewrite runBatches_all. reflexivity.
  - unfold placeholders. rewrite map_app, !map_map. f_equal.
    + transitivity (map (fun p => id (definition p)) enabledProducts).
      * apply map_ext. intros p.
        apply (identity_fields exec elapsedMs tok acc p (fst period)
                 (snd period) filters).
      * exact (configured_survivors PRODUCTS config zones
                 (survives filters) (fun b => b)).
    + exact (configured_survivors PRODUCTS config zones
               (survives filters) negb).
  - unfold placeholders. rewrite length_app, !length_map.
    unfold enabledProducts, disabledProducts. rewrite filter_length.
    apply survivors_length.
  - apply Forall_forall. intros r Hr. apply in_map_iff in Hr.
    destruct Hr as (p & <- & _). repeat split.
  - eapply Forall_impl; [|apply runnerTrace_sources].
    intros e [->|(p & Hp & He)]; [left; reflexivity|].
    right. apply filter_In in Hp. destruct Hp as [Hk Hen].
    exists p. repeat split; assumption.
Qed.

(** C10 on a registry of two products, the first switched off by an
    override: its placeholder comes after the record of the second, and
    the one request sent is for the second. *)
Lemma C10_configured_products_witness :
  exists (results : list ProductUsageResult) (events : list Event),
    queryAllConfiguredProductUsage sampleBackend noElapsed
      [definition sampleCpuTime;
       definition (sampleProduct account None None (ofZ 1000) None)]
      (configWithout "workers_cpu_time") march2024 "tok" "acct" [] None
    = Some (results, events)
    /\ map productId results = ["sample"; "workers_cpu_time"]
    /\ map resEnabled results = [None; Some false]
    /\ List.length events = 1%nat.
Proof.
  destruct (C10_configured_products sampleBackend noElapsed
              [definition sampleCpuTime;
               definition (sampleProduct account None None (ofZ 1000) None)]
              (configWithout "workers_cpu_time") march2024 "tok" "acct" []
              None)
    as (results & events & Hq & Hres & Hids & _ & Hev & _).
  exists results, events. split; [exact Hq|].
  split; [rewrite Hids; vm_compute; reflexivity|].
  split; [rewrite Hres; vm_compute; reflexivity|].
  rewrite Hev. vm_compute. reflexivity.
Defined.

(* ================================================================== *)
(** * Further properties of the billing period *)
(* ================================================================== *)


Lemma month_at_most_31 (y m : Z) :
  1 <= m <= 12 -> firstOfNext y m <= days_from_civil y m 1 + 31.
Proof.
  intros Hm. unfold firstOfNext.
  assert (Hc : m = 1 \/ m = 2 \/ m = 3 \/ m = 4 \/ m = 5 \/ m = 6 \/ m = 7
               \/ m = 8 \/ m = 9 \/ m = 10 \/ m = 11 \/ m = 12) by lia.
  unfold days_from_civil.
  destruct Hc
    as [-> | [-> | [-> | [-> | [-> | [-> | [-> | [-> | [-> | [-> | [-> | ->
       ]]]]]]]]]]];
    decide_tests; Z.div_mod_to_equations; lia.
Qed.

Lemma cycleDay_step (day k : Z) :
  cycleDay day k + 28 <= cycleDay day (k + 1) <= cycleDay day k + 31.
Proof.
  unfold cycleDay, MakeDay.
  assert (Hm : 1 <= k mod 12 + 1 <= 12)
    by (pose proof (Z.mod_pos_bound k 12); lia).
  pose proof (month_at_least_28 (0 + k / 12) (k mod 12 + 1) Hm) as Hlo.
  pose proof (month_at_most_31 (0 + k / 12) (k mod 12 + 1) Hm) as Hhi.
  unfold firstOfNext in Hlo, Hhi.
  destruct (Z.eqb_spec (k mod 12 + 1) 12) as [E|E].
  - assert ((k + 1) / 12 = k / 12 + 1) by (Z.div_mod_to_equations; lia).
    assert ((k + 1) mod 12 = 0) by (Z.div_mod_to_equations; lia).
    replace (0 + (k + 1) / 12) with (0 + k / 12 + 1) by lia.
    replace ((k + 1) mod 12 + 1) with 1 by lia. lia.
  - assert ((k + 1) / 12 = k / 12) by (Z.div_mod_to_equations; lia).
    assert ((k + 1) mod 12 = k mod 12 + 1) by (Z.div_mod_to_equations; lia).
    replace (0 + (k + 1) / 12) with (0 + k / 12) by lia.
    replace ((k + 1) mod 12 + 1) with (k mod 12 + 1 + 1) by lia. lia.
Qed.

Lemma cycleDay_mono (day j k : Z) :
  j <= k -> cycleDay day j <= cycleDay day k.
Proof.
  intros H. replace k with (j + (k - j)) by lia.
  assert (Hn : 0 <= k - j) by lia.
  generalize (k - j) Hn. clear H Hn k.
  apply natlike_ind.
  - replace (j + 0) with j by lia. lia.
  - intros n Hn IH. replace (j + Z.succ n) with (j + n + 1) by lia.
    pose proof (cycleDay_step day (j + n)). lia.
Qed.

Lemma midnight_value (t : Date) (ym : Z * Z) (d : Z) :
  midnightOf t ym d -> t = cycleDay d (cycleIndex ym) * msPerDay.
Proof.
  intros (Hym & Hd & HT). destruct ym as [y m].
  unfold monthOf, getFullYear, getMonth in Hym. unfold getDate in Hd.
  pose proof (days_civil_roundtrip (Day t)) as Hz.
  pose proof (civil_ranges (Day t)) as Hr.
  destruct (now_split t) as [Ht _].
  destruct (civil_from_days (Day t)) as [[y' m'] d'].
  inversion Hym; subst.
  unfold cycleDay, cycleIndex, MakeDay. cbn [fst snd].
  replace (0 + (y * 12 + (m' - 1)) / 12) with y
    by (Z.div_mod_to_equations; lia).
  replace ((y * 12 + (m' - 1)) mod 12 + 1) with m'
    by (Z.div_mod_to_equations; lia).
  rewrite <- days_from_civil_day, Hz. lia.
Qed.

Lemma cycleIndex_next (ym : Z * Z) :
  cycleIndex (nextMonth ym) = cycleIndex ym + 1.
Proof.
  destruct ym as [y m]. unfold nextMonth, cycleIndex.
  destruct (Z.eqb_spec m 11); cbn [fst snd]; lia.
Qed.

(** The billing period is the month-long stretch between the start days of
    two consecutive months. *)
Lemma billing_period_cycle (now : Date) (config : ContractConfig) :
  1 <= startDay (billingPeriod config) <= 28 ->
  99 < getFullYear now ->
  exists k,
    getCurrentBillingPeriod now config
    = (cycleDay (startDay (billingPeriod config)) k * msPerDay,
       cycleDay (startDay (billingPeriod config)) (k + 1) * msPerDay).
Proof.
  intros Hday Hyear.
  destruct (billing_period_general now config Hday Hyear) as [Hs He].
  cbn zeta in Hs, He.
  apply midnight_value in Hs. apply midnight_value in He.
  rewrite cycleIndex_next in He.
  eexists. rewrite (surjective_pairing (getCurrentBillingPeriod now config)).
  rewrite Hs at 1. rewrite He at 1. reflexivity.
Qed.

(** X1.  The billing period is the same at every instant inside it:
    computed at any time [t] of the period that holds [now], it is that
    period again (start day 1 to 28, years from 100 on). *)
Theorem billing_period_stable (now t : Date) (config : ContractConfig) :
  1 <= startDay (billingPeriod config) <= 28 ->
  99 < getFullYear now ->
  99 < getFullYear t ->
  fst (getCurrentBillingPeriod now config) <= t
  < snd (getCurrentBillingPeriod now config) ->
  getCurrentBillingPeriod t config = getCurrentBillingPeriod now config.
Proof.
  intros Hday Hnow Ht Hin.
  pose proof (billing_period_contains_now t config Hday Ht) as Hc.
  destruct (billing_period_cycle now config Hday Hnow) as [k Hk].
  destruct (billing_period_cycle t config Hday Ht) as [j Hj].
  rewrite Hk in Hin. rewrite Hj in Hc. rewrite Hk, Hj.
  cbn [fst snd] in Hin, Hc.
  set (sd := startDay (billingPeriod config)) in *.
  assert (j = k).
  { destruct (Z.lt_trichotomy j k) as [H | [H | H]]; [|exact H|].
    - pose proof (cycleDay_mono sd (j + 1) k ltac:(lia)).
      unfold msPerDay in *. lia.
    - pose proof (cycleDay_mono sd (k + 1) j ltac:(lia)).
      unfold msPerDay in *. lia. }
  subst j. reflexivity.
Qed.

(** X1 with start day 15: the period computed on 2 April 2024 is the one
    computed on 20 March 2024, which holds that instant. *)
Lemma billing_period_stable_witness :
  getCurrentBillingPeriod (utc 2024 3 2 8 30 0 0) (configWithStartDay 15)
  = getCurrentBillingPeriod (utc 2024 2 20 23 59 59 999)
      (configWithStartDay 15).
Proof.
  apply billing_period_stable.
  - cbn. lia.
  - vm_compute. reflexivity.
  - vm_compute. reflexivity.
  - vm_compute. split; [discriminate|reflexivity].
Defined.

(** X2.  A billing period lasts a whole number of days, 28 at least and
    31 at most (start day 1 to 28, years from 100 on). *)
Theorem billing_period_length (now : Date) (config : ContractConfig) :
  1 <= startDay (billingPeriod config) <= 28 ->
  99 < getFullYear now ->
  exists days,
    28 <= days <= 31
    /\ snd (getCurrentBillingPeriod now config)
       = fst (getCurrentBillingPeriod now config) + days * msPerDay.
Proof.
  intros Hday Hyear.
  destruct (billing_period_cycle now config Hday Hyear) as [k Hk].
  rewrite Hk. cbn [fst snd].
  set (sd := startDay (billingPeriod config)).
  pose proof (cycleDay_step sd k) as H.
  exists (cycleDay sd (k + 1) - cycleDay sd k). split; lia.
Qed.

(** X2 on 10 February 2024 with start day 1. *)
Lemma billing_period_length_witness :
  exists days,
    28 <= days <= 31
    /\ snd (getCurrentBillingPeriod (utc 2024 1 10 12 0 0 0)
              (configWithStartDay 1))
       = fst (getCurrentBillingPeriod (utc 2024 1 10 12 0 0 0)
                (configWithStartDay 1))
         + days * msPerDay.
Proof.
  apply billing_period_length.
  - cbn. lia.
  - vm_compute. reflexivity.
Defined.


Lemma nextMonth_year (ym : Z * Z) : fst ym <= fst (nextMonth ym).
Proof.
  destruct ym as [y m]. unfold nextMonth.
  destruct (m =? 11); cbn [fst]; lia.
Qed.

Lemma previousMonth_next (ym : Z * Z) :
  0 <= snd ym <= 11 -> nextMonth (previousMonth ym) = ym.
Proof.
  destruct ym as [y m]. cbn [snd]. intros Hm. unfold previousMonth.
  destruct (Z.eqb_spec m 0) as [->|E]; unfold nextMonth.
  - change (11 =? 11) with true. cbv iota. f_equal. lia.
  - destruct (Z.eqb_spec (m - 1) 11); [lia|]. f_equal. lia.
Qed.

Lemma monthOf_year (t : Date) (ym : Z * Z) :
  monthOf t = ym -> getFullYear t = fst ym.
Proof. intros <-. reflexivity. Qed.

Lemma next_cycle_year (y m : Z) (early : bool) :
  0 <= m <= 11 ->
  y <= fst (nextMonth (if early then previousMonth (y, m) else (y, m))).
Proof.
  intros Hm. destruct early.
  - rewrite previousMonth_next by (cbn [snd]; exact Hm). cbn [fst]. lia.
  - apply (nextMonth_year (y, m)).
Qed.

Lemma billing_period_end_year (now : Date) (config : ContractConfig) :
  1 <= startDay (billingPeriod config) <= 28 ->
  99 < getFullYear now ->
  99 < getFullYear (snd (getCurrentBillingPeriod now config)).
Proof.
  intros Hday Hyear.
  destruct (billing_period_general now config Hday Hyear) as [_ He].
  destruct He as (Hym & _).
  apply monthOf_year in Hym. rewrite Hym.
  pose proof (next_cycle_year (getFullYear now) (getMonth now)
                (getDate now <? startDay (billingPeriod config))
                (getMonth_range now)) as H.
  unfold monthOf. lia.
Qed.

(** X3.  The billing periods follow one another without gap or overlap:
    the period computed at the end of a period starts at that end (start
    day 1 to 28, years from 100 on). *)
Theorem billing_periods_adjacent (now : Date) (config : ContractConfig) :
  1 <= startDay (billingPeriod config) <= 28 ->
  99 < getFullYear now ->
  fst (getCurrentBillingPeriod (snd (getCurrentBillingPeriod now config))
         config)
  = snd (getCurrentBillingPeriod now config).
Proof.
  intros Hday Hyear.
  pose proof (billing_period_end_year now config Hday Hyear) as Ht.
  destruct (billing_period_cycle now config Hday Hyear) as [k Hk].
  apply (f_equal snd) in Hk. cbn [snd] in Hk.
  remember (snd (getCurrentBillingPeriod now config)) as t eqn:Et.
  clear Et.
  pose proof (billing_period_contains_now t config Hday Ht) as Hc.
  destruct (billing_period_cycle t config Hday Ht) as [j Hj].
  rewrite Hj in Hc |- *. cbn [fst snd] in Hc |- *.
  set (sd := startDay (billingPeriod config)) in *.
  assert (j = k + 1).
  { destruct (Z.lt_trichotomy j (k + 1)) as [H | [H | H]]; [|exact H|].
    - pose proof (cycleDay_mono sd (j + 1) (k + 1) ltac:(lia)).
      unfold msPerDay in *. lia.
    - pose proof (cycleDay_mono sd (k + 1 + 1) j ltac:(lia)).
      pose proof (cycleDay_step sd (k + 1)).
      unfold msPerDay in *. lia. }
  subst j. symmetry. exact Hk.
Qed.

(** X3 on 31 December 2024 with start day 28. *)
Lemma billing_periods_adjacent_witness :
  fst (getCurrentBillingPeriod
         (snd (getCurrentBillingPeriod (utc 2024 11 31 0 0 0 0)
                 (configWithStartDay 28)))
         (configWithStartDay 28))
  = snd (getCurrentBillingPeriod (utc 2024 11 31 0 0 0 0)
           (configWithStartDay 28)).
Proof.
  apply billing_periods_adjacent.
  - cbn. lia.
  - vm_compute. reflexivity.
Defined.

(* ================================================================== *)
(** * Access control and input validation *)
(* ================================================================== *)

Lemma substring_all (s : string) : substring 0 (String.length s) s = s.
Proof. induction s as [|c s IH]; cbn; [reflexivity|now rewrite IH]. Qed.

Lemma startsWith_split (p s : string) :
  startsWith s p = true ->
  s = (p ++ substringFrom (String.length p) s)%string.
Proof.
  unfold startsWith, substringFrom. revert s.
  induction p as [|c p IH]; intros s H.
  - cbn. rewrite Nat.sub_0_r. symmetry. apply substring_all.
  - destruct s as [|d s]; [discriminate|]. cbn in H.
    destruct (ascii_dec c d) as [->|]; [|discriminate].
    cbn. f_equal. apply IH, H.
Qed.

Lemma handleApiRoute_sensitive (p : string) :
  sensitive (handleApiRoute p) = true -> isProtectedEndpoint p = true.
Proof.
  unfold handleApiRoute.
  repeat match goal with
         | |- context [if (p =? ?k)%string then _ else _] =>
             destruct (String.eqb_spec p k) as [->|_]
         end; cbn [sensitive]; intros H; try discriminate H; reflexivity.
Qed.

Lemma verifyApiKey_carries (sha256 : string -> string) (request : Request)
    (key : string) :
  verifyApiKey sha256 request key = true -> carriesKey sha256 request key.
Proof.
  unfold verifyApiKey, carriesKey, timingSafeEqual.
  assert (Hx : match headers request "X-API-Key" with
               | Some apiKeyHeader =>
                   if nonEmpty apiKeyHeader
                   then (sha256 apiKeyHeader =? sha256 key)%string else false
               | None => false
               end = true ->
               exists apiKey,
                 headers request "X-API-Key" = Some apiKey
                 /\ apiKey <> "" /\ sha256 apiKey = sha256 key).
  { destruct (headers request "X-API-Key") as [k|]; [|discriminate].
    unfold nonEmpty. destruct (String.eqb_spec k ""); cbn; [discriminate|].
    intros H. apply String.eqb_eq in H. exists k. auto. }
  destruct (headers request "Authorization") as [h|]; [|intros H; right; auto].
  destruct (startsWith h "Bearer ") eqn:Eb; [|intros H; right; auto].
  intros H. left. exists (substringFrom 7 h). split.
  - f_equal. apply (startsWith_split "Bearer " h Eb).
  - apply String.eqb_eq, H.
Qed.

(** X4.  With an access key configured, a request reaches one of the handlers
    that trigger the workflow, run a check or send a test notification only
    if it carries the key. *)
Theorem sensitive_handlers_need_key (sha256 : string -> string) (env : Env)
    (request : Request) (key : string) (h : Handler) :
  API_ACCESS_KEY env = Some key ->
  key <> "" ->
  Worker.fetch sha256 env request = Worker.Routed h ->
  sensitive h = true ->
  carriesKey sha256 request key.
Proof.
  intros Hkey Hne. unfold Worker.fetch. rewrite Hkey.
  destruct (given _ && negb _); [discriminate|].
  destruct (method request =? "OPTIONS")%string; [discriminate|].
  destruct (startsWith (pathname request) "/api/");
    [|destruct (pathname request =? "/health")%string; discriminate].
  unfold nonEmpty at 1. destruct (String.eqb_spec key ""); [contradiction|].
  cbn [negb andb].
  destruct (isProtectedEndpoint (pathname request)) eqn:Ep.
  - destruct (verifyApiKey sha256 request key) eqn:Ev; [|discriminate].
    intros _ _. apply verifyApiKey_carries, Ev.
  - intros H Hs. inversion H; subst h.
    apply handleApiRoute_sensitive in Hs. congruence.
Qed.

(** X4 on a [POST /api/trigger] that is routed to the handler under the key
    [s3cret]: it carries the key as its bearer token. *)
Lemma sensitive_handlers_need_key_witness :
  carriesKey sampleDigest triggerRequest "s3cret".
Proof.
  apply (sensitive_handlers_need_key sampleDigest guardedEnv triggerRequest
           "s3cret" ToTrigger).
  - reflexivity.
  - discriminate.
  - vm_compute. reflexivity.
  - reflexivity.
Defined.

Lemma trimStart_head (c : ascii) (s : string) :
  isWhiteSpace c = false -> trimStart (String c s) = String c s.
Proof. intros H. cbn. rewrite H. reflexivity. Qed.

Lemma trimStart_shape (s : string) :
  trimStart s = EmptyString
  \/ exists c r, trimStart s = String c r /\ isWhiteSpace c = false.
Proof.
  induction s as [|c s IH]; cbn; [left; reflexivity|].
  destruct (isWhiteSpace c) eqn:E; [exact IH|].
  right. exists c, s. auto.
Qed.

Lemma trimEnd_head (c : ascii) (s : string) :
  isWhiteSpace c = false -> exists r, trimEnd (String c s) = String c r.
Proof.
  intros H. cbn. destruct (trimEnd s); [rewrite H|]; eexists; reflexivity.
Qed.

Lemma trimEnd_idem (s : string) : trimEnd (trimEnd s) = trimEnd s.
Proof.
  induction s as [|c s IH]; [reflexivity|].
  cbn. destruct (trimEnd s) as [|d r] eqn:E.
  - destruct (isWhiteSpace c) eqn:Ec; [reflexivity|]. cbn. rewrite Ec.
    reflexivity.
  - cbn [trimEnd] in IH |- *. rewrite IH. reflexivity.
Qed.

(** Trimming twice is trimming once. *)
Lemma trim_idem (s : string) : trim (trim s) = trim s.
Proof.
  unfold trim.
  destruct (trimStart_shape s) as [-> | (c & r & -> & Hc)]; [reflexivity|].
  destruct (trimEnd_head c r Hc) as [r' Hr]. rewrite Hr.
  rewrite (trimStart_head c r' Hc), <- Hr. apply trimEnd_idem.
Qed.

Lemma trimEnd_clean (s : string) :
  allChars (fun c => negb (isWhiteSpace c)) s = true -> trimEnd s = s.
Proof.
  induction s as [|c s IH]; [reflexivity|].
  cbn. intros H. apply andb_true_iff in H as [Hc Hs].
  rewrite (IH Hs). apply negb_true_iff in Hc. rewrite Hc.
  destruct s; reflexivity.
Qed.

Lemma trim_clean (s : string) :
  allChars (fun c => negb (isWhiteSpace c)) s = true -> trim s = s.
Proof.
  intros H. unfold trim.
  assert (Hs : trimStart s = s).
  { destruct s as [|c s]; [reflexivity|]. cbn in H.
    apply andb_true_iff in H as [Hc _]. apply negb_true_iff in Hc.
    apply trimStart_head, Hc. }
  rewrite Hs. apply trimEnd_clean, H.
Qed.

Lemma allChars_impl (p q : ascii -> bool) (s : string) :
  (forall c, p c = true -> q c = true) ->
  allChars p s = true -> allChars q s = true.
Proof.
  intros Hpq. induction s as [|c s IH]; [reflexivity|].
  cbn. intros H. apply andb_true_iff in H as [Hc Hs].
  rewrite (Hpq c Hc), (IH Hs). reflexivity.
Qed.

Ltac each_char c :=
  destruct c as [[] [] [] [] [] [] [] []]; vm_compute; intros; congruence.

Lemma isLowerHex_not_space (c : ascii) :
  isLowerHex c = true -> negb (isWhiteSpace c) = true.
Proof. each_char c. Qed.

Lemma isLowerHex_lower (c : ascii) : isLowerHex c = true -> lowerChar c = c.
Proof. each_char c. Qed.

Lemma isInstanceIdChar_not_space (c : ascii) :
  isInstanceIdChar c = true -> negb (isWhiteSpace c) = true.
Proof. each_char c. Qed.

Lemma toLowerCase_hex (s : string) :
  allChars isLowerHex s = true -> toLowerCase s = s.
Proof.
  induction s as [|c s IH]; [reflexivity|].
  cbn. intros H. apply andb_true_iff in H as [Hc Hs].
  rewrite (isLowerHex_lower c Hc), (IH Hs). reflexivity.
Qed.

Lemma length_nonEmpty (s : string) :
  (1 <= String.length s)%nat -> nonEmpty s = true.
Proof. destruct s; cbn; [lia|reflexivity]. Qed.

Lemma validateZoneId_format (zoneId : option string) (z : string) :
  validateZoneId zoneId = Some z ->
  (exists raw, zoneId = Some raw /\ z = toLowerCase (trim raw))
  /\ String.length z = 32%nat
  /\ allChars isLowerHex z = true.
Proof.
  unfold validateZoneId. destruct zoneId as [raw|]; [|discriminate].
  destruct (negb (nonEmpty raw)); [discriminate|].
  destruct (Nat.eqb_spec (String.length (toLowerCase (trim raw))) 32)
    as [Hl|]; [|discriminate].
  destruct (allChars isLowerHex (toLowerCase (trim raw))) eqn:Hh;
    [|discriminate].
  cbn [andb]. intros H. inversion H; subst z.
  split; [exists raw; auto|]. split; [exact Hl|exact Hh].
Qed.

Lemma validateZoneId_fixed (s : string) :
  String.length s = 32%nat ->
  allChars isLowerHex s = true ->
  validateZoneId (Some s) = Some s.
Proof.
  intros Hl Hh. unfold validateZoneId.
  rewrite (length_nonEmpty s) by lia. cbn [negb].
  rewrite (trim_clean s)
    by (apply (allChars_impl isLowerHex); [apply isLowerHex_not_space|exact Hh]).
  rewrite (toLowerCase_hex s Hh), Hl, Hh. reflexivity.
Qed.

(** X5.  A zone identifier that passes the validation is the input trimmed
    and lowercased, 32 characters out of 0-9 and a-f, and passes the
    validation again unchanged. *)
Theorem validateZoneId_sound (zoneId : option string) (z : string) :
  validateZoneId zoneId = Some z ->
  (exists raw, zoneId = Some raw /\ z = toLowerCase (trim raw))
  /\ String.length z = 32%nat
  /\ allChars isLowerHex z = true
  /\ validateZoneId (Some z) = Some z.
Proof.
  intros H. destruct (validateZoneId_format zoneId z H) as (Hraw & Hl & Hh).
  split; [exact Hraw|]. split; [exact Hl|]. split; [exact Hh|].
  apply validateZoneId_fixed; assumption.
Qed.

(** X5 on an identifier written in capitals with blanks around it. *)
Lemma validateZoneId_sound_witness :
  (exists raw,
     Some "  0123456789ABCDEF0123456789ABCDEF "%string = Some raw
     /\ "0123456789abcdef0123456789abcdef"%string = toLowerCase (trim raw))
  /\ String.length "0123456789abcdef0123456789abcdef" = 32%nat
  /\ allChars isLowerHex "0123456789abcdef0123456789abcdef" = true
  /\ validateZoneId (Some "0123456789abcdef0123456789abcdef"%string)
     = Some "0123456789abcdef0123456789abcdef"%string.
Proof.
  apply (validateZoneId_sound
           (Some "  0123456789ABCDEF0123456789ABCDEF "%string)).
  vm_compute. reflexivity.
Defined.

(** X6.  A workflow instance identifier that passes the validation is 1 to 128
    characters out of letters, digits, [-] and [_], and passes it again
    unchanged. *)
Theorem validateInstanceId_sound (instanceId : option string) (i : string) :
  validateInstanceId instanceId = Some i ->
  (1 <= String.length i <= 128)%nat
  /\ allChars isInstanceIdChar i = true
  /\ validateInstanceId (Some i) = Some i.
Proof.
  assert (Hfix : forall s, (1 <= String.length s <= 128)%nat ->
                 allChars isInstanceIdChar s = true ->
                 validateInstanceId (Some s) = Some s).
  { intros s Hl Hh. unfold validateInstanceId.
    rewrite (length_nonEmpty s) by lia. cbn [negb].
    rewrite (trim_clean s)
      by (apply (allChars_impl isInstanceIdChar);
          [apply isInstanceIdChar_not_space|exact Hh]).
    rewrite Hh.
    replace (1 <=? String.length s)%nat with true
      by (symmetry; apply Nat.leb_le; lia).
    replace (String.length s <=? 128)%nat with true
      by (symmetry; apply Nat.leb_le; lia).
    reflexivity. }
  unfold validateInstanceId. destruct instanceId as [raw|]; [|discriminate].
  destruct (negb (nonEmpty raw)); [discriminate|].
  destruct (Nat.leb_spec 1 (String.length (trim raw))) as [Hl1|];
    [|discriminate].
  destruct (Nat.leb_spec (String.length (trim raw)) 128) as [Hl2|];
    [|discriminate].
  destruct (allChars isInstanceIdChar (trim raw)) eqn:Hh; [|discriminate].
  cbn [andb]. intros H. inversion H; subst i.
  split; [lia|]. split; [exact Hh|]. apply Hfix; [lia|exact Hh].
Qed.

(** X6 on an identifier with blanks around it. *)
Lemma validateInstanceId_sound_witness :
  (1 <= String.length "run-2024_01" <= 128)%nat
  /\ allChars isInstanceIdChar "run-2024_01" = true
  /\ validateInstanceId (Some "run-2024_01"%string)
     = Some "run-2024_01"%string.
Proof.
  apply (validateInstanceId_sound (Some " run-2024_01  "%string)).
  vm_compute. reflexivity.
Defined.

(** X7.  The zone filter parsed from a request, when there is one, is the
    [zoneId] parameter trimmed and lowercased, a well-formed identifier. *)
Theorem parsed_zone_filter_valid (request : Request) (z : string) :
  zoneFilter (Some (parseFilterOptions request)) = Some z ->
  (exists raw,
     searchParams request "zoneId" = Some raw /\ z = toLowerCase (trim raw))
  /\ String.length z = 32%nat
  /\ allChars isLowerHex z = true.
Proof.
  unfold zoneFilter, parseFilterOptions. cbn [optField zoneId].
  destruct (validateZoneId (searchParams request "zoneId")) as [v|] eqn:Ev;
    cbn [given]; [|discriminate].
  destruct (validateZoneId_format _ _ Ev) as (Hraw & Hl & Hh).
  rewrite (length_nonEmpty v) by lia.
  destruct (String.eqb_spec v ""); [discriminate|].
  intros H. inversion H; subst z. auto.
Qed.

(** X7 on the request of a dashboard that selects a zone. *)
Lemma parsed_zone_filter_valid_witness :
  (exists raw,
     searchParams dashboardRequest "zoneId" = Some raw
     /\ "0123456789abcdef0123456789abcdef"%string = toLowerCase (trim raw))
  /\ String.length "0123456789abcdef0123456789abcdef" = 32%nat
  /\ allChars isLowerHex "0123456789abcdef0123456789abcdef" = true.
Proof.
  apply (parsed_zone_filter_valid dashboardRequest).
  vm_compute. reflexivity.
Defined.

(** X8.  Every origin that [parseAllowedOrigins] returns is a nonempty string
    without white space around it. *)
Theorem allowed_origins_trimmed (originsConfig : option string) (o : string) :
  In o (parseAllowedOrigins originsConfig) -> o <> "" /\ trim o = o.
Proof.
  assert (Hstar : In o ["*"] -> o <> "" /\ trim o = o).
  { intros [<-|[]]. split; [discriminate|reflexivity]. }
  unfold parseAllowedOrigins. destruct originsConfig as [s|]; [|exact Hstar].
  destruct (negb (nonEmpty s) || (s =? "*")%string); [exact Hstar|].
  intros H. apply filter_In in H as [H Hne].
  apply in_map_iff in H as (piece & <- & _). split.
  - unfold nonEmpty in Hne. apply negb_true_iff in Hne.
    apply String.eqb_neq, Hne.
  - apply trim_idem.
Qed.

(** X8 on a list written with blanks and an empty entry. *)
Lemma allowed_origins_trimmed_witness :
  "https://a.example"%string <> ""%string
  /\ trim "https://a.example" = "https://a.example"%string.
Proof.
  apply (allowed_origins_trimmed
           (Some " https://a.example ,, https://b.example"%string)).
  vm_compute. left. reflexivity.
Defined.

Lemma includes_true (l : list string) (s : string) :
  includes l s = true <-> In s l.
Proof.
  unfold includes. rewrite existsb_exists. split.
  - intros (x & Hx & E). apply String.eqb_eq in E. subst. exact Hx.
  - intros H. exists s. split; [exact H|apply String.eqb_refl].
Qed.

(** X9.  For a request that names its origin, [getCorsHeaders] grants access
    exactly when [isOriginAllowed] admits the origin; the origin granted is
    the wildcard or the origin of the request, never another one, and the
    answer is marked as varying with the origin exactly when it echoes the
    origin under a list without wildcard. *)
Theorem cors_headers_follow_policy (origin : string)
    (allowedOrigins : list string) :
  origin <> "" ->
  let granted :=
    getOwn "Access-Control-Allow-Origin"
      (getCorsHeaders (Some origin) allowedOrigins) in
  let vary := getOwn "Vary" (getCorsHeaders (Some origin) allowedOrigins) in
  (isOriginAllowed (Some origin) allowedOrigins = true <-> granted <> None)
  /\ (forall v, granted = Some v -> v = "*" \/ v = origin)
  /\ (vary = Some "Origin" <->
      granted = Some origin /\ ~ In "*" allowedOrigins).
Proof.
  intros Hne granted vary. subst granted vary.
  unfold isOriginAllowed, getCorsHeaders, nonEmpty.
  destruct (String.eqb_spec origin ""); [contradiction|]. cbn [negb andb].
  destruct (includes allowedOrigins "*") eqn:Estar.
  - apply includes_true in Estar. cbn.
    split; [split; [discriminate|reflexivity]|].
    split; [intros v H; inversion H; auto|].
    split; [discriminate|intros [_ H]; contradiction].
  - assert (Hno : ~ In "*" allowedOrigins).
    { intros H. apply includes_true in H. congruence. }
    destruct (includes allowedOrigins origin) eqn:Eo; cbn.
    + split; [split; [discriminate|reflexivity]|].
      split; [intros v H; inversion H; auto|].
      split; [auto|reflexivity].
    + split; [split; [discriminate|intros H; contradiction]|].
      split; [discriminate|].
      split; [discriminate|intros [H _]; discriminate].
Qed.

(** X9 on an origin of the list. *)
Lemma cors_headers_follow_policy_witness :
  let origin := "https://a.example"%string in
  let allowedOrigins := ["https://a.example"%string; "https://b.example"%string] in
  let granted :=
    getOwn "Access-Control-Allow-Origin"
      (getCorsHeaders (Some origin) allowedOrigins) in
  let vary := getOwn "Vary" (getCorsHeaders (Some origin) allowedOrigins) in
  (isOriginAllowed (Some origin) allowedOrigins = true <-> granted <> None)
  /\ (forall v, granted = Some v -> v = "*"%string \/ v = origin)
  /\ (vary = Some "Origin"%string <->
      granted = Some origin /\ ~ In "*"%string allowedOrigins).
Proof.
  apply (cors_headers_follow_policy "https://a.example"
           ["https://a.example"%string; "https://b.example"%string]).
  discriminate.
Defined.

(* ================================================================== *)
(** * Seats, progress bars and dashboard rows *)
(* ================================================================== *)

Lemma Qle_bool_false (a b : Q) : Qle_bool a b = false <-> (b < a)%Q.
Proof.
  split.
  - intros H. apply Qnot_le_lt. intros Hle.
    apply Qle_bool_iff in Hle. congruence.
  - intros H. destruct (Qle_bool a b) eqn:E; [|reflexivity].
    apply Qle_bool_iff in E. exfalso. apply (Qlt_not_le _ _ H E).
Qed.

Lemma percent_full (qa ql : Q) :
  (0 < ql)%Q ->
  (inject_Z 100 <= Qred (Qred (qa / ql) * inject_Z 100) <-> ql <= qa)%Q.
Proof.
  intros Hl. rewrite !Qred_correct.
  assert (Hd : (qa / ql * ql == qa)%Q)
    by (rewrite Qmult_comm; apply Qmult_div_r; intros E; rewrite E in Hl;
        discriminate).
  split; intros H.
  - assert (H1 : (1 <= qa / ql)%Q) by (unfold inject_Z in *; lra).
    assert (H2 : (1 * ql <= qa / ql * ql)%Q)
      by (apply Qmult_le_compat_r; [exact H1|apply Qlt_le_weak, Hl]).
    rewrite Hd in H2. lra.
  - assert (H1 : (1 <= qa / ql)%Q)
      by (apply Qle_shift_div_l; [exact Hl|lra]).
    unfold inject_Z in *. lra.
Qed.

(** X10.  Under a positive contract limit the seat status is critical exactly
    when the active seats reach the limit, and never unlimited. *)
Theorem seat_status_critical (qa ql : Q) (warningThreshold alertThreshold : num) :
  (0 < ql)%Q ->
  (getSeatStatus (Fin qa) (Fin ql) warningThreshold alertThreshold
   = SeatCritical <-> (ql <= qa)%Q)
  /\ getSeatStatus (Fin qa) (Fin ql) warningThreshold alertThreshold
     <> SeatUnlimited.
Proof.
  intros Hl.
  unfold getSeatStatus, calculateSeatUsagePercent.
  assert (Hpos : (Fin ql <=? n0)%num = false).
  { cbn. apply Qle_bool_false. exact Hl. }
  rewrite Hpos.
  assert (Hs : Qsign ql = Gt) by (apply Qsign_Gt, Hl).
  assert (Hp : ((Fin qa / Fin ql) * n100)%num
               = Fin (Qred (Qred (qa / ql) * inject_Z 100))).
  { cbn [div]. rewrite Hs. reflexivity. }
  rewrite Hp. unfold geb. cbn [leb n100 ofZ].
  destruct (Qle_bool (inject_Z 100) _) eqn:E.
  - apply Qle_bool_iff in E. apply (percent_full qa ql Hl) in E.
    split; [split; auto|discriminate].
  - apply Qle_bool_false in E.
    assert (Hn : ~ (ql <= qa)%Q).
    { intros H. apply (percent_full qa ql Hl) in H.
      apply (Qlt_not_le _ _ E H). }
    split.
    + split; [|intros H; contradiction].
      destruct (leb alertThreshold _); [discriminate|].
      destruct (leb warningThreshold _); discriminate.
    + destruct (leb alertThreshold _); [discriminate|].
      destruct (leb warningThreshold _); discriminate.
Qed.

(** X10 on 50 active seats under a contract of 50. *)
Lemma seat_status_critical_witness :
  (getSeatStatus (Fin (inject_Z 50)) (Fin (inject_Z 50)) (ofZ 70) (ofZ 90)
   = SeatCritical <-> (inject_Z 50 <= inject_Z 50)%Q)
  /\ getSeatStatus (Fin (inject_Z 50)) (Fin (inject_Z 50)) (ofZ 70) (ofZ 90)
     <> SeatUnlimited.
Proof.
  apply seat_status_critical. reflexivity.
Defined.

Lemma turns_ofZ (z : Z) : turns (ofZ z) = Some (Z.to_nat z).
Proof. unfold turns, ofZ. rewrite Qceiling_Z. reflexivity. Qed.

Lemma turns_rest (f : Z) :
  turns (ofZ 10 - ofZ f)%num = Some (Z.to_nat (10 - f)).
Proof.
  unfold ofZ. cbn [sub turns]. f_equal. f_equal.
  rewrite <- (Qceiling_Z (10 - f)). apply Qceiling_comp.
  rewrite Qred_correct. unfold Qminus. rewrite <- inject_Z_opp, <- inject_Z_plus.
  reflexivity.
Qed.

Lemma min_ofZ (z : Z) : JsNum.min (ofZ z) (ofZ 10) = ofZ (Z.min z 10).
Proof.
  unfold JsNum.min, ofZ, ltb, Qltb.
  destruct (Qle_bool (inject_Z z) (inject_Z 10)) eqn:E; cbn [negb].
  - apply Qle_bool_iff in E. rewrite <- Zle_Qle in E.
    rewrite Z.min_l by exact E. reflexivity.
  - apply Qle_bool_false in E. rewrite <- Zlt_Qlt in E.
    rewrite Z.min_r by lia. reflexivity.
Qed.

(** X11.  For a percentage of zero or more the bar of [createProgressBar] has
    ten squares, the coloured ones first; all ten are coloured from 95
    percent on, and none is below 5 percent. *)
Theorem progress_bar_has_ten_squares (percent : num) :
  (percent >=? n0)%num = true ->
  exists square k,
    (k <= 10)%nat
    /\ progressSquares percent
       = Some (repeat square k
               ++ repeat ":white_large_square:"%string (10 - k))%list
    /\ ((percent >=? ofZ 95)%num = true -> k = 10%nat)
    /\ ((percent <? ofZ 5)%num = true -> k = 0%nat).
Proof.
  intros H. destruct percent as [q| | |]; try discriminate H.
  - unfold geb in H. cbn [leb n0 ofZ] in H. apply Qle_bool_iff in H.
    unfold progressSquares.
    set (square := if (Fin q >=? ofZ 90)%num then _ else _).
    assert (Hd : (Fin q / ofZ 10)%num = Fin (Qred (q / inject_Z 10)))
      by reflexivity.
    rewrite Hd. cbn [round].
    set (z := Qfloor (Qred (q / inject_Z 10) + (1 # 2))).
    assert (Harg : (Qred (q / inject_Z 10) + (1 # 2) == q / inject_Z 10 + (1 # 2))%Q)
      by (rewrite Qred_correct; reflexivity).
    assert (Hq10 : (q / inject_Z 10 == q * (1 # 10))%Q)
      by (unfold Qdiv; reflexivity).
    assert (Hz0 : 0 <= z).
    { subst z. rewrite <- (Qfloor_Z 0). apply Qfloor_resp_le.
      rewrite Harg, Hq10. unfold inject_Z in *. lra. }
    rewrite min_ofZ, turns_ofZ, turns_rest.
    exists square, (Z.to_nat (Z.min z 10)).
    split; [lia|]. split; [f_equal; f_equal; f_equal; lia|]. split.
    + intros H95. unfold geb in H95. cbn [leb ofZ] in H95.
      apply Qle_bool_iff in H95.
      assert (10 <= z).
      { subst z. rewrite <- (Qfloor_Z 10). apply Qfloor_resp_le.
        rewrite Harg, Hq10. unfold inject_Z in *. lra. }
      lia.
    + intros H5. cbn [ltb ofZ] in H5. apply Qltb_true in H5.
      assert (z < 1).
      { pose proof (Qfloor_le (Qred (q / inject_Z 10) + (1 # 2))) as Hf.
        fold z in Hf. rewrite Harg, Hq10 in Hf.
        rewrite Zlt_Qlt. unfold inject_Z in *. lra. }
      lia.
  - exists ":red_square:"%string, 10%nat.
    split; [lia|]. split; [vm_compute; reflexivity|].
    split; [reflexivity|discriminate].
Qed.

(** X11 on 80 percent. *)
Lemma progress_bar_has_ten_squares_witness :
  exists square k,
    (k <= 10)%nat
    /\ progressSquares (ofZ 80)
       = Some (repeat square k
               ++ repeat ":white_large_square:"%string (10 - k))%list
    /\ ((ofZ 80 >=? ofZ 95)%num = true -> k = 10%nat)
    /\ ((ofZ 80 <? ofZ 5)%num = true -> k = 0%nat).
Proof.
  apply progress_bar_has_ten_squares. vm_compute. reflexivity.
Defined.

(** X13.  For a product that is neither disabled nor unlimited, and an alert
    threshold of 100 at most, the status of the dashboard row names the
    bucket in which [categorizeUsage] counts the product. *)
Theorem row_status_matches_summary (config : ContractConfig)
    (r : ProductUsageResult) :
  resEnabled r <> Some false ->
  resUnlimited r <> Some true ->
  (alertThresholdPercent config <=? n100)%num = true ->
  bucketOf (alertThresholdPercent config) (warningThresholdPercent config) r
  = bucketOfStatus (rowStatus config r).
Proof.
  intros He Hu Ha. unfold rowStatus, bucketOf.
  assert (Hen : match resEnabled r with
                | Some false => True
                | _ => False
                end -> False).
  { destruct (resEnabled r) as [[|]|]; auto. }
  destruct (resEnabled r) as [[|]|]; try (exfalso; apply Hen; exact I);
    (destruct (hasError r); [reflexivity|];
     assert (Hun : orElse (resUnlimited r) false = false)
       by (destruct (resUnlimited r) as [[|]|]; [congruence| |]; reflexivity);
     rewrite Hun;
     destruct (percentUsed r >=? n100)%num eqn:E100;
     [ unfold geb in *; rewrite (leb_trans _ _ _ Ha E100); reflexivity |];
     destruct (percentUsed r >=? alertThresholdPercent config)%num;
     [reflexivity|];
     destruct (percentUsed r >=? warningThresholdPercent config)%num;
     reflexivity).
Qed.

(** X13 on the record of a product at 900 of 1000. *)
Lemma row_status_matches_summary_witness :
  bucketOf (alertThresholdPercent CONTRACT_CONFIG)
    (warningThresholdPercent CONTRACT_CONFIG) sampleRecord
  = bucketOfStatus (rowStatus CONTRACT_CONFIG sampleRecord).
Proof.
  apply row_status_matches_summary.
  - vm_compute. discriminate.
  - vm_compute. discriminate.
  - vm_compute. reflexivity.
Defined.

Lemma inBucket_app (a w : num) (b : Bucket) (l l' : list ProductUsageResult) :
  inBucket a w b (l ++ l') = (inBucket a w b l ++ inBucket a w b l')%list.
Proof. unfold inBucket. apply filter_app. Qed.

Lemma gtb_zero_not_geb (t : num) :
  (t >? n0)%num = true -> (n0 >=? t)%num = false.
Proof.
  destruct t as [q| | |]; cbn; try congruence.
  intros H. apply Qltb_true in H. apply Qle_bool_false. exact H.
Qed.

Lemma inBucket_placeholders (a w : num) (start end_ : Date)
    (ps : list ProductRuntime) :
  (a >? n0)%num = true ->
  (w >? n0)%num = true ->
  inBucket a w InHealthy (map (placeholder start end_) ps)
  = map (placeholder start end_) ps.
Proof.
  intros Ha Hw. unfold inBucket.
  induction ps as [|p ps IH]; [reflexivity|].
  cbn [map filter]. unfold bucketOf at 1.
  cbn [hasError placeholder error percentUsed].
  rewrite (gtb_zero_not_geb a Ha), (gtb_zero_not_geb w Hw).
  cbn [sameBucket]. f_equal. exact IH.
Qed.

(** X14.  Under thresholds above zero the products that are not enabled are
    counted as healthy by the summary of the dashboard, behind the healthy
    products that were queried, while their rows are marked disabled. *)
Theorem disabled_products_count_as_healthy (now start end_ : Date)
    (config : ContractConfig) (results : list ProductUsageResult)
    (disabledProducts : list ProductRuntime) (a w : num) :
  (a >? n0)%num = true ->
  (w >? n0)%num = true ->
  let placeholders := map (placeholder start end_) disabledProducts in
  healthy (categorizeUsage now (results ++ placeholders) a w)
  = (healthy (categorizeUsage now results a w) ++ placeholders)%list
  /\ Forall (fun r => rowStatus config r = RowDisabled) placeholders.
Proof.
  intros Ha Hw placeholders. split.
  - unfold categorizeUsage. cbn [healthy].
    match goal with
    | |- healthy (fold_left _ _ ?s) = _ =>
        destruct (fold_pushResult a w (results ++ placeholders) s)
          as (_ & _ & _ & H1 & _)
    end.
    match goal with
    | |- _ = (healthy (fold_left _ _ ?s) ++ _)%list =>
        destruct (fold_pushResult a w results s) as (_ & _ & _ & H2 & _)
    end.
    cbn zeta in H1, H2. rewrite H1, H2. cbn [healthy app].
    rewrite inBucket_app. f_equal.
    apply inBucket_placeholders; assumption.
  - subst placeholders. apply Forall_forall. intros r Hr.
    apply in_map_iff in Hr as (p & <- & _). reflexivity.
Qed.

(** X14 on one queried product and one that is switched off. *)
Lemma disabled_products_count_as_healthy_witness :
  let placeholders :=
    map (placeholder march2024 april2024)
      [sampleProduct zone None None (ofZ 1000) None] in
  healthy (categorizeUsage march2024 ([sampleRecord] ++ placeholders)
             (ofZ 90) (ofZ 75))
  = (healthy (categorizeUsage march2024 [sampleRecord] (ofZ 90) (ofZ 75))
     ++ placeholders)%list
  /\ Forall (fun r => rowStatus CONTRACT_CONFIG r = RowDisabled) placeholders.
Proof.
  apply disabled_products_count_as_healthy; vm_compute; reflexivity.
Defined.

(** X15.  Under a finite limit above zero, the percentage that
    [queryProductUsage] computes from a finite usage reaches 100 exactly
    when the usage reaches the limit; so the dashboard row of an enabled
    product that is not unlimited and has no error is critical exactly
    then. *)
Theorem usage_critical_at_limit (config : ContractConfig)
    (product : ProductRuntime) (s : Run) (u lim : Q) :
  limit product = Fin lim ->
  (0 < lim)%Q ->
  currentUsage (result s) = Fin u ->
  let r := result (snd (computePercentUsed product s)) in
  ((percentUsed r >=? n100)%num = true <-> (lim <= u)%Q)
  /\ (resEnabled r <> Some false -> hasError r = false ->
      resUnlimited r <> Some true ->
      (rowStatus config r = RowCritical <-> (lim <= u)%Q)).
Proof.
  intros Hlim Hl Hu r.
  assert (Hp : percentUsed r = Fin (Qred (Qred (u / lim) * inject_Z 100))).
  { subst r. unfold computePercentUsed, assign, modify.
    cbn [snd result percentUsed set_percentUsed]. rewrite Hlim, Hu.
    assert (Hpos : (Fin lim >? n0)%num = true) by (apply Qltb_true, Hl).
    rewrite Hpos. cbn [div]. apply Qsign_Gt in Hl. rewrite Hl. reflexivity. }
  assert (Hge : (percentUsed r >=? n100)%num = true <-> (lim <= u)%Q).
  { rewrite Hp. unfold geb, n100, ofZ. cbn [leb]. rewrite Qle_bool_iff.
    apply percent_full, Hl. }
  split; [exact Hge|].
  intros He Her Hun. unfold rowStatus. rewrite Her.
  assert (Hunl : orElse (resUnlimited r) false = false)
    by (destruct (resUnlimited r) as [[|]|]; [congruence| |]; reflexivity).
  rewrite Hunl.
  assert (Hcases :
    (if (percentUsed r >=? n100)%num then RowCritical
     else if (percentUsed r >=? alertThresholdPercent config)%num
          then RowAlert
          else if (percentUsed r >=? warningThresholdPercent config)%num
               then RowWarning else RowHealthy) = RowCritical
    <-> (lim <= u)%Q).
  { destruct (percentUsed r >=? n100)%num eqn:E.
    - split; [intros _; apply Hge; reflexivity|reflexivity].
    - split.
      + destruct (percentUsed r >=? alertThresholdPercent config)%num;
          [discriminate|].
        destruct (percentUsed r >=? warningThresholdPercent config)%num;
          discriminate.
      + intros H. apply Hge in H. discriminate. }
  destruct (resEnabled r) as [[|]|]; try exact Hcases.
  exfalso. apply He. reflexivity.
Qed.

(** X15 on a usage of 1000 under a limit of 1000. *)
Lemma usage_critical_at_limit_witness :
  let r :=
    result (snd (computePercentUsed
                   (sampleProduct account None None (ofZ 1000) None)
                   fullRun)) in
  ((percentUsed r >=? n100)%num = true
   <-> (inject_Z 1000 <= inject_Z 1000)%Q)
  /\ (resEnabled r <> Some false -> hasError r = false ->
      resUnlimited r <> Some true ->
      (rowStatus CONTRACT_CONFIG r = RowCritical
       <-> (inject_Z 1000 <= inject_Z 1000)%Q)).
Proof.
  apply usage_critical_at_limit; reflexivity.
Defined.

(* ================================================================== *)
(** * The REST client *)
(* ================================================================== *)

Section ZoneDiscoveryProperties.

Variable api : ApiCall -> Reply Zone.
Variable elapsedMs : num.
Variables apiToken accountId : string.

Abbreviation zcall' := (zonesCall apiToken accountId).
Abbreviation pagesLoop := (zonePages api apiToken accountId).

Lemma geb_ofZ (a b : Z) : (ofZ a >=? ofZ b)%num = (b <=? a)%Z.
Proof.
  unfold geb, ofZ. cbn [leb].
  destruct (Z.leb_spec b a) as [H|H].
  - apply Qle_bool_iff. rewrite <- Zle_Qle. exact H.
  - destruct (Qle_bool (inject_Z b) (inject_Z a)) eqn:E; [|reflexivity].
    apply Qle_bool_iff in E. rewrite <- Zle_Qle in E. lia.
Qed.

Lemma leb_ofZ (a b : Z) : (ofZ a <=? ofZ b)%num = (a <=? b)%Z.
Proof. apply (geb_ofZ b a). Qed.

Lemma pageNumbers_cons (first len : nat) :
  pageNumbers first (S len) = Z.of_nat first :: pageNumbers (S first) len.
Proof. reflexivity. Qed.

(** The loop over pages that are all served. *)
Lemma zonePages_served (zonesOf : Z -> list Zone) (n : nat) :
  (forall p, 1 <= p <= Z.of_nat n ->
             servesPage (api (zcall' p)) (zonesOf p) (Z.of_nat n)) ->
  forall len first fuel acc events,
    (1 <= first)%nat -> (first + len = S n)%nat -> (1 <= len)%nat ->
    (len <= fuel)%nat ->
    pagesLoop fuel (Z.of_nat first) acc events
    = (Ok (Some (acc ++ flat_map zonesOf (pageNumbers first len))%list),
       (events ++ pagedRequests (map zcall' (pageNumbers first len)))%list).
Proof.
  intros Hserved. induction len as [|len IH];
    intros first fuel acc events H1 Hn Hc Hf; [lia|].
  destruct fuel as [|fuel]; [lia|].
  destruct (Hserved (Z.of_nat first) ltac:(lia))
    as (data & info & Hr & Hs & Hitems & Hinfo & Htotal).
  cbn [zonePages]. unfold bind at 1. unfold request at 1. rewrite Hr.
  unfold bind at 1. unfold lift, checked. rewrite Hs. cbn [negb].
  rewrite Hinfo, Htotal, geb_ofZ, Hitems.
  rewrite pageNumbers_cons. cbn [flat_map map].
  destruct (Z.leb_spec (Z.of_nat n) (Z.of_nat first)) as [Hlast|Hmore].
  - assert (len = O) by lia. subst len. cbn.
    rewrite app_nil_r. reflexivity.
  - destruct len as [|len]; [lia|].
    rewrite leb_ofZ.
    replace (Z.of_nat first + 1 <=? Z.of_nat n) with true
      by (symmetry; apply Z.leb_le; lia).
    unfold bind at 1. unfold wait, modify.
    replace (Z.of_nat first + 1) with (Z.of_nat (S first)) by lia.
    rewrite (IH (S first) fuel) by lia.
    rewrite <- !app_assoc. cbn [app]. rewrite pageNumbers_cons.
    cbn [map pagedRequests]. reflexivity.
Qed.

(** The loop over pages of which the last one fails. *)
Lemma zonePages_failed (zonesOf : Z -> list Zone) (n k : nat) (msg : string) :
  (k <= n)%nat ->
  (forall p, 1 <= p < Z.of_nat k ->
             servesPage (api (zcall' p)) (zonesOf p) (Z.of_nat n)) ->
  checked (api (zcall' (Z.of_nat k))) = Throw msg ->
  forall len first fuel acc events,
    (1 <= first)%nat -> (first + len = k)%nat -> (len < fuel)%nat ->
    pagesLoop fuel (Z.of_nat first) acc events
    = (Throw msg,
       (events
        ++ pagedRequests (map zcall' (pageNumbers first (S len))))%list).
Proof.
  intros Hk Hserved Hfail. induction len as [|len IH];
    intros first fuel acc events H1 Hn Hf;
    (destruct fuel as [|fuel]; [lia|]).
  - assert (first = k) by lia. subst first.
    cbn [zonePages]. unfold bind at 1. unfold request at 1.
    unfold bind at 1. unfold lift. rewrite Hfail. reflexivity.
  - destruct (Hserved (Z.of_nat first) ltac:(lia))
      as (data & info & Hr & Hs & Hitems & Hinfo & Htotal).
    cbn [zonePages]. unfold bind at 1. unfold request at 1. rewrite Hr.
    unfold bind at 1. unfold lift, checked. rewrite Hs. cbn [negb].
    rewrite Hinfo, Htotal, geb_ofZ, Hitems.
    replace (Z.of_nat n <=? Z.of_nat first) with false
      by (symmetry; apply Z.leb_gt; lia).
    rewrite leb_ofZ.
    replace (Z.of_nat first + 1 <=? Z.of_nat n) with true
      by (symmetry; apply Z.leb_le; lia).
    unfold bind at 1. unfold wait, modify.
    replace (Z.of_nat first + 1) with (Z.of_nat (S first)) by lia.
    rewrite (IH (S first) fuel) by lia.
    rewrite <- !app_assoc. cbn [app].
    rewrite (pageNumbers_cons first (S len)), pageNumbers_cons.
    cbn [map pagedRequests]. reflexivity.
Qed.

End ZoneDiscoveryProperties.

(** X16.  When every page of the account's zones is served, [discoverZones]
    returns the zones of all pages in order, with their identifiers and
    their number, and no error; it requests each page once, in order, and
    pauses between two requests. *)
Theorem discoverZones_gathers_pages (api : ApiCall -> Reply Zone)
    (elapsedMs : num) (apiToken accountId : string)
    (zonesOf : Z -> list Zone) (n fuel : nat) :
  (1 <= n)%nat ->
  (n <= fuel)%nat ->
  (forall p, 1 <= p <= Z.of_nat n ->
             servesPage (api (zonesCall apiToken accountId p)) (zonesOf p)
               (Z.of_nat n)) ->
  let found := flat_map zonesOf (pageNumbers 1 n) in
  discoverZones api elapsedMs fuel apiToken accountId
  = (Some {| zones := found;
             zoneIds := map zoneIdentifier found;
             totalZones := Z.of_nat (List.length found);
             discoveryError := None;
             discoveryMs := elapsedMs |},
     pagedRequests (map (zonesCall apiToken accountId) (pageNumbers 1 n))).
Proof.
  intros Hn Hfuel Hserved found. unfold discoverZones.
  change 1 with (Z.of_nat 1).
  rewrite (zonePages_served api apiToken accountId zonesOf n Hserved n 1 fuel)
    by lia.
  reflexivity.
Qed.

(** X16 on an account whose zones come in two pages. *)
Lemma discoverZones_gathers_pages_witness :
  let found := flat_map sampleZonesOf (pageNumbers 1 2) in
  discoverZones twoZonePages n0 5 "tok" "acct"
  = (Some {| zones := found;
             zoneIds := map zoneIdentifier found;
             totalZones := Z.of_nat (List.length found);
             discoveryError := None;
             discoveryMs := n0 |},
     pagedRequests (map (zonesCall "tok" "acct") (pageNumbers 1 2))).
Proof.
  apply (discoverZones_gathers_pages twoZonePages n0 "tok" "acct"
           sampleZonesOf 2 5).
  - lia.
  - lia.
  - intros p Hp. assert (Hc : p = 1 \/ p = 2) by lia.
    destruct Hc as [-> | ->].
    + exists (pageOf 2 [zoneA]), (infoOf 2). repeat split.
    + exists (pageOf 2 [zoneB]), (infoOf 2). repeat split.
Defined.

(** X17.  When a page of the account's zones fails, by a rejected request, a
    status that is not 2xx or a body without [success], [discoverZones]
    returns no zone at all, not even those of the pages before, and the
    message of the failure; it requests no page after the failed one. *)
Theorem discoverZones_fails_as_a_whole (api : ApiCall -> Reply Zone)
    (elapsedMs : num) (apiToken accountId : string)
    (zonesOf : Z -> list Zone) (n k fuel : nat) (msg : string) :
  (1 <= k <= n)%nat ->
  (k <= fuel)%nat ->
  (forall p, 1 <= p < Z.of_nat k ->
             servesPage (api (zonesCall apiToken accountId p)) (zonesOf p)
               (Z.of_nat n)) ->
  checked (api (zonesCall apiToken accountId (Z.of_nat k))) = Throw msg ->
  discoverZones api elapsedMs fuel apiToken accountId
  = (Some {| zones := []; zoneIds := []; totalZones := 0;
             discoveryError := Some msg; discoveryMs := elapsedMs |},
     pagedRequests (map (zonesCall apiToken accountId) (pageNumbers 1 k))).
Proof.
  intros Hk Hfuel Hserved Hfail. unfold discoverZones.
  change 1 with (Z.of_nat 1).
  destruct k as [|k]; [lia|].
  rewrite (zonePages_failed api apiToken accountId zonesOf n (S k) msg
             ltac:(lia) Hserved Hfail k 1 fuel) by lia.
  reflexivity.
Qed.

(** X17 on an account whose second page of zones is refused. *)
Lemma discoverZones_fails_as_a_whole_witness :
  discoverZones brokenZonePages n0 5 "tok" "acct"
  = (Some {| zones := []; zoneIds := []; totalZones := 0;
             discoveryError :=
               Some "API request failed: 500 - upstream error"%string;
             discoveryMs := n0 |},
     pagedRequests (map (zonesCall "tok" "acct") (pageNumbers 1 2))).
Proof.
  apply (discoverZones_fails_as_a_whole brokenZonePages n0 "tok" "acct"
           sampleZonesOf 2 2 5).
  - lia.
  - lia.
  - intros p Hp. assert (Hc : p = 1) by lia. subst p.
    exists (pageOf 2 [zoneA]), (infoOf 2). repeat split.
  - reflexivity.
Defined.

Lemma split_nonempty (sep : ascii) (s : string) : split sep s <> [].
Proof.
  destruct s as [|c s]; cbn; [discriminate|].
  destruct (Ascii.eqb c sep); [discriminate|].
  destruct (split sep s); discriminate.
Qed.

Lemma filter_singleZone (env : Env) :
  filter nonEmpty (singleZone env) = singleZone env.
Proof.
  unfold singleZone. destruct (CLOUDFLARE_ZONE_ID env) as [z|]; [|reflexivity].
  destruct (nonEmpty z) eqn:E; [|reflexivity]. cbn. rewrite E. reflexivity.
Qed.

Lemma length_zero {A : Type} (l : list A) :
  (List.length l =? 0)%nat = true <-> l = [].
Proof. destruct l; cbn; split; intros H; try reflexivity; discriminate. Qed.

(** X12.  The zones of a check.  The tags configured in the environment
    are those that the configuration endpoint shows, blank entries
    dropped: none is empty, and those read from [CLOUDFLARE_ZONE_TAGS]
    carry no white space around them, while the endpoint shows one entry
    at least once that variable is defined.  When one tag at least is
    configured, [handleCheck] and the workflow go on with the configured
    tags and send no request.  When none is configured they discover the
    zones: with every page served they go on with the identifiers of all
    zones, in order, marked as discovered; when a page fails they go on
    without any zone, and the zones count as discovered only if the message
    of the failure is empty.  Whenever [handleDashboard] returns under a
    configured token and account, it goes on with the same tags and the
    same mark. *)
Theorem zones_of_a_check (api : ApiCall -> Reply Zone) (elapsedMs : num)
    (fuel : nat) (env : Env) (apiToken accountId : string) :
  let configured := configuredZoneTags env in
  let used := checkedZoneTags api elapsedMs fuel env apiToken accountId in
  configured = filter nonEmpty (displayedZoneTags env)
  /\ (forall z, In z configured -> z <> "")
  /\ (forall tags,
        CLOUDFLARE_ZONE_TAGS env = Some tags ->
        displayedZoneTags env <> []
        /\ (forall z, In z configured -> trim z = z))
  /\ (configured <> [] -> used = Some ((configured, false), []))
  /\ (configured = [] ->
      forall (zonesOf : Z -> list Zone) (n : nat),
        (1 <= n <= fuel)%nat ->
        (forall p, 1 <= p <= Z.of_nat n ->
                   servesPage (api (zonesCall apiToken accountId p))
                     (zonesOf p) (Z.of_nat n)) ->
        used
        = Some ((map zoneIdentifier (flat_map zonesOf (pageNumbers 1 n)),
                 true),
                pagedRequests
                  (map (zonesCall apiToken accountId) (pageNumbers 1 n))))
  /\ (configured = [] ->
      forall (zonesOf : Z -> list Zone) (n k : nat) (msg : string),
        (1 <= k <= n)%nat ->
        (k <= fuel)%nat ->
        (forall p, 1 <= p < Z.of_nat k ->
                   servesPage (api (zonesCall apiToken accountId p))
                     (zonesOf p) (Z.of_nat n)) ->
        checked (api (zonesCall apiToken accountId (Z.of_nat k)))
        = Throw msg ->
        used
        = Some (([], (msg =? "")%string),
                pagedRequests
                  (map (zonesCall apiToken accountId) (pageNumbers 1 k))))
  /\ (CLOUDFLARE_API_TOKEN_ANALYTICS_READ_ONLY env = Some apiToken ->
      apiToken <> "" ->
      CLOUDFLARE_ACCOUNT_ID env = Some accountId ->
      accountId <> "" ->
      forall tags discovered events,
        dashboardZoneTags api elapsedMs fuel env
        = Some ((tags, discovered), events) ->
        exists events', used = Some ((tags, discovered), events')).
Proof.
  intros configured used.
  assert (Hfilter : configured = filter nonEmpty (displayedZoneTags env)).
  { unfold configured, configuredZoneTags, displayedZoneTags.
    destruct (CLOUDFLARE_ZONE_TAGS env); [reflexivity|].
    symmetry. apply filter_singleZone. }
  split; [exact Hfilter|]. split; [|split; [|split; [|split; [|split]]]].
  - intros z Hz. rewrite Hfilter in Hz. apply filter_In in Hz as [_ Hz].
    unfold nonEmpty in Hz. apply negb_true_iff in Hz.
    apply String.eqb_neq, Hz.
  - intros tags Ht.
    unfold configured, configuredZoneTags, displayedZoneTags. rewrite Ht.
    split.
    + intros H. apply map_eq_nil in H. apply (split_nonempty _ _ H).
    + intros z Hz. apply filter_In in Hz as [Hz _].
      apply in_map_iff in Hz as (piece & <- & _). apply trim_idem.
  - intros Hne. unfold used, checkedZoneTags. fold configured.
    destruct (List.length configured =? 0)%nat eqn:E; [|reflexivity].
    apply length_zero in E. contradiction.
  - intros Hnone zonesOf n Hn Hserved.
    unfold used, checkedZoneTags. fold configured.
    rewrite (proj2 (length_zero configured) Hnone).
    unfold discoverZones. change 1 with (Z.of_nat 1).
    rewrite (zonePages_served api apiToken accountId zonesOf n Hserved n 1
               fuel) by lia.
    reflexivity.
  - intros Hnone zonesOf n k msg Hk Hfuel Hserved Hfail.
    unfold used, checkedZoneTags. fold configured.
    rewrite (proj2 (length_zero configured) Hnone).
    unfold discoverZones. change 1 with (Z.of_nat 1).
    destruct k as [|k]; [lia|].
    rewrite (zonePages_failed api apiToken accountId zonesOf n (S k) msg
               ltac:(lia) Hserved Hfail k 1 fuel) by lia.
    cbn [discoveryError zoneIds given]. unfold nonEmpty. rewrite Hnone.
    destruct (msg =? "")%string; reflexivity.
  - intros Htok Htne Hacc Hane tags discovered events.
    unfold used, dashboardZoneTags, checkedZoneTags. fold configured.
    rewrite Htok, Hacc. unfold nonEmpty at 1 2.
    destruct (String.eqb_spec apiToken ""); [contradiction|].
    destruct (String.eqb_spec accountId ""); [contradiction|].
    cbn [negb andb].
    destruct (discoverZones api elapsedMs fuel apiToken accountId)
      as [[d|] ev].
    + destruct (given (discoveryError d));
        destruct (List.length configured =? 0)%nat; cbn [negb];
        intros H; inversion H; subst; eexists; reflexivity.
    + discriminate.
Qed.

(** X12 on a Worker without zones of its own, whose account has two pages
    of zones, and on a Worker with two zones configured. *)
Lemma zones_of_a_check_witness :
  checkedZoneTags twoZonePages n0 5 guardedEnv "token" "acct"
  = Some ((["0123456789abcdef0123456789abcdef"%string;
            "fedcba9876543210fedcba9876543210"%string], true),
          pagedRequests (map (zonesCall "token" "acct") (pageNumbers 1 2)))
  /\ checkedZoneTags twoZonePages n0 5 taggedEnv "token" "acct"
     = Some ((["z1"%string; "z2"%string], false), []).
Proof.
  split.
  - destruct (zones_of_a_check twoZonePages n0 5 guardedEnv "token" "acct")
      as (_ & _ & _ & _ & H & _).
    apply (H eq_refl sampleZonesOf 2%nat); [lia|].
    intros p Hp. assert (Hc : p = 1 \/ p = 2) by lia.
    destruct Hc as [-> | ->].
    + exists (pageOf 2 [zoneA]), (infoOf 2). repeat split.
    + exists (pageOf 2 [zoneB]), (infoOf 2). repeat split.
  - destruct (zones_of_a_check twoZonePages n0 5 taggedEnv "token" "acct")
      as (_ & _ & _ & H & _).
    apply H. vm_compute. discriminate.
Defined.

Lemma countSeats_bounds (users : list ZeroTrustUser) :
  let '(accessSeats, gatewaySeats, activeSeats) := countSeats users in
  0 <= accessSeats <= activeSeats
  /\ 0 <= gatewaySeats <= activeSeats
  /\ activeSeats <= accessSeats + gatewaySeats.
Proof.
  unfold countSeats.
  assert (H : forall a g t,
              0 <= a <= t /\ 0 <= g <= t /\ t <= a + g ->
              let '(a', g', t') :=
                fold_left
                  (fun '(accessSeats, gatewaySeats, activeSeats) user =>
                     ((if access_seat user then accessSeats + 1
                       else accessSeats),
                      (if gateway_seat user then gatewaySeats + 1
                       else gatewaySeats),
                      (if access_seat user || gateway_seat user
                       then activeSeats + 1 else activeSeats)))
                  users (a, g, t) in
              0 <= a' <= t' /\ 0 <= g' <= t' /\ t' <= a' + g').
  { induction users as [|u users IH]; intros a g t Hinv; [exact Hinv|].
    cbn [fold_left]. apply IH.
    destruct (access_seat u), (gateway_seat u); cbn [orb]; lia. }
  apply H. lia.
Qed.

Section SeatCountProperties.

Variable api : ApiCall -> Reply ZeroTrustUser.
Variable elapsedMs : num.
Variables apiToken accountId : string.

Abbreviation ucall := (usersCall apiToken accountId).

Lemma seatsBody_counts (events events' : list ApiEvent)
    (seats : ZeroTrustSeats) :
  seatsBody api elapsedMs apiToken accountId events = (Ok (Some seats), events') ->
  exists users,
    (accessSeats seats, gatewaySeats seats, activeSeats seats)
    = countSeats users.
Proof.
  unfold seatsBody. unfold bind at 1. unfold request at 1.
  unfold bind at 1. unfold lift.
  destruct (checked (api (ucall 1))) as [data|msg]; [|discriminate].
  destruct (match result_info data with
            | Some info =>
                if (total_pages info >? ofZ 1)%num
                then pagesFromTwo (total_pages info) else Some []
            | None => Some []
            end) as [pages|]; [|discriminate].
  unfold bind at 1.
  destruct (addUserPages api apiToken accountId (apiResult data) pages _)
    as [[users|msg] ev]; [|discriminate].
  destruct (countSeats users) as [[a g] t] eqn:Ec.
  unfold ret. intros H. inversion H; subst. cbn.
  exists users. symmetry. exact Ec.
Qed.

Lemma seatsBody_none (events events' : list ApiEvent) :
  seatsBody api elapsedMs apiToken accountId events = (Ok None, events') ->
  exists data info,
    api (ucall 1) = Parsed data
    /\ result_info data = Some info /\ total_pages info = PInf.
Proof.
  unfold seatsBody. unfold bind at 1. unfold request at 1.
  unfold bind at 1. unfold lift.
  destruct (api (ucall 1)) as [msg|st tx|data] eqn:Ea; cbn [checked];
    try discriminate.
  destruct (success data); cbn [negb]; [|discriminate].
  assert (Hsome : forall pages,
            bind (addUserPages api apiToken accountId (apiResult data) pages)
              (fun allUsers =>
                 let '(accessSeats, gatewaySeats, activeSeats) :=
                   countSeats allUsers in
                 ret (Some {| totalUsers :=
                                match result_info data with
                                | Some info => total_count info
                                | None =>
                                    ofZ (Z.of_nat (List.length allUsers))
                                end;
                              accessSeats := accessSeats;
                              gatewaySeats := gatewaySeats;
                              activeSeats := activeSeats;
                              seatsError := None;
                              seatsMs := elapsedMs |}))
              (events ++ [Fetched (ucall 1)])%list
            <> (Ok None, events')).
  { intros pages. unfold bind.
    destruct (addUserPages _ _ _ _ _ _) as [[users|m] ev]; [|discriminate].
    destruct (countSeats users) as [[a g] t]. discriminate. }
  destruct (result_info data) as [info|] eqn:Ei;
    [|intros H; destruct (Hsome _ H)].
  destruct (total_pages info >? ofZ 1)%num;
    [|intros H; destruct (Hsome _ H)].
  destruct (total_pages info) as [q| | |] eqn:Et; cbn [pagesFromTwo];
    try (intros H; destruct (Hsome _ H)).
  intros _. exists data, info. auto.
Qed.

Lemma addUserPages_skips (pages : list Z) :
  (forall p msg, In p pages -> api (ucall p) <> Unreachable msg) ->
  forall acc events,
    addUserPages api apiToken accountId acc pages events
    = (Ok (acc ++ flat_map (fun p => usersAdded (api (ucall p))) pages)%list,
       (events ++ pausedRequests (map ucall pages))%list).
Proof.
  induction pages as [|p pages IH]; intros Hreach acc events.
  - cbn. rewrite !app_nil_r. reflexivity.
  - cbn [addUserPages]. unfold bind at 1. unfold addUserPage.
    unfold bind at 1. unfold request at 1.
    assert (Hp : forall msg, api (ucall p) <> Unreachable msg)
      by (intros msg; apply Hreach; left; reflexivity).
    assert (Hstep :
      forall ev,
        bind
          match api (ucall p) with
          | Unreachable msg => lift (Throw msg)
          | Refused _ _ => ret acc
          | Parsed pageData =>
              if success pageData
              then ret (acc ++ apiResult pageData)%list else ret acc
          end
          (fun allUsers => bind (wait 50) (fun _ => ret allUsers)) ev
        = (Ok (acc ++ usersAdded (api (ucall p)))%list,
           (ev ++ [Waited 50])%list)).
    { intros ev. destruct (api (ucall p)) as [msg|st tx|pageData].
      - exfalso. apply (Hp msg). reflexivity.
      - cbn. rewrite app_nil_r. reflexivity.
      - cbn. destruct (success pageData); cbn; rewrite ?app_nil_r;
          reflexivity. }
    rewrite Hstep.
    rewrite IH by (intros q msg Hq; apply Hreach; right; exact Hq).
    cbn [flat_map map pausedRequests]. rewrite <- !app_assoc. reflexivity.
Qed.

End SeatCountProperties.

(** X18.  The seat counts of [getZeroTrustSeats] are consistent: the active seats
    are at least the access seats, at least the gateway seats and at most
    their sum.  The function returns unless the first page reports
    infinitely many pages. *)
Theorem seat_counts_consistent (api : ApiCall -> Reply ZeroTrustUser)
    (elapsedMs : num) (apiToken accountId : string) :
  (forall seats,
     fst (getZeroTrustSeats api elapsedMs apiToken accountId) = Some seats ->
     0 <= accessSeats seats <= activeSeats seats
     /\ 0 <= gatewaySeats seats <= activeSeats seats
     /\ activeSeats seats <= accessSeats seats + gatewaySeats seats)
  /\ (fst (getZeroTrustSeats api elapsedMs apiToken accountId) = None ->
      exists data info,
        api (usersCall apiToken accountId 1) = Parsed data
        /\ result_info data = Some info /\ total_pages info = PInf).
Proof.
  split.
  - intros seats. unfold getZeroTrustSeats.
    destruct (seatsBody api elapsedMs apiToken accountId [])
      as [[[s|]|msg] ev] eqn:E; cbn [fst]; intros H; inversion H; subst.
    + destruct (seatsBody_counts api elapsedMs apiToken accountId _ _ _ E)
        as [users Hu].
      pose proof (countSeats_bounds users) as Hb. rewrite <- Hu in Hb.
      exact Hb.
    + cbn. lia.
  - unfold getZeroTrustSeats.
    destruct (seatsBody api elapsedMs apiToken accountId [])
      as [[[s|]|msg] ev] eqn:E; cbn [fst]; try discriminate.
    intros _. revert E. apply seatsBody_none.
Qed.

(** X18 on an account whose second page of users is refused. *)
Lemma seat_counts_consistent_witness :
  exists seats,
    fst (getZeroTrustSeats brokenUserPages n0 "tok" "acct") = Some seats
    /\ 0 <= accessSeats seats <= activeSeats seats
    /\ 0 <= gatewaySeats seats <= activeSeats seats
    /\ activeSeats seats <= accessSeats seats + gatewaySeats seats.
Proof.
  eexists. split; [vm_compute; reflexivity|].
  apply (proj1 (seat_counts_consistent brokenUserPages n0 "tok" "acct")).
  vm_compute. reflexivity.
Defined.

(** X19.  After a first page that is served, a later page that is refused or
    whose body is without [success] is passed over without an error: the
    seats are counted over the users of the first page and of the later
    pages that were served, while [totalUsers] is the total that the first
    page reports.  Every page is requested once, each later one followed by
    a pause. *)
Theorem seats_pass_over_failed_pages (api : ApiCall -> Reply ZeroTrustUser)
    (elapsedMs : num) (apiToken accountId : string)
    (data : CloudflareApiResponse ZeroTrustUser) (info : ResultInfo)
    (n : nat) :
  api (usersCall apiToken accountId 1) = Parsed data ->
  success data = true ->
  result_info data = Some info ->
  total_pages info = ofZ (Z.of_nat n) ->
  (forall p msg, 2 <= p <= Z.of_nat n ->
                 api (usersCall apiToken accountId p) <> Unreachable msg) ->
  let later := pageNumbers 2 (n - 1) in
  let users :=
    (apiResult data
     ++ flat_map (fun p => usersAdded (api (usersCall apiToken accountId p)))
          later)%list in
  exists seats,
    getZeroTrustSeats api elapsedMs apiToken accountId
    = (Some seats,
       Fetched (usersCall apiToken accountId 1)
       :: pausedRequests (map (usersCall apiToken accountId) later))
    /\ (accessSeats seats, gatewaySeats seats, activeSeats seats)
       = countSeats users
    /\ totalUsers seats = total_count info
    /\ seatsError seats = None.
Proof.
  intros Hfirst Hs Hinfo Htotal Hreach later users.
  unfold getZeroTrustSeats, seatsBody.
  unfold bind at 1. unfold request at 1. unfold bind at 1. unfold lift.
  rewrite Hfirst. cbn [checked]. rewrite Hs. cbn [negb]. rewrite Hinfo, Htotal.
  assert (Hpages : (if (ofZ (Z.of_nat n) >? ofZ 1)%num
                    then pagesFromTwo (ofZ (Z.of_nat n)) else Some [])
                   = Some later).
  { subst later. unfold pageNumbers.
    destruct (ofZ (Z.of_nat n) >? ofZ 1)%num eqn:E.
    - unfold ofZ, pagesFromTwo. rewrite Qfloor_Z, Nat2Z.id. reflexivity.
    - unfold gtb, ofZ in E. cbn [ltb] in E. apply Qltb_false in E.
      rewrite <- Zle_Qle in E.
      replace (n - 1)%nat with O by lia. reflexivity. }
  rewrite Hpages. unfold bind at 1.
  rewrite (addUserPages_skips api apiToken accountId later).
  - fold users. destruct (countSeats users) as [[a g] t] eqn:Ec.
    eexists. split; [reflexivity|]. cbn. auto.
  - intros p msg Hp. apply Hreach. subst later. unfold pageNumbers in Hp.
    apply in_map_iff in Hp as (i & <- & Hi). apply in_seq in Hi. lia.
Qed.

(** X19 on an account whose second page of users is refused. *)
Lemma seats_pass_over_failed_pages_witness :
  let later := pageNumbers 2 (2 - 1) in
  let users :=
    (apiResult (pageOf 2 [userA; userB])
     ++ flat_map (fun p => usersAdded (brokenUserPages (usersCall "tok" "acct" p)))
          later)%list in
  exists seats,
    getZeroTrustSeats brokenUserPages n0 "tok" "acct"
    = (Some seats,
       Fetched (usersCall "tok" "acct" 1)
       :: pausedRequests (map (usersCall "tok" "acct") later))
    /\ (accessSeats seats, gatewaySeats seats, activeSeats seats)
       = countSeats users
    /\ totalUsers seats = total_count (infoOf 2)
    /\ seatsError seats = None.
Proof.
  apply (seats_pass_over_failed_pages brokenUserPages n0 "tok" "acct"
           (pageOf 2 [userA; userB]) (infoOf 2) 2).
  - reflexivity.
  - reflexivity.
  - reflexivity.
  - reflexivity.
  - intros p msg Hp. assert (Hc : p = 2) by lia. subst p. discriminate.
Defined.

(* ================================================================== *)
(** * Notifications *)
(* ================================================================== *)

Lemma notEmpty_filter {A : Type} (f : A -> bool) (l : list A) :
  notEmpty (filter f l) = existsb f l.
Proof.
  induction l as [|x l IH]; [reflexivity|].
  cbn. destruct (f x); [reflexivity|exact IH].
Qed.

Lemma notEmpty_true {A : Type} (l : list A) : notEmpty l = true <-> l <> [].
Proof.
  destruct l; cbn; split; intros H; try reflexivity; try discriminate.
  contradiction.
Qed.

(** A progress bar has an end for every percentage but minus infinity. *)
Lemma createProgressBar_returns (percent : num) :
  percent <> NInf -> exists bar, createProgressBar percent = Some bar.
Proof.
  intros H. unfold createProgressBar, progressSquares.
  destruct percent as [q| | |]; try contradiction.
  - assert (Hd : (Fin q / ofZ 10)%num = Fin (Qred (q / inject_Z 10)))
      by reflexivity.
    rewrite Hd. cbn [round]. rewrite min_ofZ, turns_ofZ, turns_rest.
    eexists. reflexivity.
  - eexists. vm_compute. reflexivity.
  - eexists. vm_compute. reflexivity.
Qed.

Lemma usageBars_return (results : list ProductUsageResult) :
  Forall (fun r => percentUsed r <> NInf) results ->
  exists bars, usageBars results = Some bars.
Proof.
  induction 1 as [|r results Hr _ IH]; [eexists; reflexivity|].
  destruct (createProgressBar_returns _ Hr) as [bar Hbar].
  destruct IH as [bars Hbars].
  cbn [usageBars]. rewrite Hbar, Hbars. eexists. reflexivity.
Qed.

Lemma builders_return (summary : UsageSummary) (options : NotificationOptions) :
  drawable summary ->
  buildAlertEmbed (alerts summary) = Some (AlertEmbed (alerts summary))
  /\ buildWarningEmbed (warnings summary)
     = Some (WarningEmbed (warnings summary))
  /\ buildSummaryEmbed summary options = Some (SummaryEmbed summary options).
Proof.
  unfold drawable. intros H.
  pose proof (proj1 (Forall_app _ _ _) H) as [Ha Hw].
  assert (Ht : Forall (fun r => percentUsed r <> NInf)
                 (firstn 3 (alerts summary ++ warnings summary))).
  { apply Forall_forall. intros r Hr. apply In_firstn in Hr.
    rewrite Forall_forall in H. apply H, Hr. }
  unfold buildAlertEmbed, buildWarningEmbed, buildSummaryEmbed.
  destruct (usageBars_return _ Ha) as [ba ->].
  destruct (usageBars_return _ Hw) as [bw ->].
  destruct (usageBars_return _ Ht) as [bt ->].
  repeat split.
Qed.

Section DiscordProperties.

Variable post : string -> DiscordWebhookPayload -> WebhookReply.
Variable elapsedMs : num.

(** What [sendNotification] posts, by cases on what there is to report. *)
Lemma sendNotification_cases (webhookUrl : string) (summary : UsageSummary)
    (options : NotificationOptions) :
  drawable summary ->
  exists out,
    sendNotification post elapsedMs webhookUrl summary options = Some out
    /\ if reportable summary || orElse (alwaysNotify options) false then
         exists front payload,
           snd out = [(webhookUrl, payload)]
           /\ embeds payload = (front ++ [SummaryEmbed summary options])%list
           /\ (List.length front <= 3)%nat
           /\ (content payload <> None <->
               alerts summary <> []
               /\ mentionOnCritical options <> Some false)
           /\ (notifySuccess (fst out) = true <->
               exists status, post webhookUrl payload = WebhookOk status)
           /\ (notifySuccess (fst out) = false ->
               notifyError (fst out) <> None)
       else
         snd out = [] /\ notifySuccess (fst out) = true
         /\ notifyError (fst out) = None.
Proof.
  intros Hd.
  destruct (builders_return summary options Hd) as (Hba & Hbw & Hbs).
  unfold sendNotification, reportable. rewrite Hba, Hbw, Hbs.
  rewrite <- (notEmpty_filter significant (errors summary)).
  set (sig := filter significant (errors summary)).
  unfold pushWhen, buildErrorEmbed. cbn [option_map].
  assert (Hmention :
    (if notEmpty (alerts summary)
        && match mentionOnCritical options with
           | Some false => false
           | _ => true
           end
     then Some "@here :rotating_light: **Critical usage alert!**"%string
     else None) <> None
    <-> alerts summary <> [] /\ mentionOnCritical options <> Some false).
  { rewrite <- notEmpty_true.
    destruct (notEmpty (alerts summary)); cbn [andb].
    - destruct (mentionOnCritical options) as [[|]|].
      + split; [intros _; split; [reflexivity|discriminate]|discriminate].
      + split; [intros H; contradiction|intros [_ H]; contradiction].
      + split; [intros _; split; [reflexivity|discriminate]|discriminate].
    - split; [intros H; contradiction|intros [H _]; discriminate]. }
  set (front :=
         ((if notEmpty (alerts summary)
           then [AlertEmbed (alerts summary)] else [])
          ++ (if notEmpty (warnings summary)
              then [WarningEmbed (warnings summary)] else [])
          ++ (if notEmpty sig then [ErrorEmbed sig] else []))%list).
  assert (Hlen : (List.length front <= 3)%nat).
  { subst front. destruct (notEmpty (alerts summary)),
      (notEmpty (warnings summary)), (notEmpty sig); cbn; lia. }
  assert (Hne : notEmpty front
                = notEmpty (alerts summary) || notEmpty (warnings summary)
                  || notEmpty sig).
  { subst front. destruct (notEmpty (alerts summary)),
      (notEmpty (warnings summary)), (notEmpty sig); reflexivity. }
  rewrite <- Hne.
  assert (Hpushed :
    forall K : list DiscordEmbed
               -> option (NotificationResult
                          * list (string * DiscordWebhookPayload)),
      match
        (if notEmpty (alerts summary)
         then Some ([] ++ [AlertEmbed (alerts summary)])%list else Some [])
      with
      | None => None
      | Some embeds =>
          match
            (if notEmpty (warnings summary)
             then Some (embeds ++ [WarningEmbed (warnings summary)])%list
             else Some embeds)
          with
          | None => None
          | Some embeds0 =>
              match
                (if notEmpty sig
                 then Some (embeds0 ++ [ErrorEmbed sig])%list
                 else Some embeds0)
              with
              | None => None
              | Some embeds1 => K embeds1
              end
          end
      end = K front).
  { intros K. subst front. destruct (notEmpty (alerts summary)),
      (notEmpty (warnings summary)), (notEmpty sig); reflexivity. }
  rewrite Hpushed. clear Hpushed.
  destruct (notEmpty front || orElse (alwaysNotify options) false) eqn:Ego.
  - assert (Hskip : negb (notEmpty front)
                    && negb (orElse (alwaysNotify options) false) = false).
    { rewrite <- negb_orb, Ego. reflexivity. }
    rewrite Hskip.
    assert (Hcap : (10 <? List.length (front ++ [SummaryEmbed summary options]))%nat
                   = false).
    { apply Nat.ltb_ge. rewrite length_app. cbn. lia. }
    rewrite Hcap.
    match goal with
    | |- context [post webhookUrl ?p] => set (payload := p)
    end.
    eexists. split; [reflexivity|].
    exists front, payload. cbn [fst snd].
    split; [reflexivity|]. split; [reflexivity|]. split; [exact Hlen|].
    split; [exact Hmention|].
    destruct (post webhookUrl payload) as [status|status text|msg] eqn:Ep;
      cbn [notifySuccess notifyError].
    + split; [split; [intros _; exists status; reflexivity|reflexivity]|].
      discriminate.
    + split; [split; [discriminate|intros [s Hs]; discriminate]|].
      discriminate.
    + split; [split; [discriminate|intros [s Hs]; discriminate]|].
      discriminate.
  - assert (Hskip : negb (notEmpty front)
                    && negb (orElse (alwaysNotify options) false) = true).
    { rewrite <- negb_orb, Ego. reflexivity. }
    rewrite Hskip. eexists. split; [reflexivity|]. cbn. auto.
Qed.

End DiscordProperties.

(** The alerts and warnings of a summary made under finite thresholds have
    percentages that reach a threshold, so their bars have an end. *)
Lemma categorized_drawable (now : Date) (results : list ProductUsageResult)
    (qa qw : Q) :
  drawable (categorizeUsage now results (Fin qa) (Fin qw)).
Proof.
  unfold drawable, categorizeUsage. cbn [alerts warnings].
  match goal with
  | |- context [fold_left (pushResult ?a ?w) results ?s] =>
      destruct (fold_pushResult a w results s) as (_ & Ha & Hw & _)
  end.
  cbn zeta in Ha, Hw. rewrite Ha, Hw. cbn [alerts warnings app].
  assert (Hin : forall b r,
            b <> InHealthy -> b <> InErrors ->
            In r (sortBy byPercentUsedDesc
                    (inBucket (Fin qa) (Fin qw) b results)) ->
            percentUsed r <> NInf).
  { intros b r Hh He Hr.
    apply (Permutation_in _ (Permutation_sym (sortBy_perm _))) in Hr.
    apply filter_In in Hr as [_ Hb]. unfold bucketOf in Hb.
    intros E. rewrite E in Hb.
    destruct (hasError r); [destruct b; try discriminate; congruence|].
    cbn in Hb. destruct b; try discriminate; congruence. }
  apply Forall_app. split; apply Forall_forall; intros r Hr.
  - apply (Hin InAlerts r); [discriminate|discriminate|exact Hr].
  - apply (Hin InWarnings r); [discriminate|discriminate|exact Hr].
Qed.

(** X20.  For a summary whose alerts and warnings have percentages other
    than minus infinity, [sendNotification] returns.  It posts nothing, and
    reports success, when there is neither an alert, a warning nor a
    significant error and [alwaysNotify] is not set.  Otherwise it posts one
    payload, of four embeds or fewer: the ten-embed limit never cuts it, and
    the summary comes last.  The payload mentions [@here] exactly when there
    is an alert and [mentionOnCritical] is not [false]; the result reports
    success exactly when the webhook answers with a 2xx status, and an error
    otherwise. *)
Theorem discord_notification_payload
    (post : string -> DiscordWebhookPayload -> WebhookReply)
    (elapsedMs : num) (webhookUrl : string) (summary : UsageSummary)
    (options : NotificationOptions) :
  drawable summary ->
  exists out,
    sendNotification post elapsedMs webhookUrl summary options = Some out
    /\ if reportable summary || orElse (alwaysNotify options) false then
         exists front payload,
           snd out = [(webhookUrl, payload)]
           /\ embeds payload = (front ++ [SummaryEmbed summary options])%list
           /\ (List.length front <= 3)%nat
           /\ (content payload <> None <->
               alerts summary <> []
               /\ mentionOnCritical options <> Some false)
           /\ (notifySuccess (fst out) = true <->
               exists status, post webhookUrl payload = WebhookOk status)
           /\ (notifySuccess (fst out) = false ->
               notifyError (fst out) <> None)
       else
         snd out = [] /\ notifySuccess (fst out) = true
         /\ notifyError (fst out) = None.
Proof. apply sendNotification_cases. Qed.

(** X20 on the summary of one product at 90 percent, sent to a webhook
    that answers 204. *)
Lemma discord_notification_payload_witness :
  exists out,
    sendNotification acceptingWebhook n0 "https://discord.com/api/webhooks/1/x"
      alertSummary quietOptions
    = Some out
    /\ exists front payload,
         snd out = [("https://discord.com/api/webhooks/1/x"%string, payload)]
         /\ embeds payload
            = (front ++ [SummaryEmbed alertSummary quietOptions])%list
         /\ (List.length front <= 3)%nat
         /\ (content payload <> None <->
             alerts alertSummary <> []
             /\ mentionOnCritical quietOptions <> Some false)
         /\ (notifySuccess (fst out) = true <->
             exists status,
               acceptingWebhook "https://discord.com/api/webhooks/1/x" payload
               = WebhookOk status)
         /\ (notifySuccess (fst out) = false ->
             notifyError (fst out) <> None).
Proof.
  apply (discord_notification_payload acceptingWebhook n0
           "https://discord.com/api/webhooks/1/x" alertSummary quietOptions).
  repeat constructor. discriminate.
Defined.

(** X21.  The notification step of the workflow, given the summary that
    the step before it makes under finite thresholds, always returns.  It
    posts nothing when no webhook is configured, and nothing when the
    summary holds neither an alert nor a warning and [forceNotify] is not
    set, whatever query errors the summary holds.  With a webhook and an
    alert, a warning or [forceNotify], it posts one payload to the webhook,
    and reports it sent exactly when the webhook answers with a 2xx
    status. *)
Theorem workflow_notification_rule
    (post : string -> DiscordWebhookPayload -> WebhookReply)
    (elapsedMs : num) (env : Env) (params : WorkflowParams) (now : Date)
    (usageResults : list ProductUsageResult) (qa qw : Q) :
  let summary := categorizeUsage now usageResults (Fin qa) (Fin qw) in
  let wanted :=
    notEmpty (alerts summary) || notEmpty (warnings summary)
    || orElse (forceNotify params) false in
  exists out,
    sendNotificationStep post elapsedMs env params summary = Some out
    /\ (given (DISCORD_WEBHOOK_URL env) = false ->
        out = ((false, Some "No webhook URL configured"%string), []))
    /\ (wanted = false -> snd out = [] /\ fst (fst out) = false)
    /\ (forall webhookUrl,
          DISCORD_WEBHOOK_URL env = Some webhookUrl ->
          webhookUrl <> ""%string ->
          wanted = true ->
          exists payload,
            snd out = [(webhookUrl, payload)]
            /\ (fst (fst out) = true <->
                exists status, post webhookUrl payload = WebhookOk status)).
Proof.
  intros summary wanted.
  pose proof (categorized_drawable now usageResults qa qw) as Hd.
  fold summary in Hd. clearbody summary.
  unfold sendNotificationStep, given.
  destruct (DISCORD_WEBHOOK_URL env) as [url|].
  - unfold nonEmpty. destruct (String.eqb_spec url "") as [->|Hne];
      cbn [negb].
    + eexists. split; [reflexivity|]. split; [reflexivity|].
      split; [destruct wanted; [discriminate|auto]|].
      intros u Hu Hn. inversion Hu; subst. contradiction.
    + fold wanted. destruct wanted eqn:Ew; cbn [negb].
      * unfold sendDiscordNotification.
        match goal with
        | |- context [sendNotification post elapsedMs url summary ?o] =>
            destruct (sendNotification_cases post elapsedMs url summary o Hd)
              as (out & Hout & Hc); set (options := o) in *
        end.
        rewrite Hout. cbn [option_map].
        assert (Hgo : reportable summary
                      || orElse (alwaysNotify options) false = true).
        { subst options. cbn [alwaysNotify]. unfold reportable.
          subst wanted.
          apply orb_true_iff in Ew as [Ew|Ew]; [|rewrite Ew; apply orb_true_r].
          rewrite Ew. reflexivity. }
        rewrite Hgo in Hc.
        destruct Hc as (front & payload & Hposted & _ & _ & _ & Hok & _).
        destruct out as [result posted]. cbn [fst snd] in *.
        eexists. split; [reflexivity|]. cbn [fst snd].
        split; [discriminate|]. split; [discriminate|].
        intros u Hu _ _. inversion Hu; subst u.
        exists payload. split; [exact Hposted|exact Hok].
      * eexists. split; [reflexivity|]. split; [discriminate|].
        split; [auto|]. intros u _ _ H. discriminate.
  - eexists. split; [reflexivity|]. split; [reflexivity|].
    split; [destruct wanted; [discriminate|auto]|].
    intros u H. discriminate.
Qed.

(** X21 on a Worker with a webhook and a summary that holds an alert. *)
Lemma workflow_notification_rule_witness :
  exists out payload,
    sendNotificationStep acceptingWebhook n0 guardedEnv scheduledParams
      alertSummary
    = Some out
    /\ snd out = [("https://discord.com/api/webhooks/1/x"%string, payload)]
    /\ (fst (fst out) = true <->
        exists status,
          acceptingWebhook "https://discord.com/api/webhooks/1/x" payload
          = WebhookOk status).
Proof.
  destruct (workflow_notification_rule acceptingWebhook n0 guardedEnv
              scheduledParams march2024 [sampleRecord] (inject_Z 90)
              (inject_Z 75))
    as (out & Hout & _ & _ & Hposted).
  destruct (Hposted "https://discord.com/api/webhooks/1/x"%string)
    as (payload & Hp & Hok).
  - reflexivity.
  - discriminate.
  - vm_compute. reflexivity.
  - exists out, payload. split; [exact Hout|]. split; [exact Hp|exact Hok].
Defined.

(* ================================================================== *)
(** * Products by category *)
(* ================================================================== *)

Lemma sameCategory_eq (a b : ProductCategory) :
  sameCategory a b = true <-> a = b.
Proof. destruct a, b; cbn; split; intros H; congruence. Qed.

Lemma sameCategory_refl (a : ProductCategory) : sameCategory a a = true.
Proof. destruct a; reflexivity. Qed.

Lemma sameCategory_trans (a b c : ProductCategory) :
  sameCategory a b = true -> sameCategory a c = sameCategory b c.
Proof. intros H. apply sameCategory_eq in H. subst. reflexivity. Qed.

Lemma groupOf_pushTo (c c' : ProductCategory) (p : ProductRuntime)
    (grouped : list (ProductCategory * list ProductRuntime)) :
  groupOf c (pushTo c' p grouped)
  = if sameCategory c' c
    then Some (orElse (groupOf c grouped) [] ++ [p])%list
    else groupOf c grouped.
Proof.
  induction grouped as [|[k ps] rest IH]; cbn [pushTo groupOf].
  - destruct (sameCategory c' c); reflexivity.
  - destruct (sameCategory k c') eqn:Ek; cbn [groupOf].
    + rewrite <- (sameCategory_trans k c' c Ek).
      destruct (sameCategory k c); reflexivity.
    + destruct (sameCategory k c) eqn:Ekc.
      * destruct (sameCategory c' c) eqn:Ec; [|reflexivity].
        apply sameCategory_eq in Ekc, Ec. subst.
        rewrite sameCategory_refl in Ek. discriminate.
      * exact IH.
Qed.

Lemma keys_pushTo (c : ProductCategory) (p : ProductRuntime)
    (grouped : list (ProductCategory * list ProductRuntime)) :
  map fst (pushTo c p grouped)
  = if existsb (fun k => sameCategory k c) (map fst grouped)
    then map fst grouped else (map fst grouped ++ [c])%list.
Proof.
  induction grouped as [|[k ps] rest IH]; [reflexivity|].
  cbn [pushTo map fst existsb].
  destruct (sameCategory k c); [reflexivity|].
  cbn [map fst orb]. rewrite IH.
  destruct (existsb _ (map fst rest)); reflexivity.
Qed.

Lemma fold_pushTo (products : list ProductRuntime) :
  forall grouped,
    NoDup (map fst grouped) ->
    (forall c, groupOf c grouped <> Some []) ->
    let result :=
      fold_left (fun g p => pushTo (category (definition p)) p g)
        products grouped in
    NoDup (map fst result)
    /\ forall c,
         groupOf c result
         = match groupOf c grouped, inCategory c products with
           | None, [] => None
           | g, l => Some (orElse g [] ++ l)%list
           end.
Proof.
  induction products as [|p products IH]; intros grouped Hnd Hne.
  - cbn. split; [exact Hnd|]. intros c.
    destruct (groupOf c grouped) as [g|]; [|reflexivity].
    rewrite app_nil_r. reflexivity.
  - cbn [fold_left].
    assert (Hnd' : NoDup (map fst (pushTo (category (definition p)) p grouped))).
    { rewrite keys_pushTo.
      destruct (existsb _ (map fst grouped)) eqn:E; [exact Hnd|].
      apply NoDup_app; [exact Hnd|repeat constructor; intros []|].
      intros k Hk [Ek|[]]. subst k.
      assert (existsb (fun k' => sameCategory k' (category (definition p)))
                (map fst grouped) = true).
      { apply existsb_exists. exists (category (definition p)).
        split; [exact Hk|apply sameCategory_refl]. }
      congruence. }
    assert (Hne' : forall c,
              groupOf c (pushTo (category (definition p)) p grouped)
              <> Some []).
    { intros c. rewrite groupOf_pushTo.
      destruct (sameCategory _ c); [|apply Hne].
      intros H. inversion H as [H0].
      destruct (orElse (groupOf c grouped) []); discriminate. }
    destruct (IH _ Hnd' Hne') as [Hk Hg]. split; [exact Hk|].
    intros c. cbn zeta in Hg. rewrite Hg, groupOf_pushTo.
    unfold inCategory. cbn [filter]. fold (inCategory c products).
    destruct (sameCategory (category (definition p)) c).
    + destruct (groupOf c grouped) as [g|]; cbn [orElse app];
        rewrite <- ?app_assoc; reflexivity.
    + reflexivity.
Qed.

(** X22.  [getProductsByCategory] has one group per category that holds an
    enabled product, and no other: the group of a category lists the
    enabled products of that category, all of them, in the order of the
    registry. *)
Theorem products_grouped_by_category (PRODUCTS : list ProductDefinition)
    (config : ContractConfig) (defaultZoneTags : list string) :
  let grouped := getProductsByCategory PRODUCTS config defaultZoneTags in
  let enabledProducts := getEnabledProducts PRODUCTS config defaultZoneTags in
  NoDup (map fst grouped)
  /\ forall c,
       groupOf c grouped
       = match inCategory c enabledProducts with
         | [] => None
         | products => Some products
         end.
Proof.
  intros grouped enabledProducts.
  destruct (fold_pushTo enabledProducts [] (NoDup_nil _)
              ltac:(intros c; discriminate)) as [Hk Hg].
  split; [exact Hk|]. intros c. cbn zeta in Hg.
  unfold grouped, getProductsByCategory. fold enabledProducts.
  rewrite Hg. cbn [groupOf orElse app].
  destruct (inCategory c enabledProducts); reflexivity.
Qed.

(* ================================================================== *)
(** * What a record is about, zone filters and overrides *)
(* ================================================================== *)

(** X23.  Whatever the backend answers, the record that [queryProductUsage]
    returns names the product it was asked about, with its limit, unit,
    scope, note and unlimited flag, and the billing period it was asked
    for, and it carries the duration of the query: a failure changes none
    of these. *)
Theorem usage_record_names_its_product (exec : Call -> Outcome)
    (elapsedMs : ProductRuntime -> num) (apiToken accountId : string)
    (product : ProductRuntime) (billingStart billingEnd : Date)
    (filters : option QueryFilterOptions) :
  let r :=
    fst (queryProductUsage exec elapsedMs apiToken accountId product
           billingStart billingEnd filters) in
  let d := definition product in
  identityOf r
  = (id d, name d, category d, limit product, unit_ d, scope d,
     toISOString billingStart, toISOString billingEnd, note d, None,
     unlimited d)
  /\ queryDurationMs r = Some (elapsedMs product).
Proof. apply run_identity. Qed.

Lemma lookupOverride_In (k : string) (overrides : list (string * ProductConfig))
    (c : ProductConfig) :
  lookupOverride k overrides = Some c -> In (k, c) overrides.
Proof.
  unfold lookupOverride.
  assert (H : forall acc,
              fold_left
                (fun acc kv => if (fst kv =? k)%string then Some (snd kv) else acc)
                overrides acc = Some c ->
              acc = Some c \/ In (k, c) overrides).
  { induction overrides as [|[k' c'] rest IH]; intros acc Hf; [left; exact Hf|].
    cbn [fold_left fst snd] in Hf. apply IH in Hf as [Hf|Hf].
    - destruct (String.eqb_spec k' k) as [->|_].
      + inversion Hf; subst. right. left. reflexivity.
      + left. exact Hf.
    - right. right. exact Hf. }
  intros Hf. apply H in Hf as [Hf|Hf]; [discriminate|exact Hf].
Qed.

(** The zone tags of a configured product without tags of its own. *)
Lemma configured_zoneTags (PRODUCTS : list ProductDefinition)
    (config : ContractConfig) (tags : list string) (p : ProductRuntime) :
  noZoneOverride config ->
  In p (getConfiguredProducts PRODUCTS config tags) ->
  zoneTags p
  = match scope (definition p) with
    | zone => Some tags
    | account => None
    end.
Proof.
  intros Hno Hp. unfold getConfiguredProducts in Hp.
  apply in_map_iff in Hp as (d & <- & _).
  unfold mergeProductConfig. cbn [zoneTags definition].
  destruct (lookupOverride (id d) (productOverrides config)) as [c|] eqn:E;
    cbn [optField]; [|reflexivity].
  apply lookupOverride_In in E. rewrite (Hno _ _ E). reflexivity.
Qed.

(** The requests of a run for a zone-scoped product are requests for its
    zones. *)
Lemma run_requests_zone (exec : Call -> Outcome)
    (elapsedMs : ProductRuntime -> num) (tok acc : string)
    (product : ProductRuntime) (bs be : Date)
    (filters : option QueryFilterOptions) :
  scope (definition product) = zone ->
  Forall
    (fun e =>
       exists tag,
         In tag (orElse (zoneTags product) [])
         /\ e = Issued (zoneCall tok product bs be filters tag))
    (snd (queryProductUsage exec elapsedMs tok acc product bs be filters)).
Proof.
  intros Hs. rewrite run_trace. unfold fetchUsage. rewrite Hs.
  destruct (orElse (zoneTags product) []) as [|tag rest] eqn:Ht.
  - constructor.
  - fold (startParameter product bs). fold (endParameter product be).
    unfold bind.
    destruct (zoneLoop_trace exec tok product bs be filters (tag :: rest)
                initialZoneTotals
                {| result := initialResult product bs be; trace := [] |})
      as [n Hn].
    destruct (zoneLoop exec tok product (startParameter product bs)
                (endParameter product be) filters (tag :: rest)
                initialZoneTotals _) as [[t|msg] s1].
    + cbn [snd trace app] in Hn.
      assert (Ht1 : trace (snd (match confidenceOfZones t with
                                | Some ci => assign (set_confidence (Some ci))
                                | None => ret tt
                                end s1)) = trace s1)
        by (destruct (confidenceOfZones t); reflexivity).
      rewrite Ht1, Hn.
      apply Forall_forall. intros e He. apply in_map_iff in He.
      destruct He as (z & <- & Hz). exists z.
      split; [|reflexivity]. eapply In_firstn. exact Hz.
    + cbn [snd trace app] in Hn. cbn [snd]. rewrite Hn.
      apply Forall_forall. intros e He. apply in_map_iff in He.
      destruct He as (z & <- & Hz). exists z.
      split; [|reflexivity]. eapply In_firstn. exact Hz.
Qed.

(** X24.  With a zone filter, [queryAllConfiguredProductUsage] returns records
    of zone-scoped products only, none of them under the identifier of an
    account-wide CDN product, and, when no product is configured with zone
    tags of its own, every request it sends is for the zone of the filter:
    the zones of the account play no part.  Without a zone filter it
    returns no record of a zone variant of a CDN product. *)
Theorem zone_filter_narrows_the_view (exec : Call -> Outcome)
    (elapsedMs : ProductRuntime -> num) (PRODUCTS : list ProductDefinition)
    (config : ContractConfig) (now : Date) (tok acc : string)
    (allZones : list string) (filters : option QueryFilterOptions) :
  exists results events,
    queryAllConfiguredProductUsage exec elapsedMs PRODUCTS config now tok acc
      allZones filters
    = Some (results, events)
    /\ match zoneFilter filters with
       | Some z =>
           Forall (fun r => resScope r = zone
                            /\ includes CDN_ACCOUNT_PRODUCTS (productId r)
                               = false) results
           /\ (noZoneOverride config ->
               Forall (fun e => e = Slept 100
                                \/ exists c,
                                     e = Issued c
                                     /\ In ("zoneTag"%string, z)
                                          (callVariables c)) events)
       | None =>
           Forall (fun r => includes CDN_ZONE_PRODUCTS (productId r) = false)
             results
       end.
Proof.
  unfold queryAllConfiguredProductUsage.
  destruct (getCurrentBillingPeriod now config) as [start end_].
  rewrite runBatches_all.
  set (query := fun p => queryProductUsage exec elapsedMs tok acc p start end_
                           filters).
  set (kept := filteredProducts PRODUCTS config allZones filters).
  eexists _, _. split; [reflexivity|].
  assert (Hrecords :
    forall (P : ProductRuntime -> Prop) (Q : ProductUsageResult -> Prop),
      (forall p r, P p -> productId r = id (definition p) ->
                   resScope r = scope (definition p) -> Q r) ->
      (forall p, In p kept -> P p) ->
      Forall Q
        (map (fun p => fst (query p)) (filter enabled kept)
         ++ map (placeholder start end_)
              (filter (fun p => negb (enabled p)) kept))%list).
  { intros P Q HQ HP. apply Forall_app. split; apply Forall_forall;
      intros r Hr; apply in_map_iff in Hr as (p & <- & Hp);
      apply filter_In in Hp as [Hp _].
    - destruct (identity_fields exec elapsedMs tok acc p start end_ filters)
        as [Hi Hsc].
      apply (HQ p); [apply HP, Hp|exact Hi|exact Hsc].
    - apply (HQ p); [apply HP, Hp|reflexivity|reflexivity]. }
  unfold kept, filteredProducts in *.
  destruct (zoneFilter filters) as [z|] eqn:Ez.
  - split.
    + apply (Hrecords
               (fun p => scope (definition p) = zone
                         /\ includes CDN_ACCOUNT_PRODUCTS (id (definition p))
                            = false)).
      * intros p r [Hs Hc] Hi Hsc. rewrite Hi, Hsc. auto.
      * intros p Hp. apply filter_In in Hp as [_ Hp].
        destruct (scope (definition p)); [|discriminate].
        apply negb_true_iff in Hp. auto.
    + intros Hno. eapply Forall_impl; [|apply runnerTrace_sources].
      intros e [->|(p & Hp & He)]; [left; reflexivity|]. right.
      apply filter_In in Hp as [Hp _]. apply filter_In in Hp as [Hp Hs].
      assert (Hzone : scope (definition p) = zone)
        by (destruct (scope (definition p)); [reflexivity|discriminate]).
      pose proof (run_requests_zone exec elapsedMs tok acc p start end_
                    filters Hzone) as Hreq.
      rewrite Forall_forall in Hreq. destruct (Hreq e He) as (tag & Htag & ->).
      rewrite (configured_zoneTags _ _ _ _ Hno Hp), Hzone in Htag.
      destruct Htag as [<-|[]].
      eexists. split; [reflexivity|]. left. reflexivity.
  - apply (Hrecords
             (fun p => includes CDN_ZONE_PRODUCTS (id (definition p)) = false)).
    + intros p r Hc Hi _. rewrite Hi. exact Hc.
    + intros p Hp. apply filter_In in Hp as [_ Hp].
      apply negb_true_iff in Hp. exact Hp.
Qed.

(** X24 on a registry of one zone-scoped product, seen through the filter
    of one zone while the account has two. *)
Lemma zone_filter_narrows_the_view_witness :
  exists results events,
    queryAllConfiguredProductUsage sampleBackend noElapsed
      [definition (sampleProduct zone None None n0 None)] CONTRACT_CONFIG
      march2024 "tok" "acct" ["Z1"%string; "Z2"%string] (Some oneZoneFilter)
    = Some (results, events)
    /\ Forall (fun r => resScope r = zone
                        /\ includes CDN_ACCOUNT_PRODUCTS (productId r)
                           = false) results
    /\ Forall (fun e => e = Slept 100
                        \/ exists c,
                             e = Issued c
                             /\ In ("zoneTag"%string, "Z1"%string)
                                  (callVariables c)) events.
Proof.
  destruct (zone_filter_narrows_the_view sampleBackend noElapsed
              [definition (sampleProduct zone None None n0 None)]
              CONTRACT_CONFIG march2024 "tok" "acct"
              ["Z1"%string; "Z2"%string] (Some oneZoneFilter))
    as (results & events & Hq & Hr & He).
  exists results, events. split; [exact Hq|]. split; [exact Hr|].
  apply He. intros k c Hin. cbn in Hin.
  destruct Hin as [Hin | [Hin | [Hin | []]]]; inversion Hin; reflexivity.
Defined.

(** X25.  [queryAllProductUsage] always returns, with one record per product of
    the registry that is enabled once the overrides are applied, in the
    order of the registry: an override can switch a product on or off, and
    a product that is off is not queried. *)
Theorem overrides_decide_what_is_queried (exec : Call -> Outcome)
    (elapsedMs : ProductRuntime -> num) (PRODUCTS : list ProductDefinition)
    (config : ContractConfig) (now : Date) (tok acc : string)
    (allZones : list string) (filters : option QueryFilterOptions) :
  exists results events,
    queryAllProductUsage exec elapsedMs PRODUCTS config now tok acc allZones
      filters
    = Some (results, events)
    /\ map productId results
       = map id (filter (enabledUnder config) PRODUCTS)
    /\ Forall
         (fun e =>
            e = Slept 100
            \/ exists p c,
                 In p (getConfiguredProducts PRODUCTS config allZones)
                 /\ enabledUnder config (definition p) = true
                 /\ e = Issued c
                 /\ (c = accountCall tok acc p
                           (fst (getCurrentBillingPeriod now config))
                           (snd (getCurrentBillingPeriod now config)) filters
                     \/ exists tag,
                          c = zoneCall tok p
                                (fst (getCurrentBillingPeriod now config))
                                (snd (getCurrentBillingPeriod now config))
                                filters tag))
         events.
Proof.
  unfold queryAllProductUsage.
  destruct (getCurrentBillingPeriod now config) as [start end_].
  rewrite runBatches_all. eexists _, _. split; [reflexivity|]. split.
  - rewrite map_map, <- (enabled_ids PRODUCTS config allZones).
    apply map_ext. intros p.
    apply (identity_fields exec elapsedMs tok acc p start end_ filters).
  - eapply Forall_impl; [|apply runnerTrace_sources].
    intros e [->|(p & Hp & He)]; [left; reflexivity|]. right.
    unfold getEnabledProducts in Hp. apply filter_In in Hp as [Hp Hen].
    pose proof (run_requests exec elapsedMs tok acc p start end_ filters)
      as Hreq.
    rewrite Forall_forall in Hreq.
    assert (Heff : enabledUnder config (definition p) = true).
    { unfold getConfiguredProducts in Hp.
      apply in_map_iff in Hp as (d & <- & _). exact Hen. }
    destruct (Hreq e He) as [->|(tag & _ & ->)].
    + exists p. eexists. repeat split; try eassumption. left. reflexivity.
    + exists p. eexists. repeat split; try eassumption. right.
      exists tag. reflexivity.
Qed.

(* ================================================================== *)
(** * Traffic filters and the confidence score *)
(* ================================================================== *)

Lemma buildAdditionalFilters_other (ds : string)
    (filters : option QueryFilterOptions) :
  ds <> "httpRequestsAdaptiveGroups"%string ->
  buildAdditionalFilters ds filters = EmptyString.
Proof.
  intros Hds. unfold buildAdditionalFilters.
  destruct filters as [f|]; [|reflexivity].
  assert (Hr : includes REQUEST_SOURCE_SUPPORTED_DATASETS ds = false).
  { cbn. destruct (String.eqb_spec ds "httpRequestsAdaptiveGroups");
      [contradiction|reflexivity]. }
  assert (Hs : includes STATUS_FILTER_SUPPORTED_DATASETS ds = false)
    by exact Hr.
  rewrite Hr, Hs, !andb_false_r. reflexivity.
Qed.

Lemma queries_without_filters (ds f : string) (agg : AggregationType)
    (ff : string) (filters : option QueryFilterOptions)
    (dims : option (list (string * DimensionValue))) :
  ds <> "httpRequestsAdaptiveGroups"%string ->
  buildZoneQuery ds f agg ff filters dims = buildZoneQuery ds f agg ff None dims
  /\ buildAccountQuery ds f agg ff filters dims
     = buildAccountQuery ds f agg ff None dims.
Proof.
  intros Hds. unfold buildZoneQuery, buildAccountQuery.
  rewrite (buildAdditionalFilters_other ds filters Hds).
  split; reflexivity.
Qed.

Lemma zoneLoop_without_filters (exec : Call -> Outcome) (tok : string)
    (product : ProductRuntime) (start end_ : string)
    (filters : option QueryFilterOptions) :
  dataset (definition product) <> "httpRequestsAdaptiveGroups"%string ->
  forall tags t s,
    zoneLoop exec tok product start end_ filters tags t s
    = zoneLoop exec tok product start end_ None tags t s.
Proof.
  intros Hds. induction tags as [|tag tags IH]; intros t s; [reflexivity|].
  cbn [zoneLoop].
  rewrite (proj1 (queries_without_filters _ _ _ _ filters _ Hds)).
  unfold bind at 1 3.
  destruct (executeGraphQL exec tok _ _ s) as [[r|msg] s']; [|reflexivity].
  destruct (hasErrors r); [apply IH|].
  unfold bind. destruct (assign _ s') as [[u|msg] s'']; [apply IH|reflexivity].
Qed.

(** X26.  The traffic filters reach the queries of one dataset only: a product
    over any dataset other than [httpRequestsAdaptiveGroups] sends the same
    requests and gets the same record with and without them. *)
Theorem filters_only_reach_http_requests (exec : Call -> Outcome)
    (elapsedMs : ProductRuntime -> num) (apiToken accountId : string)
    (product : ProductRuntime) (billingStart billingEnd : Date)
    (filters : option QueryFilterOptions) :
  dataset (definition product) <> "httpRequestsAdaptiveGroups"%string ->
  queryProductUsage exec elapsedMs apiToken accountId product billingStart
    billingEnd filters
  = queryProductUsage exec elapsedMs apiToken accountId product billingStart
      billingEnd None.
Proof.
  intros Hds. unfold queryProductUsage.
  assert (Hbody : forall s,
            queryProductUsageBody exec apiToken accountId product
              billingStart billingEnd filters s
            = queryProductUsageBody exec apiToken accountId product
                billingStart billingEnd None s).
  { intros s. unfold queryProductUsageBody.
    assert (Hfetch : fetchUsage exec apiToken accountId product billingStart
                       billingEnd filters s
                     = fetchUsage exec apiToken accountId product billingStart
                         billingEnd None s).
    { unfold fetchUsage. destruct (scope (definition product)).
      - destruct (orElse (zoneTags product) []) as [|tag tags]; [reflexivity|].
        unfold bind. rewrite (zoneLoop_without_filters _ _ _ _ _ filters Hds).
        reflexivity.
      - rewrite (proj2 (queries_without_filters _ _ _ _ filters _ Hds)).
        reflexivity. }
    unfold bind at 1 3. rewrite Hfetch. reflexivity. }
  unfold tryCatch. rewrite Hbody. reflexivity.
Qed.

(** X26 on a product over another dataset, queried under the filters of
    the workflow. *)
Lemma filters_only_reach_http_requests_witness :
  queryProductUsage sampleBackend noElapsed "tok" "acct"
    (sampleProduct account None None (ofZ 1000) None) march2024 april2024
    (Some DEFAULT_WORKFLOW_FILTERS)
  = queryProductUsage sampleBackend noElapsed "tok" "acct"
      (sampleProduct account None None (ofZ 1000) None) march2024 april2024
      None.
Proof.
  apply filters_only_reach_http_requests. discriminate.
Defined.

Lemma raw_score (e l u : Q) :
  (0 < e)%Q ->
  exists x,
    (n100 - ((((Fin u - Fin l) / Fin e) * n100) / n2))%num = Fin x
    /\ (x == 100 - (u - l) / e * 50)%Q.
Proof.
  intros He. apply Qsign_Gt in He.
  cbn [sub div]. rewrite He. cbn [mul n100 n2 ofZ div sub].
  change (Qsign (inject_Z 2)) with Gt. cbv iota.
  eexists. split; [reflexivity|].
  rewrite !Qred_correct. unfold inject_Z. field.
  apply Qsign_Gt in He. intros E. rewrite E in He. discriminate.
Qed.

Lemma clamp_mono (x y : Q) :
  (x <= y)%Q ->
  (clamp (Fin x) n0 n99 <=? clamp (Fin y) n0 n99)%num = true.
Proof.
  intros H. unfold clamp, JsNum.min, JsNum.max, n0, n99, ofZ.
  cbn [ltb].
  destruct (Qltb x (inject_Z 99)) eqn:Ex; destruct (Qltb y (inject_Z 99)) eqn:Ey;
    cbn [ltb];
    repeat match goal with
           | |- context [Qltb ?a ?b] => destruct (Qltb a b) eqn:?
           end;
    cbn [leb]; apply Qle_bool_iff;
    repeat match goal with
           | H : Qltb _ _ = true |- _ => apply Qltb_true in H
           | H : Qltb _ _ = false |- _ => apply Qltb_false in H
           end;
    unfold inject_Z in *; lra.
Qed.

(** X27.  For a finite estimate above zero the confidence score does not rise
    when the interval widens, and an interval of width zero scores 99. *)
Theorem confidence_percent_narrows (e l u l' u' : Q) :
  (0 < e)%Q ->
  (u - l <= u' - l')%Q ->
  (calculateConfidencePercent (Fin e) (Fin l') (Fin u')
   <=? calculateConfidencePercent (Fin e) (Fin l) (Fin u))%num = true
  /\ calculateConfidencePercent (Fin e) (Fin l) (Fin l) = n99.
Proof.
  intros He Hw.
  assert (Hz : (Fin e =? n0)%num = false).
  { apply Qeq_bool_false. intros E. unfold inject_Z in E. lra. }
  rewrite !calculateConfidencePercent_regular by (exact Hz || reflexivity).
  destruct (raw_score e l u He) as (x & -> & Hx).
  destruct (raw_score e l' u' He) as (x' & -> & Hx').
  destruct (raw_score e l l He) as (x0 & -> & Hx0).
  split.
  - apply clamp_mono. rewrite Hx, Hx'.
    assert (Hi : (0 < / e)%Q) by (apply Qinv_lt_0_compat, He).
    assert (Hd : ((u - l) / e <= (u' - l') / e)%Q).
    { unfold Qdiv. apply Qmult_le_compat_r; [exact Hw|apply Qlt_le_weak, Hi]. }
    lra.
  - assert (Hx99 : (99 <= x0)%Q).
    { rewrite Hx0.
      assert (Hzero : ((l - l) / e == 0)%Q) by (unfold Qdiv; ring).
      rewrite Hzero. lra. }
    unfold clamp, JsNum.min, JsNum.max, n0, n99, ofZ. cbn [ltb].
    replace (Qltb x0 (inject_Z 99)) with false
      by (symmetry; apply Qltb_false; unfold inject_Z; lra).
    reflexivity.
Qed.

(** X27 on an estimate of 100 with intervals of width 20 and 40. *)
Lemma confidence_percent_narrows_witness :
  (calculateConfidencePercent (Fin (inject_Z 100)) (Fin (inject_Z 80))
     (Fin (inject_Z 120))
   <=? calculateConfidencePercent (Fin (inject_Z 100)) (Fin (inject_Z 90))
         (Fin (inject_Z 110)))%num = true
  /\ calculateConfidencePercent (Fin (inject_Z 100)) (Fin (inject_Z 90))
       (Fin (inject_Z 90)) = n99.
Proof.
  apply confidence_percent_narrows.
  - reflexivity.
  - vm_compute. discriminate.
Defined.
